(** * english-handwritten: the response-to-record pipeline of [data/extractor.py]

    A shallow embedding of [extract_json_from_response], [extract_document]
    and [process_batch_documents], together with the parts of the Python
    standard library they call ([str.strip], [str.split], [json.loads],
    [re.search], [sqlite3], [os.listdir], [list.sort]) and the schema of
    [data/init_db.py].

    Conventions of the model.
    - A Python [str] is a list of Unicode code points ([N]).
    - A Python value (what [json.loads] returns, what a result dict holds) is
      a [value]; a [dict] is an association list in insertion order with
      unique keys.
    - A float is kept as the text of its literal; the one question asked of
      it is whether the double it denotes is zero.
    - Exceptions are values of [res] with their class and message (those of
      CPython 3.11); the world (database, event log) is threaded through the
      monad [M].
    - The two limits of the interpreter that [json.loads] can meet are
      answers of the outside ([py_limits]): how many nested calls the
      interpreter still allows, and the digit limit of [int]. *)

From Stdlib Require Import Ascii String.
From Stdlib Require Import List NArith ZArith Bool Lia Sorted Permutation.
Import ListNotations.

Set Implicit Arguments.
Set Warnings "-register-all".

(* ===================================================================== *)
(** * Python strings                                                     *)
(* ===================================================================== *)

Module PyStr.

Local Open Scope N_scope.

(** A [str] is a sequence of code points. *)
Definition str := list N.

(** The code points of an ASCII literal. *)
Definition py (s : string) : str := List.map N_of_ascii (list_ascii_of_string s).

(** The same, with every apostrophe read as a double quote: JSON text is
    written [js "{'a':1}"]. *)
Definition js (s : string) : str :=
  List.map (fun c => if c =? 39 then 34 else c) (py s).

Fixpoint str_eqb (a b : str) : bool :=
  match a, b with
  | [], [] => true
  | x :: a', y :: b' => (x =? y) && str_eqb a' b'
  | _, _ => false
  end.

(** [a < b] and [a <= b] on [str]: lexicographic on code points. *)
Fixpoint str_ltb (a b : str) : bool :=
  match a, b with
  | _, [] => false
  | [], _ :: _ => true
  | x :: a', y :: b' => (x <? y) || ((x =? y) && str_ltb a' b')
  end.

Definition str_leb (a b : str) : bool := negb (str_ltb b a).

(** [Py_UNICODE_ISSPACE]: the code points [str.strip()] removes and the
    pattern [\s] matches on a [str]. *)
Definition isspace (c : N) : bool :=
  ((9 <=? c) && (c <=? 13)) || ((28 <=? c) && (c <=? 32))
  || (c =? 133) || (c =? 160) || (c =? 5760)
  || ((8192 <=? c) && (c <=? 8202))
  || (c =? 8232) || (c =? 8233) || (c =? 8239) || (c =? 8287) || (c =? 12288).

Fixpoint dropwhile (p : N -> bool) (s : str) : str :=
  match s with
  | [] => []
  | c :: t => if p c then dropwhile p t else s
  end.

Definition lstrip (s : str) : str := dropwhile isspace s.

Fixpoint rstrip (s : str) : str :=
  match s with
  | [] => []
  | c :: t =>
      match rstrip t with
      | [] => if isspace c then [] else [c]
      | t' => c :: t'
      end
  end.

(** [s.strip()] *)
Definition strip (s : str) : str := rstrip (lstrip s).

(** [s.startswith(p)] *)
Fixpoint startswith (s p : str) : bool :=
  match p, s with
  | [], _ => true
  | x :: p', c :: s' => (c =? x) && startswith s' p'
  | _ :: _, [] => false
  end.

(** [s.endswith(p)] *)
Definition endswith (s p : str) : bool := startswith (rev s) (rev p).

(** [s.split('\n')] *)
Fixpoint split_lines (s : str) : list str :=
  match s with
  | [] => [[]]
  | c :: t =>
      if c =? 10 then [] :: split_lines t
      else match split_lines t with
           | l :: ls => (c :: l) :: ls
           | [] => [[c]]
           end
  end.

(** [sep.join(parts)] *)
Fixpoint join (sep : str) (parts : list str) : str :=
  match parts with
  | [] => []
  | [l] => l
  | l :: rest => l ++ sep ++ join sep rest
  end.

(** [l[a:b]] for indices that are not negative. *)
Definition slice {A : Type} (l : list A) (a b : Z) : list A :=
  firstn (Z.to_nat (b - a)) (skipn (Z.to_nat a) l).

(** [c.lower()] on one code point.  The table covers ASCII and Latin-1; it
    agrees with [str.lower] on every code point whose lower-case form holds
    a character of ['.jpg'], ['.jpeg'] or ['.png'], which is all the Batch
    Driver asks of it. *)
Definition lower_cp (c : N) : N :=
  if ((65 <=? c) && (c <=? 90))
     || ((192 <=? c) && (c <=? 214)) || ((216 <=? c) && (c <=? 222))
  then c + 32 else c.

Definition lower (s : str) : str := List.map lower_cp s.

Definition is_digit (c : N) : bool := (48 <=? c) && (c <=? 57).

(** The longest prefix of digits, and what follows it. *)
Fixpoint span_digits (s : str) : str * str :=
  match s with
  | c :: t => if is_digit c then let (ds, r) := span_digits t in (c :: ds, r)
              else ([], s)
  | [] => ([], [])
  end.

(** [int(digits)] for a run of decimal digits. *)
Definition nat_of_digits (ds : str) : Z :=
  fold_left (fun acc c => (acc * 10 + Z.of_N (c - 48))%Z) ds 0%Z.

(** The decimal digits of [n] in front of [acc]; a number has no more
    decimal digits than binary ones, which bounds the loop. *)
Fixpoint digits_before (fuel : nat) (n : N) (acc : str) : str :=
  let acc' := (48 + n mod 10) :: acc in
  match fuel with
  | O => acc'
  | S fuel' => if n / 10 =? 0 then acc' else digits_before fuel' (n / 10) acc'
  end.

(** [str(n)] for an int that is not negative *)
Definition str_of_N (n : N) : str := digits_before (N.to_nat (N.log2 n)) n [].

(** [str(z)] for an int *)
Definition str_of_Z (z : Z) : str :=
  if (z <? 0)%Z then 45 :: str_of_N (Z.to_N (- z)) else str_of_N (Z.to_N z).

End PyStr.
Export PyStr.

(* ===================================================================== *)
(** * Python values, dictionaries and exceptions                         *)
(* ===================================================================== *)

Module Py.

Inductive value : Type :=
| PyNone
| PyBool (b : bool)
| PyInt (z : Z)
| PyFloat (lit : str)
| PyStr (s : str)
| PyList (l : list value)
| PyDict (d : list (str * value)).

Definition dict := list (str * value).

(** [d.get(k)], with [None] of Rocq for a missing key. *)
Fixpoint dict_lookup (d : dict) (k : str) : option value :=
  match d with
  | [] => None
  | (k', v) :: d' => if str_eqb k' k then Some v else dict_lookup d' k
  end.

(** [k in d] *)
Definition dict_has (d : dict) (k : str) : bool :=
  match dict_lookup d k with Some _ => true | None => false end.

(** [d.get(k)]: a missing key gives Python's [None]. *)
Definition dict_get (d : dict) (k : str) : value :=
  match dict_lookup d k with Some v => v | None => PyNone end.

(** [d.get(k, default)] *)
Definition dict_get_default (d : dict) (k : str) (default : value) : value :=
  match dict_lookup d k with Some v => v | None => default end.

(** [d[k] = v]: an existing key keeps its place, a new one goes last. *)
Fixpoint dict_set (d : dict) (k : str) (v : value) : dict :=
  match d with
  | [] => [(k, v)]
  | (k', v') :: d' =>
      if str_eqb k' k then (k', v) :: d' else (k', v') :: dict_set d' k v
  end.

(** [dict(pairs)] *)
Definition dict_of_pairs (pairs : list (str * value)) : dict :=
  fold_left (fun d kv => dict_set d (fst kv) (snd kv)) pairs [].

(** The number a float literal of JSON writes, as [(m, e)] for m times ten
    to the e, the sign aside; nothing for NaN, Infinity and -Infinity. *)
Definition float_decimal (lit : str) : option (Z * Z) :=
  let unsigned :=
    match lit with
    | c :: t => if N.eqb c 45 then t else lit
    | [] => lit
    end in
  let (int_digits, r) := span_digits unsigned in
  match int_digits with
  | [] => None
  | _ :: _ =>
      let (frac_digits, r1) :=
        match r with
        | c :: t => if N.eqb c 46 then span_digits t else ([], r)
        | [] => ([], r)
        end in
      let exponent :=
        match r1 with
        | c :: t =>
            if (N.eqb c 101 || N.eqb c 69)%bool then
              match t with
              | g :: t' =>
                  if N.eqb g 45 then (- nat_of_digits (fst (span_digits t')))%Z
                  else if N.eqb g 43 then nat_of_digits (fst (span_digits t'))
                  else nat_of_digits (fst (span_digits t))
              | [] => 0%Z
              end
            else 0%Z
        | [] => 0%Z
        end in
      Some (nat_of_digits (int_digits ++ frac_digits),
            (exponent - Z.of_nat (length frac_digits))%Z)
  end.

(** [float(lit) == 0.0].  The decoder makes the double nearest to the
    number written, so the float is zero when the number is zero and when
    it is so small that the nearest double is zero: at most 2 to the -1075,
    half the least positive double (the tie goes to zero, whose last bit
    is even). *)
Definition float_is_zero (lit : str) : bool :=
  match float_decimal lit with
  | None => false
  | Some (m, e) =>
      (Z.eqb m 0 || (Z.ltb e 0 && Z.leb (m * 2 ^ 1075) (10 ^ (- e))))%bool
  end.

(** [type(v).__name__] *)
Definition type_name (v : value) : str :=
  match v with
  | PyNone => py "NoneType"
  | PyBool _ => py "bool"
  | PyInt _ => py "int"
  | PyFloat _ => py "float"
  | PyStr _ => py "str"
  | PyList _ => py "list"
  | PyDict _ => py "dict"
  end.

(** [bool(v)] *)
Definition truthy (v : value) : bool :=
  match v with
  | PyNone => false
  | PyBool b => b
  | PyInt z => negb (Z.eqb z 0)
  | PyFloat lit => negb (float_is_zero lit)
  | PyStr s => match s with [] => false | _ => true end
  | PyList l => match l with [] => false | _ => true end
  | PyDict d => match d with [] => false | _ => true end
  end.

(** The exception classes the pipeline meets; all derive from [Exception].
    [JSONDecodeError] is the class of that name alone: the [ValueError] of
    this list is one that is not a [JSONDecodeError], so that an
    [except json.JSONDecodeError] does not take it. *)
Inductive exn_class : Type :=
| JSONDecodeError
| RecursionError
| ValueError
| TypeError
| KeyError
| IndexError
| AttributeError
| OSError
| RequestException
| IntegrityError
| ProgrammingError
| OverflowError
| UnicodeEncodeError.

Definition exn_class_eqb (a b : exn_class) : bool :=
  match a, b with
  | JSONDecodeError, JSONDecodeError | RecursionError, RecursionError
  | ValueError, ValueError | TypeError, TypeError | KeyError, KeyError | IndexError, IndexError
  | AttributeError, AttributeError | OSError, OSError
  | RequestException, RequestException | IntegrityError, IntegrityError
  | ProgrammingError, ProgrammingError | OverflowError, OverflowError
  | UnicodeEncodeError, UnicodeEncodeError => true
  | _, _ => false
  end.

(** An exception: its class and [str(e)]. *)
Record exn : Type := Exn { exn_cls : exn_class; exn_msg : str }.

Inductive res (A : Type) : Type :=
| Ret (a : A)
| Raise (e : exn).
Arguments Ret {A} a.
Arguments Raise {A} e.

End Py.
Export Py.

(* ===================================================================== *)
(** * [json.loads]: CPython's decoder ([json/decoder.py], [json/scanner.py])
      with its default hooks and [strict=True]                           *)
(* ===================================================================== *)

Module Json.

Local Open Scope N_scope.

(** The two limits of the interpreter the decoder can meet.
    [recursion_budget] is the number of containers the scanner may be inside
    at once at this call: entering an object or an array is a nested call
    ([Py_EnterRecursiveCall]), and the interpreter refuses the call that
    would pass its recursion limit.  [int_max_str_digits] is
    [sys.get_int_max_str_digits()]: 4300 by default, 0 for no limit. *)
Record limits : Type := {
  recursion_budget : nat;
  int_max_str_digits : nat
}.

(** The outcome of a scanning function: the value and the text after it, a
    [JSONDecodeError], another exception, or the end of the budget of a
    loop of the model (which no text reaches, see [json_loads_budget]). *)
Inductive pres (A : Type) : Type :=
| POk (a : A) (rest : str)
| PErr
| PRaise (e : exn)
| PFuel.
Arguments POk {A} a rest.
Arguments PErr {A}.
Arguments PRaise {A} e.
Arguments PFuel {A}.

(** [WHITESPACE = re.compile(r'[ \t\n\r]*')] *)
Definition json_ws (c : N) : bool :=
  (c =? 32) || (c =? 9) || (c =? 10) || (c =? 13).

(** [_w(s, end).end()] *)
Definition skip_ws (s : str) : str := dropwhile json_ws s.

Definition hexval (c : N) : option N :=
  if (48 <=? c) && (c <=? 57) then Some (c - 48)
  else if (97 <=? c) && (c <=? 102) then Some (c - 87)
  else if (65 <=? c) && (c <=? 70) then Some (c - 55)
  else None.

Definition hex4 (a b c d : N) : option N :=
  match hexval a, hexval b, hexval c, hexval d with
  | Some x, Some y, Some z, Some w => Some (((x * 16 + y) * 16 + z) * 16 + w)
  | _, _, _, _ => None
  end.

(** [BACKSLASH] *)
Definition backslash (e : N) : option N :=
  if e =? 34 then Some 34          (* quote *)
  else if e =? 92 then Some 92     (* backslash *)
  else if e =? 47 then Some 47     (* slash *)
  else if e =? 98 then Some 8      (* \b *)
  else if e =? 102 then Some 12    (* \f *)
  else if e =? 110 then Some 10    (* \n *)
  else if e =? 114 then Some 13    (* \r *)
  else if e =? 116 then Some 9     (* \t *)
  else None.

Definition is_high_surrogate (u : N) : bool := (55296 <=? u) && (u <=? 56319).
Definition is_low_surrogate (u : N) : bool := (56320 <=? u) && (u <=? 57343).

Definition join_surrogates (u u2 : N) : N :=
  65536 + ((u - 55296) * 1024 + (u2 - 56320)).

Definition cons_chunk (c : N) (r : option (str * str)) : option (str * str) :=
  match r with
  | Some (x, rest) => Some (c :: x, rest)
  | None => None
  end.

(** [scanstring(s, end)], entered after the opening quote: the decoded
    string and the text after the closing quote. *)
Fixpoint scanstring (s : str) : option (str * str) :=
  match s with
  | [] => None                                   (* unterminated string *)
  | c :: t =>
      if c =? 34 then Some ([], t)
      else if c =? 92 then
        match t with
        | [] => None
        | e :: t1 =>
            if e =? 117 then
              match t1 with
              | h1 :: h2 :: h3 :: h4 :: t5 =>
                  match hex4 h1 h2 h3 h4 with
                  | None => None                 (* invalid \uXXXX escape *)
                  | Some uni =>
                      if is_high_surrogate uni then
                        match t5 with
                        | b :: u :: t7 =>
                            if (b =? 92) && (u =? 117) then
                              match t7 with
                              | g1 :: g2 :: g3 :: g4 :: t11 =>
                                  match hex4 g1 g2 g3 g4 with
                                  | None => None
                                  | Some uni2 =>
                                      if is_low_surrogate uni2
                                      then cons_chunk (join_surrogates uni uni2) (scanstring t11)
                                      else cons_chunk uni (scanstring t5)
                                  end
                              | _ => None
                              end
                            else cons_chunk uni (scanstring t5)
                        | _ => cons_chunk uni (scanstring t5)
                        end
                      else cons_chunk uni (scanstring t5)
                  end
              | _ => None
              end
            else
              match backslash e with
              | Some r => cons_chunk r (scanstring t1)
              | None => None                     (* invalid \escape *)
              end
        end
      else if c <? 32 then None                  (* invalid control character *)
      else cons_chunk c (scanstring t)
  end.

(** [NUMBER_RE.match(s, idx)]: an optional minus sign and either 0 or a
    digit from 1 to 9 followed by digits (group 1); optionally a dot and at
    least one digit (group 2); optionally e or E, an optional sign and at
    least one digit (group 3).  The three groups and the text after the
    match. *)
Definition number_sign (s : str) : str * str :=
  match s with
  | c :: t => if c =? 45 then ([45], t) else ([], s)
  | [] => ([], s)
  end.

Definition number_int (s : str) : option (str * str) :=
  match s with
  | d :: t =>
      if d =? 48 then Some ([48], t)
      else if is_digit d then let (ds, r) := span_digits t in Some (d :: ds, r)
      else None
  | [] => None
  end.

Definition number_frac (s : str) : str * str :=
  match s with
  | c :: t =>
      if c =? 46 then
        match span_digits t with
        | ([], _) => ([], s)
        | (ds, r) => (46 :: ds, r)
        end
      else ([], s)
  | [] => ([], s)
  end.

Definition number_exp (s : str) : str * str :=
  match s with
  | c :: t =>
      if (c =? 101) || (c =? 69) then
        let (sg, t') :=
          match t with
          | g :: t'' => if (g =? 45) || (g =? 43) then ([g], t'') else ([], t)
          | [] => ([], t)
          end in
        match span_digits t' with
        | ([], _) => ([], s)
        | (ds, r) => (c :: sg ++ ds, r)
        end
      else ([], s)
  | [] => ([], s)
  end.

Definition match_number (s : str) : option (str * str * str * str) :=
  let (sign, s1) := number_sign s in
  match number_int s1 with
  | None => None
  | Some (digits, r) =>
      let (frac, r1) := number_frac r in
      let (exp, r2) := number_exp r1 in
      Some (sign ++ digits, frac, exp, r2)
  end.

(** [int(integer)] for the first group of [NUMBER_RE]. *)
Definition parse_int (integer : str) : Z :=
  match integer with
  | c :: t => if c =? 45 then (- nat_of_digits t)%Z else nat_of_digits integer
  | [] => 0%Z
  end.

Section Containers.

(** [JSONObject] and [JSONArray] receive the scanner as an argument. *)
Variable scan_once : str -> pres value.

(** The [while True] loop of [JSONObject], entered after the opening quote
    of a property name. *)
Fixpoint object_loop (fuel : nat) (pairs : list (str * value)) (s : str)
  : pres (list (str * value)) :=
  match fuel with
  | O => PFuel
  | S fuel' =>
      match scanstring s with
      | None => PErr
      | Some (key, s1) =>
          match skip_ws s1 with
          | c :: s2 =>
              if c =? 58 then
                match scan_once (skip_ws s2) with
                | POk v s3 =>
                    match skip_ws s3 with
                    | c' :: s4 =>
                        if c' =? 125 then POk (pairs ++ [(key, v)]) s4
                        else if c' =? 44 then
                          match skip_ws s4 with
                          | q :: s5 =>
                              if q =? 34
                              then object_loop fuel' (pairs ++ [(key, v)]) s5
                              else PErr    (* expecting property name *)
                          | [] => PErr
                          end
                        else PErr          (* expecting ',' delimiter *)
                    | [] => PErr
                    end
                | PErr => PErr             (* expecting value *)
                | PRaise e => PRaise e
                | PFuel => PFuel
                end
              else PErr                    (* expecting ':' delimiter *)
          | [] => PErr
          end
      end
  end.

(** [JSONObject((s, end), ...)], entered after the brace. *)
Definition JSONObject (fuel : nat) (s : str) : pres value :=
  match skip_ws s with
  | c :: t =>
      if c =? 125 then POk (PyDict []) t   (* trivial empty object *)
      else if c =? 34 then
        match object_loop fuel [] t with
        | POk pairs r => POk (PyDict (dict_of_pairs pairs)) r
        | PErr => PErr
        | PRaise e => PRaise e
        | PFuel => PFuel
        end
      else PErr
  | [] => PErr
  end.

(** The [while True] loop of [JSONArray]. *)
Fixpoint array_loop (fuel : nat) (values : list value) (s : str)
  : pres (list value) :=
  match fuel with
  | O => PFuel
  | S fuel' =>
      match scan_once s with
      | POk v s1 =>
          match skip_ws s1 with
          | c :: s2 =>
              if c =? 93 then POk (values ++ [v]) s2
              else if c =? 44 then array_loop fuel' (values ++ [v]) (skip_ws s2)
              else PErr                    (* expecting ',' delimiter *)
          | [] => PErr
          end
      | PErr => PErr
      | PRaise e => PRaise e
      | PFuel => PFuel
      end
  end.

(** [JSONArray((s, end), scan_once)], entered after the bracket. *)
Definition JSONArray (fuel : nat) (s : str) : pres value :=
  match skip_ws s with
  | c :: t =>
      if c =? 93 then POk (PyList []) t    (* trivial empty array *)
      else
        match array_loop fuel [] (skip_ws s) with
        | POk values r => POk (PyList values) r
        | PErr => PErr
        | PRaise e => PRaise e
        | PFuel => PFuel
        end
  | [] => PErr
  end.

End Containers.

(** The [RecursionError] of a nested call that is refused. *)
Definition recursion_error (container : string) : exn :=
  Exn RecursionError
      (py "maximum recursion depth exceeded while decoding a JSON "
       ++ py container ++ py " from a unicode string").

(** [int(integer)] refuses a literal of more digits than the limit (the
    sign is not counted, and literals of up to 640 digits are never
    refused). *)
Definition int_digits (integer : str) : nat :=
  match integer with
  | c :: t => if c =? 45 then length t else length integer
  | [] => O
  end.

Definition int_too_long (L : limits) (integer : str) : bool :=
  (640 <? int_digits integer)%nat
  && (0 <? int_max_str_digits L)%nat
  && (int_max_str_digits L <? int_digits integer)%nat.

Definition int_digits_error (L : limits) (integer : str) : exn :=
  Exn ValueError
      (py "Exceeds the limit (" ++ str_of_N (N.of_nat (int_max_str_digits L))
       ++ py " digits) for integer string conversion: value has "
       ++ str_of_N (N.of_nat (int_digits integer))
       ++ py " digits; use sys.set_int_max_str_digits() to increase the limit").

(** [scan_once(string, idx)] with [depth] nested calls left.  [fuel] bounds
    the recursion of the model. *)
Fixpoint scan_once (L : limits) (fuel : nat) (depth : nat) (s : str) : pres value :=
  match fuel with
  | O => PFuel
  | S fuel' =>
      match s with
      | [] => PErr                           (* StopIteration *)
      | nextchar :: t =>
          if nextchar =? 34 then
            match scanstring t with
            | Some (x, r) => POk (PyStr x) r
            | None => PErr
            end
          else if nextchar =? 123 then
            match depth with
            | O => PRaise (recursion_error "object")
            | S depth' => JSONObject (scan_once L fuel' depth') fuel' t
            end
          else if nextchar =? 91 then
            match depth with
            | O => PRaise (recursion_error "array")
            | S depth' => JSONArray (scan_once L fuel' depth') fuel' t
            end
          else if startswith s (py "null") then POk PyNone (skipn 4 s)
          else if startswith s (py "true") then POk (PyBool true) (skipn 4 s)
          else if startswith s (py "false") then POk (PyBool false) (skipn 5 s)
          else
            match match_number s with
            | Some (integer, frac, exp, r) =>
                match frac, exp with
                | [], [] =>
                    if int_too_long L integer
                    then PRaise (int_digits_error L integer)
                    else POk (PyInt (parse_int integer)) r
                | _, _ => POk (PyFloat (integer ++ frac ++ exp)) r
                end
            | None =>
                if startswith s (py "NaN") then POk (PyFloat (py "NaN")) (skipn 3 s)
                else if startswith s (py "Infinity")
                then POk (PyFloat (py "Infinity")) (skipn 8 s)
                else if startswith s (py "-Infinity")
                then POk (PyFloat (py "-Infinity")) (skipn 9 s)
                else PErr
            end
      end
  end.

Definition decode_error : exn := Exn JSONDecodeError (py "Expecting value").

(** [json.loads(s)]: [decode] skips white space, scans one value, skips
    white space and wants the end of the text.  The budget of the model's
    loops is the length of the text plus one, which is never used up (see
    [json_loads_budget]): the last case of the match is met by no text. *)
Definition json_loads (L : limits) (s : str) : res value :=
  if startswith s [65279]
  then Raise (Exn JSONDecodeError (py "Unexpected UTF-8 BOM"))
  else
    match scan_once L (S (length s)) (recursion_budget L) (skip_ws s) with
    | POk obj rest =>
        match skip_ws rest with
        | [] => Ret obj
        | _ :: _ => Raise (Exn JSONDecodeError (py "Extra data"))
        end
    | PErr => Raise decode_error
    | PRaise e => Raise e
    | PFuel => Raise decode_error
    end.

(** The exceptions of the decoder that are not a [JSONDecodeError]. *)
Definition limit_error (e : exn) : Prop :=
  exn_cls e = RecursionError \/ exn_cls e = ValueError.

(** A scanner is productive below [n] when, on a text shorter than [n], it
    does not stop for lack of budget, leaves less than it was given, and
    raises nothing but the errors of the two limits. *)
Definition productive (scan : str -> pres value) (n : nat) : Prop :=
  forall s, (length s < n)%nat ->
    scan s <> PFuel /\
    (forall v r, scan s = POk v r -> (length r < length s)%nat) /\
    (forall e, scan s = PRaise e -> limit_error e).

End Json.
Export Json.

(* ===================================================================== *)
(** * [re.search]: a backtracking matcher for the constructs the pattern
      of the Extractor uses                                              *)
(* ===================================================================== *)

Module Re.

Local Open Scope N_scope.

Inductive regex : Type :=
| Chr (p : N -> bool)            (* one character of a class *)
| StarGreedy (p : N -> bool)     (* c*  : as many as possible first *)
| StarLazy (p : N -> bool)       (* c*? : as few as possible first *)
| Opt (r : regex)                (* r?  : with r first, then without *)
| Cat (r1 r2 : regex)
| Group (r : regex).             (* the capturing group 1 *)

Section Matcher.

Variable R : Type.

Fixpoint star_greedy (p : N -> bool) (s : str) (k : str -> option R) : option R :=
  match s with
  | c :: t =>
      if p c then
        match star_greedy p t k with
        | Some x => Some x
        | None => k s
        end
      else k s
  | [] => k s
  end.

Fixpoint star_lazy (p : N -> bool) (s : str) (k : str -> option R) : option R :=
  match k s with
  | Some x => Some x
  | None =>
      match s with
      | c :: t => if p c then star_lazy p t k else None
      | [] => None
      end
  end.

(** [rmatch r s cap k]: match [r] at the head of [s], then hand the rest
    of the text and the capture to the continuation [k]; the first
    alternative that lets the continuation succeed wins. *)
Fixpoint rmatch (r : regex) (s : str) (cap : option str)
         (k : str -> option str -> option R) : option R :=
  match r with
  | Chr p =>
      match s with
      | c :: t => if p c then k t cap else None
      | [] => None
      end
  | StarGreedy p => star_greedy p s (fun s' => k s' cap)
  | StarLazy p => star_lazy p s (fun s' => k s' cap)
  | Opt r1 =>
      match rmatch r1 s cap k with
      | Some x => Some x
      | None => k s cap
      end
  | Cat r1 r2 => rmatch r1 s cap (fun s' cap' => rmatch r2 s' cap' k)
  | Group r1 =>
      rmatch r1 s cap
        (fun s' _ => k s' (Some (firstn (length s - length s')%nat s)))
  end.

End Matcher.

(** [pattern.match(s)]: group 1 of the match at the head of [s]. *)
Definition re_match (r : regex) (s : str) : option (option str) :=
  rmatch r s None (fun _ cap => Some cap).

(** [re.search(pattern, s)]: the match at the leftmost position that has
    one; [group(1)] of it. *)
Fixpoint re_search (r : regex) (s : str) : option (option str) :=
  match re_match r s with
  | Some cap => Some cap
  | None =>
      match s with
      | [] => None
      | _ :: t => re_search r t
      end
  end.

Definition lit (c : N) : regex := Chr (fun x => x =? c).

(** A letter under [re.IGNORECASE]: its two cases and, for s, the long s
    (U+017F) that the engine folds to it. *)
Definition ilit (lo up : N) (extra : list N) : regex :=
  Chr (fun x => (x =? lo) || (x =? up) || existsb (N.eqb x) extra).

Definition backtick : N := 96.

(** The fence: three backticks. *)
Definition fence : regex := Cat (lit backtick) (Cat (lit backtick) (lit backtick)).

(** The optional tag json, in any letter case. *)
Definition json_tag : regex :=
  Opt (Cat (ilit 106 74 []) (Cat (ilit 115 83 [383])
      (Cat (ilit 111 79 []) (ilit 110 78 [])))).

(** Group 1: an opening brace, anything (as little as possible, line
    breaks included) and a closing brace. *)
Definition json_group : regex :=
  Group (Cat (lit 123) (Cat (StarLazy (fun _ => true)) (lit 125))).

(** White space and the closing fence. *)
Definition closing : regex := Cat (StarGreedy isspace) fence.

(** The pattern of the Extractor: the fence, the optional tag, white space,
    group 1, white space and the fence; flags [re.DOTALL | re.IGNORECASE]. *)
Definition json_pattern : regex :=
  Cat fence (Cat json_tag (Cat (StarGreedy isspace) (Cat json_group closing))).

End Re.
Export Re.

(* ===================================================================== *)
(** * The database of [init_db.py] as [sqlite3] presents it              *)
(* ===================================================================== *)

Module Sqlite.

Local Open Scope Z_scope.

(** A value of the engine.  A float is bound as a REAL and known by its
    literal; [SqlRealText] is the text a column of TEXT affinity makes of
    that REAL (the engine prints it with 15 significant digits: 1.5 gives
    '1.5', 1965.0 gives '1965.0', 1e100 gives '1.0e+100'). *)
Inductive sqlval : Type :=
| SqlNull
| SqlInteger (z : Z)
| SqlReal (lit : str)
| SqlText (s : str)
| SqlRealText (lit : str).

(** What a column declared TEXT stores for a value: NULL and text as they
    are, a number as its text.  Every data column of [init_db.py] is TEXT. *)
Definition text_affinity (x : sqlval) : sqlval :=
  match x with
  | SqlNull => SqlNull
  | SqlInteger z => SqlText (str_of_Z z)
  | SqlReal lit => SqlRealText lit
  | SqlText s => SqlText s
  | SqlRealText lit => SqlRealText lit
  end.

(** [documents]; [created_at] takes the engine's default and is left out. *)
Record document_row : Type := {
  doc_id : Z;
  doc_document_type : sqlval;
  doc_year : sqlval;
  doc_office_location : sqlval;
  doc_confidence : sqlval;
  doc_extraction_notes : sqlval;
  doc_source_path : sqlval
}.

(** [index1_entries] *)
Record index1_row : Type := {
  i1_id : Z;
  i1_document_id : Z;
  i1_serial_number : sqlval;
  i1_name_of_person : sqlval;
  i1_family_details : sqlval;
  i1_police_station : sqlval;
  i1_religion : sqlval;
  i1_occupation : sqlval;
  i1_interest_of_person : sqlval;
  i1_where_registered : sqlval;
  i1_book_1_volume : sqlval;
  i1_book_2_page : sqlval
}.

(** [index2_entries] *)
Record index2_row : Type := {
  i2_id : Z;
  i2_document_id : Z;
  i2_serial_number : sqlval;
  i2_property_name : sqlval;
  i2_pargana_town_thana : sqlval;
  i2_location : sqlval;
  i2_nature_of_transaction : sqlval;
  i2_where_registered : sqlval;
  i2_book_1_volume : sqlval;
  i2_book_1_page : sqlval
}.

(** The three tables and the AUTOINCREMENT counter of each. *)
Record database : Type := {
  documents : list document_row;
  index1_entries : list index1_row;
  index2_entries : list index2_row;
  seq_documents : Z;
  seq_index1 : Z;
  seq_index2 : Z
}.

Definition empty_db : database :=
  {| documents := []; index1_entries := []; index2_entries := [];
     seq_documents := 0; seq_index1 := 0; seq_index2 := 0 |}.

Definition is_surrogate (c : N) : bool := ((55296 <=? c) && (c <=? 57343))%N.

Fixpoint run_length (p : N -> bool) (s : str) : N :=
  match s with
  | c :: t => if p c then (1 + run_length p t)%N else 0%N
  | [] => 0%N
  end.

Definition hex_digit (n : N) : N := (if n <? 10 then 48 + n else 87 + n)%N.

(** The [UnicodeEncodeError] of encoding to UTF-8 a text whose first
    surrogate is [c], at index [i], in a run of [n] surrogates. *)
Definition encode_error (i c n : N) : exn :=
  Exn UnicodeEncodeError
      (if (n =? 1)%N then
         py "'utf-8' codec can't encode character '\ud"
         ++ [hex_digit ((c / 256) mod 16); hex_digit ((c / 16) mod 16);
             hex_digit (c mod 16)]
         ++ py "' in position " ++ str_of_N i ++ py ": surrogates not allowed"
       else
         py "'utf-8' codec can't encode characters in position "
         ++ str_of_N i ++ py "-" ++ str_of_N (i + n - 1)%N
         ++ py ": surrogates not allowed").

(** [s.encode('utf-8')] fails at the first surrogate. *)
Fixpoint utf8_error (s : str) (i : N) : option exn :=
  match s with
  | [] => None
  | c :: t =>
      if is_surrogate c then Some (encode_error i c (run_length is_surrogate s))
      else utf8_error t (i + 1)%N
  end.

(** Binding one Python value to the [?] at a position (from 1) of a
    statement.  [sqlite3] takes None, int, float and str; an int must fit
    64 bits, a str must encode to UTF-8, and NaN is stored as NULL. *)
Definition bind_param (position : nat) (v : value) : res sqlval :=
  match v with
  | PyNone => Ret SqlNull
  | PyBool b => Ret (SqlInteger (if b then 1 else 0))
  | PyInt z =>
      if (- 2 ^ 63 <=? z) && (z <? 2 ^ 63) then Ret (SqlInteger z)
      else Raise (Exn OverflowError (py "Python int too large to convert to SQLite INTEGER"))
  | PyFloat l => Ret (if str_eqb l (py "NaN") then SqlNull else SqlReal l)
  | PyStr s =>
      match utf8_error s 0 with
      | Some e => Raise e
      | None => Ret (SqlText s)
      end
  | PyList _ | PyDict _ =>
      Raise (Exn ProgrammingError
                 (py "Error binding parameter " ++ str_of_N (N.of_nat position)
                  ++ py ": type '" ++ type_name v ++ py "' is not supported"))
  end.

Definition bindR {A B : Type} (r : res A) (k : A -> res B) : res B :=
  match r with
  | Ret a => k a
  | Raise e => Raise e
  end.

Notation "x <~ c ;; k" := (bindR c (fun x => k))
  (at level 61, c at next level, right associativity).

(** Binding the parameters of a statement, in order, the first of them
    at [position]. *)
Fixpoint bind_params (position : nat) (vs : list value) : res (list sqlval) :=
  match vs with
  | [] => Ret []
  | v :: vs' =>
      x <~ bind_param position v ;;
      xs <~ bind_params (S position) vs' ;;
      Ret (x :: xs)
  end.

Definition not_null (column : string) (x : sqlval) : res unit :=
  match x with
  | SqlNull =>
      Raise (Exn IntegrityError (py "NOT NULL constraint failed: " ++ py column))
  | _ => Ret tt
  end.

Definition nth_val (xs : list sqlval) (n : nat) : sqlval := nth n xs SqlNull.

(** The cell of a TEXT column for the [n]-th bound value. *)
Definition text_cell (xs : list sqlval) (n : nat) : sqlval :=
  text_affinity (nth_val xs n).

(** [INSERT INTO documents (document_type, year, office_location,
    confidence, extraction_notes, source_path) VALUES (?, ?, ?, ?, ?, ?)]
    on the connection's working copy.  The six columns are TEXT;
    [document_type] and [source_path] are NOT NULL. *)
Definition insert_document (conn : database) (params : list value) : res database :=
  xs <~ bind_params 1 params ;;
  _ <~ not_null "documents.document_type" (nth_val xs 0) ;;
  _ <~ not_null "documents.source_path" (nth_val xs 5) ;;
  let id := seq_documents conn + 1 in
  Ret {| documents := documents conn ++
           [ {| doc_id := id;
                doc_document_type := text_cell xs 0;
                doc_year := text_cell xs 1;
                doc_office_location := text_cell xs 2;
                doc_confidence := text_cell xs 3;
                doc_extraction_notes := text_cell xs 4;
                doc_source_path := text_cell xs 5 |} ];
         index1_entries := index1_entries conn;
         index2_entries := index2_entries conn;
         seq_documents := id;
         seq_index1 := seq_index1 conn;
         seq_index2 := seq_index2 conn |}.

(** [cursor.lastrowid] after an insert into [documents]. *)
Definition lastrowid_documents (conn : database) : Z := seq_documents conn.

(** [INSERT INTO index1_entries (document_id, serial_number, ...,
    book_2_page) VALUES (?, ..., ?)]; [document_id], the first parameter,
    is an INTEGER column that is NOT NULL and is bound from the int
    [cursor.lastrowid]; the other columns are TEXT. *)
Definition insert_index1 (conn : database) (document_id : Z) (params : list value)
  : res database :=
  xs <~ bind_params 2 params ;;
  let id := seq_index1 conn + 1 in
  Ret {| documents := documents conn;
         index1_entries := index1_entries conn ++
           [ {| i1_id := id;
                i1_document_id := document_id;
                i1_serial_number := text_cell xs 0;
                i1_name_of_person := text_cell xs 1;
                i1_family_details := text_cell xs 2;
                i1_police_station := text_cell xs 3;
                i1_religion := text_cell xs 4;
                i1_occupation := text_cell xs 5;
                i1_interest_of_person := text_cell xs 6;
                i1_where_registered := text_cell xs 7;
                i1_book_1_volume := text_cell xs 8;
                i1_book_2_page := text_cell xs 9 |} ];
         index2_entries := index2_entries conn;
         seq_documents := seq_documents conn;
         seq_index1 := id;
         seq_index2 := seq_index2 conn |}.

(** [INSERT INTO index2_entries (document_id, serial_number, ...,
    book_1_page) VALUES (?, ..., ?)] *)
Definition insert_index2 (conn : database) (document_id : Z) (params : list value)
  : res database :=
  xs <~ bind_params 2 params ;;
  let id := seq_index2 conn + 1 in
  Ret {| documents := documents conn;
         index1_entries := index1_entries conn;
         index2_entries := index2_entries conn ++
           [ {| i2_id := id;
                i2_document_id := document_id;
                i2_serial_number := text_cell xs 0;
                i2_property_name := text_cell xs 1;
                i2_pargana_town_thana := text_cell xs 2;
                i2_location := text_cell xs 3;
                i2_nature_of_transaction := text_cell xs 4;
                i2_where_registered := text_cell xs 5;
                i2_book_1_volume := text_cell xs 6;
                i2_book_1_page := text_cell xs 7 |} ];
         seq_documents := seq_documents conn;
         seq_index1 := seq_index1 conn;
         seq_index2 := id |}.

End Sqlite.
Export Sqlite.

(* ===================================================================== *)
(** * The world and the monad of effects                                 *)
(* ===================================================================== *)

Module World.

(** The two document kinds.  The selector of the source is a string; the
    Batch Driver passes "INDEX_1" or "INDEX_2", and [extract_document]
    treats every string other than "INDEX_1" as kind B. *)
Inductive index_kind : Type := INDEX_1 | INDEX_2.

Definition index_type_str (k : index_kind) : str :=
  match k with
  | INDEX_1 => py "INDEX_1"
  | INDEX_2 => py "INDEX_2"
  end.

(** What the program does to the outside, in the order it does it. *)
Inductive event : Type :=
| EvDocument (k : index_kind) (image_path : str)   (* extract_document is entered *)
| EvPost (k : index_kind) (image_path : str)       (* requests.post *)
| EvJsonLoads (arg : str)                          (* json.loads(arg) *)
| EvReSearch (arg : str)                           (* re.search(json_pattern, arg, ...) *)
| EvCommit                                         (* conn.commit() *)
| EvSleep (seconds : N)                            (* time.sleep *)
| EvListdir (folder : str)                         (* os.listdir *)
| EvDump.                                          (* json.dump(results, f) *)

(** What the outside answers. *)
Record env : Type := {
  (** [base64_encode_image(file_path)] *)
  read_image : str -> res str;
  (** [requests.post(...)], [raise_for_status()] and [response.json()] for
      the request built for a kind and an encoded image *)
  http_post : index_kind -> str -> res value;
  (** [sqlite3.connect] and the start of the write transaction for a file:
      an exception when the database cannot be opened, or is locked by
      another connection *)
  sqlite3_connect : str -> res unit;
  (** [os.listdir(folder)] *)
  listdir : str -> res (list str);
  (** [datetime.now().isoformat()] *)
  now : str;
  (** the limits of the interpreter where [json.loads] is called *)
  py_limits : limits
}.

Record world : Type := {
  w_db : database;
  w_log : list event
}.

Definition M (A : Type) : Type := world -> res A * world.

Definition ret {A : Type} (a : A) : M A := fun w => (Ret a, w).

Definition bind {A B : Type} (m : M A) (k : A -> M B) : M B :=
  fun w =>
    match m w with
    | (Ret a, w') => k a w'
    | (Raise e, w') => (Raise e, w')
    end.

Definition raise {A : Type} (e : exn) : M A := fun w => (Raise e, w).

Definition lift {A : Type} (r : res A) : M A := fun w => (r, w).

Definition emit (ev : event) : M unit :=
  fun w => (Ret tt, {| w_db := w_db w; w_log := w_log w ++ [ev] |}).

(** [try: body except cls: handler] *)
Definition try_except {A : Type} (body : M A) (cls : exn_class) (handler : exn -> M A)
  : M A :=
  fun w =>
    match body w with
    | (Ret a, w') => (Ret a, w')
    | (Raise e, w') =>
        if exn_class_eqb (exn_cls e) cls then handler e w' else (Raise e, w')
    end.

(** [try: body except Exception as e: handler] *)
Definition try_except_Exception {A : Type} (body : M A) (handler : exn -> M A) : M A :=
  fun w =>
    match body w with
    | (Ret a, w') => (Ret a, w')
    | (Raise e, w') => handler e w'
    end.

End World.
Export World.

Notation "x <- c ;; k" := (bind c (fun x => k))
  (at level 61, c at next level, right associativity).
Notation "c ;;; k" := (bind c (fun _ => k))
  (at level 61, right associativity).

(* ===================================================================== *)
(** * [extract_json_from_response]                                       *)
(* ===================================================================== *)

Module Extractor.

Local Open Scope Z_scope.

Definition call_json_loads (E : env) (s : str) : M value :=
  emit (EvJsonLoads s) ;;; lift (json_loads (py_limits E) s).

Definition call_re_search (s : str) : M (option (option str)) :=
  emit (EvReSearch s) ;;; ret (re_search json_pattern s).

(** [for i, line in enumerate(content_lines): if
    line.strip().startswith('{'): json_start = i; break], from [-1]. *)
Fixpoint find_json_start (content_lines : list str) (i : Z) : Z :=
  match content_lines with
  | [] => -1
  | line :: rest =>
      if startswith (strip line) (py "{") then i
      else find_json_start rest (i + 1)
  end.

(** The downward loop over [range(len(content_lines)-1, -1, -1)], on the
    lines in reverse order. *)
Fixpoint scan_json_end (reversed_lines : list str) (i : Z) : Z :=
  match reversed_lines with
  | [] => -1
  | line :: rest =>
      if endswith (strip line) (py "}") then i
      else scan_json_end rest (i - 1)
  end.

Definition find_json_end (content_lines : list str) : Z :=
  scan_json_end (rev content_lines) (Z.of_nat (length content_lines) - 1).

(** The third strategy: the lines from the first that opens with a brace
    to the last that closes with one. *)
Definition line_range_scan (E : env) (content : str) : M value :=
  let content_lines := split_lines (strip content) in
  let json_start := find_json_start content_lines 0 in
  let json_end := find_json_end content_lines in
  if negb (json_start =? -1) && negb (json_end =? -1) then
    let json_text := join [10%N] (slice content_lines json_start (json_end + 1)) in
    try_except (call_json_loads E json_text) JSONDecodeError (fun _ => ret PyNone)
  else ret PyNone.

(** [extract_json_from_response(content)] for a [str].  Each [try] has the
    one handler [except json.JSONDecodeError]: any other exception of
    [json.loads] leaves the function. *)
Definition extract_json_from_response (E : env) (content : str) : M value :=
  try_except (call_json_loads E (strip content)) JSONDecodeError (fun _ =>
    m <- call_re_search content ;;
    match m with
    | Some (Some group1) =>
        try_except (call_json_loads E group1) JSONDecodeError
          (fun _ => line_range_scan E content)
    | Some None => line_range_scan E content   (* group 1 always takes part *)
    | None => line_range_scan E content
    end).

End Extractor.
Export Extractor.

(* ===================================================================== *)
(** * The three strategies, as the specification words them             *)
(* ===================================================================== *)

Module Tiers.

Local Open Scope Z_scope.

Inductive tier : Type :=
| DirectParse          (* the whole trimmed text *)
| FencedBlock          (* the body of a fenced code block *)
| LineRange.           (* the lines from an opening to a closing brace *)

Definition three_tiers : list tier := [DirectParse; FencedBlock; LineRange].

(** The text a strategy hands to the decoder, when it finds one. *)
Definition tier_candidate (t : tier) (content : str) : option str :=
  match t with
  | DirectParse => Some (strip content)
  | FencedBlock =>
      match re_search json_pattern content with
      | Some (Some group1) => Some group1
      | _ => None
      end
  | LineRange =>
      let content_lines := split_lines (strip content) in
      let json_start := find_json_start content_lines 0 in
      let json_end := find_json_end content_lines in
      if negb (json_start =? -1) && negb (json_end =? -1)
      then Some (join [10%N] (slice content_lines json_start (json_end + 1)))
      else None
  end.

(** How a strategy ends. *)
Inductive attempt : Type :=
| Parsed (v : value)       (* it found a text and the decoder accepted it *)
| Nothing                  (* it found no text, or one that is not JSON *)
| Uncaught (e : exn).      (* the decoder raised what is not a JSONDecodeError *)

(** A strategy succeeds when it finds a text that the decoder accepts; it
    fails when it finds none or the decoder answers with a
    [JSONDecodeError]. *)
Definition tier_result (L : limits) (t : tier) (content : str) : attempt :=
  match tier_candidate t content with
  | Some text =>
      match json_loads L text with
      | Ret v => Parsed v
      | Raise e =>
          if exn_class_eqb (exn_cls e) JSONDecodeError then Nothing else Uncaught e
      end
  | None => Nothing
  end.

(** The library calls a strategy makes. *)
Definition tier_events (t : tier) (content : str) : list event :=
  let decode :=
    match tier_candidate t content with
    | Some text => [EvJsonLoads text]
    | None => []
    end in
  match t with
  | FencedBlock => EvReSearch content :: decode
  | _ => decode
  end.

(** Trying strategies in order and stopping at the first success: the
    value returned (None when every strategy fails) and the calls made.
    An exception of the decoder that is not a [JSONDecodeError] stops the
    attempts as well, and is the outcome. *)
Fixpoint first_success (L : limits) (tiers : list tier) (content : str)
  : res value * list event :=
  match tiers with
  | [] => (Ret PyNone, [])
  | t :: rest =>
      match tier_result L t content with
      | Parsed v => (Ret v, tier_events t content)
      | Uncaught e => (Raise e, tier_events t content)
      | Nothing =>
          let (r, evs) := first_success L rest content in
          (r, tier_events t content ++ evs)
      end
  end.

(** The calls of the Extractor are calls of the decoder and of the
    pattern search. *)
Definition is_probe (ev : event) : bool :=
  match ev with
  | EvJsonLoads _ | EvReSearch _ => true
  | _ => false
  end.

(** The world after some more events. *)
Definition log_add (w : world) (evs : list event) : world :=
  {| w_db := w_db w; w_log := w_log w ++ evs |}.

End Tiers.
Export Tiers.

(* ===================================================================== *)
(** * Where the JSON object sits in the text                             *)
(* ===================================================================== *)

Module Placement.

Local Open Scope N_scope.

Definition no_backtick (s : str) : bool := forallb (fun c => negb (c =? 96)) s.

Definition all_space (s : str) : bool := forallb isspace s.













End Placement.
Export Placement.

(* ===================================================================== *)
(** * [extract_document]                                                 *)
(* ===================================================================== *)

Module Document.

Local Open Scope Z_scope.

(** [k in s] for two strings *)
Fixpoint is_infix (k s : str) : bool :=
  startswith s k ||
  match s with
  | [] => false
  | _ :: t => is_infix k t
  end.

(** [k in v] for a string [k] *)
Definition py_contains (k : str) (v : value) : res bool :=
  match v with
  | PyDict d => Ret (dict_has d k)
  | PyList l =>
      Ret (existsb (fun x => match x with PyStr s => str_eqb s k | _ => false end) l)
  | PyStr s => Ret (is_infix k s)
  | _ => Raise (Exn TypeError (py "argument of type '" ++ type_name v
                               ++ py "' is not iterable"))
  end.

Definition not_subscriptable (v : value) : exn :=
  Exn TypeError (py "'" ++ type_name v ++ py "' object is not subscriptable").

(** [v[k]] for a string [k] of letters (the message of the [KeyError] is
    the key between apostrophes) *)
Definition py_getitem (v : value) (k : str) : res value :=
  match v with
  | PyDict d =>
      match dict_lookup d k with
      | Some x => Ret x
      | None => Raise (Exn KeyError (py "'" ++ k ++ py "'"))
      end
  | PyList _ => Raise (Exn TypeError (py "list indices must be integers or slices, not str"))
  | PyStr _ => Raise (Exn TypeError (py "string indices must be integers, not 'str'"))
  | _ => Raise (not_subscriptable v)
  end.

(** [v[0]] *)
Definition py_getitem0 (v : value) : res value :=
  match v with
  | PyList (x :: _) => Ret x
  | PyList [] => Raise (Exn IndexError (py "list index out of range"))
  | PyStr (c :: _) => Ret (PyStr [c])
  | PyStr [] => Raise (Exn IndexError (py "string index out of range"))
  | PyDict _ => Raise (Exn KeyError (py "0"))
  | _ => Raise (not_subscriptable v)
  end.

(** [len(v)] *)
Definition py_len (v : value) : res Z :=
  match v with
  | PyList l => Ret (Z.of_nat (length l))
  | PyStr s => Ret (Z.of_nat (length s))
  | PyDict d => Ret (Z.of_nat (length d))
  | _ => Raise (Exn TypeError (py "object of type '" ++ type_name v
                               ++ py "' has no len()"))
  end.

(** The values [for entry in v] runs through. *)
Definition py_iter (v : value) : res (list value) :=
  match v with
  | PyList l => Ret l
  | PyStr s => Ret (List.map (fun c => PyStr [c]) s)
  | PyDict d => Ret (List.map (fun kv => PyStr (fst kv)) d)
  | _ => Raise (Exn TypeError (py "'" ++ type_name v ++ py "' object is not iterable"))
  end.

Definition no_attribute (v : value) (name : string) : exn :=
  Exn AttributeError (py "'" ++ type_name v ++ py "' object has no attribute '"
                      ++ py name ++ py "'").

(** [entry.get(k)] *)
Definition entry_get (entry : value) (k : string) : res value :=
  match entry with
  | PyDict d => Ret (dict_get d (py k))
  | _ => Raise (no_attribute entry "get")
  end.

Fixpoint entry_gets (entry : value) (ks : list string) : res (list value) :=
  match ks with
  | [] => Ret []
  | k :: ks' =>
      v <~ entry_get entry k ;;
      vs <~ entry_gets entry ks' ;;
      Ret (v :: vs)
  end.

(** The names looked up in an entry, in the order of the columns after
    [document_id]. *)
Definition index1_fields : list string :=
  [ "serial_number"; "name_of_person"; "family_details"; "police_station";
    "religion"; "occupation"; "interest_of_person"; "where_registered";
    "book_1_volume"; "book_2_page" ]%string.

Definition index2_fields : list string :=
  [ "serial_number"; "property_name"; "Pargana/Town/Thana"; "location";
    "nature_of_transaction"; "where_registered"; "book_1_volume";
    "book_1_page" ]%string.

(** The body of [for entry in json_data.get('entries', [])] for one entry. *)
Definition insert_entry (index_type : index_kind) (document_id : Z) (entry : value)
           (conn : database) : res database :=
  match index_type with
  | INDEX_1 =>
      params <~ entry_gets entry index1_fields ;;
      insert_index1 conn document_id params
  | INDEX_2 =>
      params <~ entry_gets entry index2_fields ;;
      insert_index2 conn document_id params
  end.

Fixpoint insert_entries (index_type : index_kind) (document_id : Z)
         (entries : list value) (conn : database) : res database :=
  match entries with
  | [] => Ret conn
  | entry :: rest =>
      conn' <~ insert_entry index_type document_id entry conn ;;
      insert_entries index_type document_id rest conn'
  end.

(** The statements between [sqlite3.connect] and [conn.commit()], on the
    connection's working copy. *)
Definition transaction (index_type : index_kind) (json_data : dict) (image_path : str)
           (conn : database) : res database :=
  conn1 <~ insert_document conn
             [ dict_get json_data (py "document_type");
               dict_get json_data (py "year");
               dict_get json_data (py "office_location");
               dict_get json_data (py "confidence");
               dict_get json_data (py "extraction_notes");
               PyStr image_path ] ;;
  let document_id := lastrowid_documents conn1 in
  entries <~ py_iter (dict_get_default json_data (py "entries") (PyList [])) ;;
  insert_entries index_type document_id entries conn1.

(** The connection is opened and the statements run. *)
Definition connect_and_write (E : env) (index_type : index_kind) (json_data : dict)
           (image_path : str) (committed : database) : res database :=
  _ <~ sqlite3_connect E image_path ;;
  transaction index_type json_data image_path committed.

(** The Record Writer: the [try] block under [# Insert to SQLite].  The
    connection starts from the committed database; [conn.commit()] makes its
    working copy the committed one; when a statement raises, the commit is
    not reached and the pending changes of the connection are never
    committed. *)
Definition insert_to_sqlite (E : env) (index_type : index_kind) (json_data : dict)
           (image_path : str) : M unit :=
  fun w =>
    match connect_and_write E index_type json_data image_path (w_db w) with
    | Ret conn => (Ret tt, {| w_db := conn; w_log := w_log w ++ [EvCommit] |})
    | Raise e => (Raise e, w)
    end.

(** The dict returned on a failure that is not a parsing failure. *)
Definition error_result (E : env) (image_path : str) (index_type : index_kind)
           (message : str) : dict :=
  [ (py "source_path", PyStr image_path);
    (py "processed_at", PyStr (now E));
    (py "index_type", PyStr (index_type_str index_type));
    (py "error", PyStr message) ].

(** The dict returned when no JSON could be extracted. *)
Definition parsing_failure (E : env) (image_path : str) (index_type : index_kind)
           (content : str) : dict :=
  [ (py "source_path", PyStr image_path);
    (py "processed_at", PyStr (now E));
    (py "index_type", PyStr (index_type_str index_type));
    (py "raw_content", PyStr content);
    (py "parsing_error", PyBool true);
    (py "error", PyStr (py "Could not extract valid JSON from response")) ].

(** [json_data["source_path"] = ...] and the two assignments after it. *)
Definition add_metadata (E : env) (image_path : str) (index_type : index_kind)
           (json_data : dict) : dict :=
  dict_set (dict_set (dict_set json_data
    (py "source_path") (PyStr image_path))
    (py "processed_at") (PyStr (now E)))
    (py "index_type") (PyStr (index_type_str index_type)).

(** [result["choices"][0]["message"]["content"]] *)
Definition response_content (result : value) : res value :=
  choices <~ py_getitem result (py "choices") ;;
  first <~ py_getitem0 choices ;;
  message <~ py_getitem first (py "message") ;;
  py_getitem message (py "content").

(** ["choices" in result and len(result["choices"]) > 0] *)
Definition has_choices (result : value) : res bool :=
  present <~ py_contains (py "choices") result ;;
  if (present : bool) then
    choices <~ py_getitem result (py "choices") ;;
    n <~ py_len choices ;;
    Ret (0 <? n)
  else Ret false.

(** The exception of [json_data["source_path"] = image_path] for a value
    that is not a dict. *)
Definition no_item_assignment (v : value) : exn :=
  match v with
  | PyList _ => Exn TypeError (py "list indices must be integers or slices, not str")
  | _ => Exn TypeError (py "'" ++ type_name v
                        ++ py "' object does not support item assignment")
  end.

(** What follows [content = ...] in the [try] block.  A [content] that is
    not a [str] has no [strip]. *)
Definition handle_content (E : env) (image_path : str) (index_type : index_kind)
           (content : value) : M dict :=
  match content with
  | PyStr text =>
      json_data <- extract_json_from_response E text ;;
      match json_data with
      | PyNone => ret (parsing_failure E image_path index_type text)
      | PyDict d =>
          let json_data := add_metadata E image_path index_type d in
          try_except_Exception
            (insert_to_sqlite E index_type json_data image_path ;;; ret json_data)
            (fun db_error =>
               ret (dict_set json_data (py "database_error")
                             (PyStr (exn_msg db_error))))
      | _ => raise (no_item_assignment json_data)
      end
  | _ => raise (no_attribute content "strip")
  end.

(** [extract_document(image_path, index_type)].  The prompt text and the
    [debug] printing are left out; a failure of the request and any other
    exception of the [try] block become a result with an [error] key. *)
Definition extract_document (E : env) (image_path : str) (index_type : index_kind)
  : M dict :=
  emit (EvDocument index_type image_path) ;;;
  match read_image E image_path with
  | Raise e =>
      ret (error_result E image_path index_type (py "Image encoding error: " ++ exn_msg e))
  | Ret b64 =>
      let image_data := py "data:image/jpeg;base64," ++ b64 in
      fun w =>
        match
          (emit (EvPost index_type image_path) ;;;
           result <- lift (http_post E index_type image_data) ;;
           ok <- lift (has_choices result) ;;
           if (ok : bool) then
             content <- lift (response_content result) ;;
             handle_content E image_path index_type content
           else
             ret (error_result E image_path index_type (py "No response content found"))) w
        with
        | (Ret r, w') => (Ret r, w')
        | (Raise e, w') =>
            if exn_class_eqb (exn_cls e) RequestException
            then (Ret (error_result E image_path index_type
                         (py "Request error: " ++ exn_msg e)), w')
            else (Ret (error_result E image_path index_type
                         (py "Unexpected error: " ++ exn_msg e)), w')
        end
  end.

End Document.
Export Document.

(* ===================================================================== *)
(** * Words of the specification about a processed file                  *)
(* ===================================================================== *)

Module DocSpec.

(** The model's reply for a file: the value under
    [choices[0].message.content] when the image could be read, the request
    went through and the response has a first choice. *)
Definition model_content (E : env) (image_path : str) (k : index_kind) : option value :=
  match read_image E image_path with
  | Ret b64 =>
      match http_post E k (py "data:image/jpeg;base64," ++ b64) with
      | Ret result =>
          match has_choices result with
          | Ret true =>
              match response_content result with
              | Ret content => Some content
              | Raise _ => None
              end
          | _ => None
          end
      | Raise _ => None
      end
  | Raise _ => None
  end.

(** The parse attempt on the reply produced the JSON object [d]. *)
Definition parse_produced (E : env) (image_path : str) (k : index_kind) (d : dict) : Prop :=
  exists content w,
    model_content E image_path k = Some (PyStr content) /\
    fst (extract_json_from_response E content w) = Ret (PyDict d).

(** A Document row for the file was added to the table. *)
Definition document_added (image_path : str) (before after : database) : Prop :=
  exists row,
    documents after = documents before ++ [row] /\
    doc_source_path row = SqlText image_path.

(** What a TEXT column holds for a value of the reply, in the words of
    the schema and of [sqlite3]: NULL for None; a text as it is; an int
    that fits 64 bits as its decimal text; a boolean as the text 1 or 0; a
    float as the text the engine prints it with, but NULL for NaN, which
    the engine does not have.  (A list, an object, an int beyond 64 bits
    and a text with a surrogate are not stored: binding them raises.) *)
Inductive stored_as : value -> sqlval -> Prop :=
| stored_none : stored_as PyNone SqlNull
| stored_text (s : str) :
    Forall (fun c => (c < 55296 \/ 57343 < c)%N) s ->
    stored_as (PyStr s) (SqlText s)
| stored_int (z : Z) :
    (- 2 ^ 63 <= z < 2 ^ 63)%Z ->
    stored_as (PyInt z) (SqlText (str_of_Z z))
| stored_true : stored_as (PyBool true) (SqlText (py "1"))
| stored_false : stored_as (PyBool false) (SqlText (py "0"))
| stored_float (lit : str) :
    lit <> py "NaN" ->
    stored_as (PyFloat lit) (SqlRealText lit)
| stored_nan : stored_as (PyFloat (py "NaN")) SqlNull.

(** The cell stored for a field of an entry: what the column holds for
    the value bound to exactly that name (a text is stored as it is), and
    NULL when no binding has that name. *)
Definition stores (entry : dict) (name : string) (cell : sqlval) : Prop :=
  (forall v, dict_lookup entry (py name) = Some v ->
             In (py name, v) entry /\ stored_as v cell) /\
  (forall text, dict_lookup entry (py name) = Some (PyStr text) ->
                cell = SqlText text) /\
  ((forall v, ~ In (py name, v) entry) -> cell = SqlNull).

(** A value a TEXT column can hold. *)
Definition storable (v : value) : Prop := exists cell, stored_as v cell.

(** The field names of an entry of a kind. *)
Definition fields_of (k : index_kind) : list string :=
  match k with
  | INDEX_1 => index1_fields
  | INDEX_2 => index2_fields
  end.

(** What makes the write of an object succeed: the database can be
    opened; the object has a [document_type] that a column can hold and
    that is not stored as NULL; its other top-level fields and the path of
    the file can be held; its [entries] is the list [items] (the empty list
    when the key is absent), every item is an object, and every field of
    every item can be held. *)
Definition writable (E : env) (k : index_kind) (json_data : dict) (image_path : str)
           (items : list value) : Prop :=
  sqlite3_connect E image_path = Ret tt /\
  (exists cell, stored_as (dict_get json_data (py "document_type")) cell /\
                cell <> SqlNull) /\
  Forall (fun name => storable (dict_get json_data (py name)))
         [ "year"; "office_location"; "confidence"; "extraction_notes" ]%string /\
  storable (PyStr image_path) /\
  dict_get_default json_data (py "entries") (PyList []) = PyList items /\
  Forall (fun item =>
            exists d, item = PyDict d /\
                      Forall (fun name => storable (dict_get d (py name)))
                             (fields_of k)) items.

(** The rows a table gained. *)
Definition gained {A : Type} (before after new : list A) : Prop :=
  after = before ++ new.

(** The message of the two outer handlers. *)
Definition handler_message (e : exn) : str :=
  if exn_class_eqb (exn_cls e) RequestException
  then py "Request error: " ++ exn_msg e
  else py "Unexpected error: " ++ exn_msg e.

End DocSpec.
Export DocSpec.

(* ===================================================================== *)
(** * [process_batch_documents]                                          *)
(* ===================================================================== *)

Module Batch.

(** [f.lower().endswith(('.jpg', '.jpeg', '.png'))] *)
Definition is_image_file (f : str) : bool :=
  let l := lower f in
  endswith l (py ".jpg") || endswith l (py ".jpeg") || endswith l (py ".png").

(** [os.path.join(a, b)] on POSIX *)
Definition path_join (a b : str) : str :=
  if startswith b (py "/") then b
  else match a with
       | [] => b
       | _ => if endswith a (py "/") then a ++ b else a ++ py "/" ++ b
       end.

Fixpoint insert_sorted (x : str) (l : list str) : list str :=
  match l with
  | [] => [x]
  | y :: t => if str_leb x y then x :: l else y :: insert_sorted x t
  end.

(** [l.sort()] on strings: the order is total and equal strings are the
    same string, so the result does not depend on the algorithm. *)
Definition sort (l : list str) : list str := fold_right insert_sorted [] l.

Definition call_listdir (E : env) (folder : str) : M (list str) :=
  emit (EvListdir folder) ;;; lift (listdir E folder).

(** [[os.path.join(folder, f) for f in os.listdir(folder) if ...]] *)
Definition list_image_files (E : env) (folder : str) : M (list str) :=
  names <- call_listdir E folder ;;
  ret (List.map (path_join folder) (filter is_image_file names)).

Record batch_info_t : Type := {
  processed_at : str;
  total_index1_docs : nat;
  total_index2_docs : nat;
  total_docs : nat
}.

Record summary_t : Type := {
  index1_successful : nat;
  index1_failed : nat;
  index2_successful : nat;
  index2_failed : nat
}.

(** The dict [results] *)
Record batch_results : Type := {
  batch_info : batch_info_t;
  index1_results : list dict;
  index2_results : list dict;
  summary : summary_t
}.

Definition initial_results (E : env) : batch_results :=
  {| batch_info := {| processed_at := now E; total_index1_docs := 0;
                      total_index2_docs := 0; total_docs := 0 |};
     index1_results := [];
     index2_results := [];
     summary := {| index1_successful := 0; index1_failed := 0;
                   index2_successful := 0; index2_failed := 0 |} |}.

Definition set_totals (results : batch_results) (n1 n2 : nat) : batch_results :=
  {| batch_info := {| processed_at := processed_at (batch_info results);
                      total_index1_docs := n1;
                      total_index2_docs := n2;
                      total_docs := n1 + n2 |};
     index1_results := index1_results results;
     index2_results := index2_results results;
     summary := summary results |}.

(** ["error" in result or result.get("parsing_error")] *)
Definition is_failed (result : dict) : bool :=
  dict_has result (py "error") || truthy (dict_get result (py "parsing_error")).

(** [results[...].append(result)] and the increment of one counter, for
    the loop of a kind. *)
Definition record_result (index_type : index_kind) (result : dict)
           (results : batch_results) : batch_results :=
  let s := summary results in
  match index_type with
  | INDEX_1 =>
      {| batch_info := batch_info results;
         index1_results := index1_results results ++ [result];
         index2_results := index2_results results;
         summary :=
           if is_failed result
           then {| index1_successful := index1_successful s;
                   index1_failed := index1_failed s + 1;
                   index2_successful := index2_successful s;
                   index2_failed := index2_failed s |}
           else {| index1_successful := index1_successful s + 1;
                   index1_failed := index1_failed s;
                   index2_successful := index2_successful s;
                   index2_failed := index2_failed s |} |}
  | INDEX_2 =>
      {| batch_info := batch_info results;
         index1_results := index1_results results;
         index2_results := index2_results results ++ [result];
         summary :=
           if is_failed result
           then {| index1_successful := index1_successful s;
                   index1_failed := index1_failed s;
                   index2_successful := index2_successful s;
                   index2_failed := index2_failed s + 1 |}
           else {| index1_successful := index1_successful s;
                   index1_failed := index1_failed s;
                   index2_successful := index2_successful s + 1;
                   index2_failed := index2_failed s |} |}
  end.

(** [entries_count = len(result.get('entries', []))]: the statement both
    [process_batch_documents] and [test_single_document] run for a result
    they do not count as failed. *)
Definition entries_count (result : dict) : res Z :=
  py_len (dict_get_default result (py "entries") (PyList [])).

(** The two branches of [if "error" in result or
    result.get("parsing_error")] after the counter is incremented, for
    what they can raise: the first prints
    [result.get('error', 'Unknown error')], the second takes the length of
    the entries. *)
Definition report_result (result : dict) : M unit :=
  if is_failed result then ret tt
  else _ <- lift (entries_count result) ;; ret tt.

(** The loop [for i, path in enumerate(files, 1)] of one kind; the two
    loops of the source differ in the kind alone.  The delay is a number of
    seconds that is not negative. *)
Fixpoint process_files (E : env) (index_type : index_kind) (delay_seconds : N)
         (files : list str) (results : batch_results) : M batch_results :=
  match files with
  | [] => ret results
  | path :: rest =>
      result <- extract_document E path index_type ;;
      let results := record_result index_type result results in
      report_result result ;;;
      match rest with
      | [] => ret results                      (* i = len(files): no sleep *)
      | _ :: _ =>
          emit (EvSleep delay_seconds) ;;;
          process_files E index_type delay_seconds rest results
      end
  end.

(** [process_batch_documents(index1_folder, index2_folder, delay_seconds)].
    [EvDump] stands for the [json.dump] of the results to the summary file,
    whose failure is caught. *)
Definition process_batch_documents (E : env) (index1_folder index2_folder : str)
           (delay_seconds : N) : M batch_results :=
  let results := initial_results E in
  listing <-
    try_except_Exception
      (index1_files <- list_image_files E index1_folder ;;
       index2_files <- list_image_files E index2_folder ;;
       ret (Some (sort index1_files, sort index2_files)))
      (fun _ => ret None) ;;
  match listing with
  | None => ret results
  | Some (index1_files, index2_files) =>
      let results := set_totals results (length index1_files) (length index2_files) in
      results <- process_files E INDEX_1 delay_seconds index1_files results ;;
      results <- process_files E INDEX_2 delay_seconds index2_files results ;;
      emit EvDump ;;;
      ret results
  end.

End Batch.
Export Batch.

(* ===================================================================== *)
(** * Words of the specification about a batch                           *)
(* ===================================================================== *)

Module BatchSpec.

(** The files handed to [extract_document], in the order of the calls. *)
Fixpoint processed (log : list event) : list (index_kind * str) :=
  match log with
  | [] => []
  | EvDocument k p :: rest => (k, p) :: processed rest
  | _ :: rest => processed rest
  end.

(** How many results satisfy a test. *)
Definition count (f : dict -> bool) (results : list dict) : nat :=
  length (filter f results).

(** The number a float literal writes is not zero and does not round to
    zero: its magnitude, m times ten to the e, is above 2 to the -1075. *)
Definition float_nonzero (lit : str) : Prop :=
  match float_decimal lit with
  | None => True                       (* NaN and the infinities *)
  | Some (m, e) =>
      (m <> 0 /\ (e < 0 -> 10 ^ (- e) < m * 2 ^ 1075))%Z
  end.

(** A value that is true in Python's sense: True, a number that is not
    zero, a string, list or dict that is not empty.  None, False, zero and
    the empty string, list and dict are not. *)
Inductive python_true : value -> Prop :=
| true_bool : python_true (PyBool true)
| true_int (z : Z) : z <> 0%Z -> python_true (PyInt z)
| true_float (lit : str) : float_nonzero lit -> python_true (PyFloat lit)
| true_str (c : N) (s : str) : python_true (PyStr (c :: s))
| true_list (x : value) (l : list value) : python_true (PyList (x :: l))
| true_dict (kv : str * value) (d : dict) : python_true (PyDict (kv :: d)).

(** A result carries an [error] key or a true [parsing_error] flag. *)
Definition carries_failure (result : dict) : Prop :=
  (exists v, In (py "error", v) result) \/
  (exists v, dict_lookup result (py "parsing_error") = Some v /\ python_true v).

(** The character [c] is the letter [x] of an extension in either case:
    [x] itself, or its capital when [x] is one of a to z. *)
Definition caseless (c x : N) : Prop :=
  c = x \/ ((97 <= x <= 122)%N /\ (c + 32 = x)%N).

(** The name ends in the extension, letter case aside. *)
Definition ends_caseless (f ext : str) : Prop :=
  exists stem tail, f = stem ++ tail /\ Forall2 caseless tail ext.

(** The name ends in a dot and one of the three extensions, in any case. *)
Definition has_image_extension (f : str) : Prop :=
  ends_caseless f (py ".jpg") \/ ends_caseless f (py ".jpeg")
  \/ ends_caseless f (py ".png").

(** A character of an extension: the dot or a small letter. *)
Definition ext_char (x : N) : Prop := (x = 46 \/ 97 <= x <= 122)%N.

(** The paths the Batch Driver selects in a folder, before sorting. *)
Definition selected (folder : str) (names : list str) : list str :=
  List.map (path_join folder) (filter is_image_file names).

Definition lex_le (a b : str) : Prop := str_leb a b = true.

(** The counters after a list of results of one kind. *)
Definition record_all (k : index_kind) (rs : list dict) (results : batch_results)
  : batch_results :=
  fold_left (fun acc r => record_result k r acc) rs results.

(** The two loops and the writing of the summary file. *)
Definition run_loops (E : env) (delay_seconds : N) (index1_files index2_files : list str)
  : M batch_results :=
  let results := set_totals (initial_results E)
                            (length index1_files) (length index2_files) in
  results <- process_files E INDEX_1 delay_seconds index1_files results ;;
  results <- process_files E INDEX_2 delay_seconds index2_files results ;;
  emit EvDump ;;;
  ret results.

End BatchSpec.
Export BatchSpec.

(* ===================================================================== *)
(** * Sample worlds                                                      *)
(* ===================================================================== *)

Module Samples.


(** A response body whose first choice carries [content]. *)
Definition chat_response (content : value) : value :=
  PyDict [ (py "choices",
            PyList [ PyDict [ (py "message", PyDict [ (py "content", content) ]) ] ]) ].

(** The limits of an interpreter with its defaults: a recursion limit of
    1000, less the frames of the callers, and 4300 digits. *)
Definition default_limits : limits :=
  {| recursion_budget := 990; int_max_str_digits := 4300 |}.

(** A world in which every image is readable, the model answers every
    request with the same [content], and both folders hold [names]. *)
Definition env_const (content : value) (names : list str) : env :=
  {| read_image := fun _ => Ret (py "QUJD");
     http_post := fun _ _ => Ret (chat_response content);
     sqlite3_connect := fun _ => Ret tt;
     listdir := fun _ => Ret names;
     now := py "2025-09-10T00:00:00";
     py_limits := default_limits |}.

(** A world in which the image of a file holds its path, and the model
    answers the request for a file with what [reply] makes of that data. *)
Definition env_by_file (reply : str -> value) (names : list str) : env :=
  {| read_image := fun p => Ret p;
     http_post := fun _ image_data => Ret (chat_response (reply image_data));
     sqlite3_connect := fun _ => Ret tt;
     listdir := fun _ => Ret names;
     now := py "2025-09-10T00:00:00";
     py_limits := default_limits |}.

Definition world0 : world := {| w_db := empty_db; w_log := [] |}.

(** Results made by hand, each with whether the Batch Driver is to count
    it as failed. *)
Definition result_fixtures : list (dict * bool) :=
  [ ([ (py "error", PyStr (py "Request error: timed out")) ], true);
    ([ (py "error", PyNone) ], true);
    ([ (py "error", PyStr []); (py "entries", PyList []) ], true);
    ([ (py "parsing_error", PyBool true) ], true);
    ([ (py "parsing_error", PyInt 1) ], true);
    ([ (py "parsing_error", PyStr (py "yes")) ], true);
    ([ (py "parsing_error", PyFloat (py "0.5")) ], true);
    ([ (py "parsing_error", PyFloat (py "5e-324")) ], true);
    ([ (py "parsing_error", PyList [PyNone]) ], true);
    ([ (py "parsing_error", PyBool false) ], false);
    ([ (py "parsing_error", PyNone) ], false);
    ([ (py "parsing_error", PyInt 0) ], false);
    ([ (py "parsing_error", PyStr []) ], false);
    ([ (py "parsing_error", PyFloat (py "0.0")) ], false);
    ([ (py "parsing_error", PyFloat (py "1e-400")) ], false);
    ([ (py "parsing_error", PyList []) ], false);
    ([ (py "parsing_error", PyDict []) ], false);
    ([ (py "Error", PyStr (py "wrong case")) ], false);
    ([ (py "database_error", PyStr (py "database is locked")) ], false);
    ([ (py "entries", PyList []) ], false);
    ([], false) ].

End Samples.
Export Samples.

(* ===================================================================== *)
(** * The loops without the count, [test_single_document], the DAG tasks *)
(* ===================================================================== *)

Module Callers.

Local Open Scope Z_scope.

(** The loop of [process_files] without the statement
    [entries_count = ...]: what the loop computes when that statement does
    not raise. *)
Fixpoint process_files_uncounted (E : env) (index_type : index_kind) (delay_seconds : N)
         (files : list str) (results : batch_results) : M batch_results :=
  match files with
  | [] => ret results
  | path :: rest =>
      result <- extract_document E path index_type ;;
      let results := record_result index_type result results in
      match rest with
      | [] => ret results
      | _ :: _ =>
          emit (EvSleep delay_seconds) ;;;
          process_files_uncounted E index_type delay_seconds rest results
      end
  end.

(** [process_batch_documents] with the loops above. *)
Definition process_batch_documents_uncounted (E : env) (index1_folder index2_folder : str)
           (delay_seconds : N) : M batch_results :=
  let results := initial_results E in
  listing <-
    try_except_Exception
      (index1_files <- list_image_files E index1_folder ;;
       index2_files <- list_image_files E index2_folder ;;
       ret (Some (sort index1_files, sort index2_files)))
      (fun _ => ret None) ;;
  match listing with
  | None => ret results
  | Some (index1_files, index2_files) =>
      let results := set_totals results (length index1_files) (length index2_files) in
      results <- process_files_uncounted E INDEX_1 delay_seconds index1_files results ;;
      results <- process_files_uncounted E INDEX_2 delay_seconds index2_files results ;;
      emit EvDump ;;;
      ret results
  end.

(** The two loops without the count, and the writing of the summary
    file. *)
Definition run_loops_uncounted (E : env) (delay_seconds : N)
           (index1_files index2_files : list str) : M batch_results :=
  let results := set_totals (initial_results E)
                            (length index1_files) (length index2_files) in
  results <- process_files_uncounted E INDEX_1 delay_seconds index1_files results ;;
  results <- process_files_uncounted E INDEX_2 delay_seconds index2_files results ;;
  emit EvDump ;;;
  ret results.

(** [test_single_document(image_path, index_type)]: one call of
    [extract_document]; a result that is not counted as failed has its
    entries counted and goes to a file of its own.  ([EvDump] stands for
    the [json.dump] to that file, whose failure is caught.  The call has
    [debug=True]: the printing of that mode is left out, and with it the
    other wording of the Unexpected error of a reply that is not a
    string.) *)
Definition test_single_document (E : env) (image_path : str) (index_type : index_kind)
  : M dict :=
  result <- extract_document E image_path index_type ;;
  if is_failed result then ret result
  else
    _ <- lift (entries_count result) ;;
    emit EvDump ;;;
    ret result.

(** [process_all_documents()] of the DAG file *)
Definition process_all_documents (E : env) : M batch_results :=
  process_batch_documents E (py "/english-handwritten/data/index1/")
                               (py "/english-handwritten/data/index2/") 2.

(** [glob._ishidden(name)] *)
Definition ishidden (name : str) : bool := startswith name (py ".").

(** The names [fnmatch] keeps for the pattern of a star and an extension:
    on POSIX the comparison is case-sensitive, and [glob] drops hidden
    names because the pattern does not start with a dot. *)
Definition glob_match (ext : str) (name : str) : bool :=
  negb (ishidden name) && endswith name ext.

(** [glob.glob(dirname + "/*" + ext)]: the names of the directory that
    match, each joined to [dirname]; a directory that cannot be listed
    gives no path, without an exception. *)
Definition glob_ext (E : env) (dirname ext : str) : M (list str) :=
  emit (EvListdir dirname) ;;;
  ret match listdir E dirname with
      | Ret names => List.map (path_join dirname) (filter (glob_match ext) names)
      | Raise _ => []
      end.

(** [for file_path in sorted(files): result = extract_document(...);
    results.append(result)] *)
Fixpoint extract_each (E : env) (index_type : index_kind) (files : list str)
         (results : list dict) : M (list dict) :=
  match files with
  | [] => ret results
  | file_path :: rest =>
      result <- extract_document E file_path index_type ;;
      extract_each E index_type rest (results ++ [result])
  end.

(** The body shared by [process_index1_only] and [process_index2_only]:
    three globs, the sort, and the loop. *)
Definition process_index_only (E : env) (index_type : index_kind) (dirname : str)
  : M (list dict) :=
  jpg <- glob_ext E dirname (py ".jpg") ;;
  jpeg <- glob_ext E dirname (py ".jpeg") ;;
  png <- glob_ext E dirname (py ".png") ;;
  extract_each E index_type (sort (jpg ++ jpeg ++ png)) [].

Definition process_index1_only (E : env) : M (list dict) :=
  process_index_only E INDEX_1 (py "/english-handwritten/data/index1").

Definition process_index2_only (E : env) : M (list dict) :=
  process_index_only E INDEX_2 (py "/english-handwritten/data/index2").

End Callers.
Export Callers.

(* ===================================================================== *)
(** * Words for what the code keeps                                      *)
(* ===================================================================== *)

Module Invariants.

Local Open Scope Z_scope.

(** [after] is [before] with rows added at the end. *)
Definition extends {A : Type} (before after : list A) : Prop :=
  exists new, after = before ++ new.

(** No row of the three tables was changed or removed. *)
Definition append_only (before after : database) : Prop :=
  extends (documents before) (documents after) /\
  extends (index1_entries before) (index1_entries after) /\
  extends (index2_entries before) (index2_entries after).

(** The identifiers of a table are distinct and not above its counter. *)
Definition ids_ok (ids : list Z) (counter : Z) : Prop :=
  NoDup ids /\ forall i, In i ids -> i <= counter.

Definition keys_ok (db : database) : Prop :=
  ids_ok (List.map doc_id (documents db)) (seq_documents db) /\
  ids_ok (List.map i1_id (index1_entries db)) (seq_index1 db) /\
  ids_ok (List.map i2_id (index2_entries db)) (seq_index2 db).

(** Every Entry row names a Document row that exists. *)
Definition references_ok (db : database) : Prop :=
  (forall r, In r (index1_entries db) ->
             exists d, In d (documents db) /\ doc_id d = i1_document_id r) /\
  (forall r, In r (index2_entries db) ->
             exists d, In d (documents db) /\ doc_id d = i2_document_id r).

(** The Document row stores the top-level fields of the object and the
    path of the file. *)
Definition document_of (json_data : dict) (image_path : str) (row : document_row) : Prop :=
  stores json_data "document_type" (doc_document_type row) /\
  stores json_data "year" (doc_year row) /\
  stores json_data "office_location" (doc_office_location row) /\
  stores json_data "confidence" (doc_confidence row) /\
  stores json_data "extraction_notes" (doc_extraction_notes row) /\
  doc_source_path row = SqlText image_path /\
  doc_document_type row <> SqlNull.

(** The row of kind A stores the fields of the entry. *)
Definition row1_of (entry : value) (row : index1_row) : Prop :=
  exists d, entry = PyDict d /\
    stores d "serial_number" (i1_serial_number row) /\
    stores d "name_of_person" (i1_name_of_person row) /\
    stores d "family_details" (i1_family_details row) /\
    stores d "police_station" (i1_police_station row) /\
    stores d "religion" (i1_religion row) /\
    stores d "occupation" (i1_occupation row) /\
    stores d "interest_of_person" (i1_interest_of_person row) /\
    stores d "where_registered" (i1_where_registered row) /\
    stores d "book_1_volume" (i1_book_1_volume row) /\
    stores d "book_2_page" (i1_book_2_page row).

(** The row of kind B stores the fields of the entry. *)
Definition row2_of (entry : value) (row : index2_row) : Prop :=
  exists d, entry = PyDict d /\
    stores d "serial_number" (i2_serial_number row) /\
    stores d "property_name" (i2_property_name row) /\
    stores d "Pargana/Town/Thana" (i2_pargana_town_thana row) /\
    stores d "location" (i2_location row) /\
    stores d "nature_of_transaction" (i2_nature_of_transaction row) /\
    stores d "where_registered" (i2_where_registered row) /\
    stores d "book_1_volume" (i2_book_1_volume row) /\
    stores d "book_1_page" (i2_book_1_page row).

(** What the loop over the entries does to the table of the kind: the rows
    it adds, entry by entry, and the identifiers. *)
Definition entries_written (k : index_kind) (id : Z) (entries : list value)
           (conn conn' : database) : Prop :=
  documents conn' = documents conn /\
  seq_documents conn' = seq_documents conn /\
  match k with
  | INDEX_1 =>
      (exists rows,
          index1_entries conn' = index1_entries conn ++ rows /\
          Forall2 row1_of entries rows /\
          Forall (fun r => i1_document_id r = id) rows) /\
      (ids_ok (List.map i1_id (index1_entries conn)) (seq_index1 conn) ->
       ids_ok (List.map i1_id (index1_entries conn')) (seq_index1 conn')) /\
      index2_entries conn' = index2_entries conn /\
      seq_index2 conn' = seq_index2 conn
  | INDEX_2 =>
      (exists rows,
          index2_entries conn' = index2_entries conn ++ rows /\
          Forall2 row2_of entries rows /\
          Forall (fun r => i2_document_id r = id) rows) /\
      (ids_ok (List.map i2_id (index2_entries conn)) (seq_index2 conn) ->
       ids_ok (List.map i2_id (index2_entries conn')) (seq_index2 conn')) /\
      index1_entries conn' = index1_entries conn /\
      seq_index1 conn' = seq_index1 conn
  end.

(** The events of one file after [extract_document] is entered. *)
Definition is_file_event (ev : event) : bool :=
  match ev with
  | EvPost _ _ | EvJsonLoads _ | EvReSearch _ | EvCommit => true
  | _ => false
  end.

(** The events of one file: the entry into [extract_document] for it,
    and the events of that call. *)
Definition file_block (k : index_kind) (p : str) (evs : list event) : Prop :=
  exists rest, evs = EvDocument k p :: rest /\ forallb is_file_event rest = true.

(** The blocks of events of the files of a folder, with a sleep between
    one file and the next. *)
Fixpoint interleave (sep : event) (blocks : list (list event)) : list event :=
  match blocks with
  | [] => []
  | [b] => b
  | b :: rest => b ++ sep :: interleave sep rest
  end.

(** The events of the Batch Driver itself: listings, sleeps, the summary. *)
Definition batch_level (ev : event) : bool :=
  match ev with
  | EvSleep _ | EvListdir _ | EvDump => true
  | _ => false
  end.

(** How many events of a log pass a test. *)
Definition count_events (f : event -> bool) (log : list event) : nat :=
  length (filter f log).

Definition is_post (ev : event) : bool :=
  match ev with EvPost _ _ => true | _ => false end.

Definition is_commit (ev : event) : bool :=
  match ev with EvCommit => true | _ => false end.

Definition is_loads (ev : event) : bool :=
  match ev with EvJsonLoads _ => true | _ => false end.

Definition is_search (ev : event) : bool :=
  match ev with EvReSearch _ => true | _ => false end.

(** The character does not occur in the text. *)
Definition lacks (c : N) (s : str) : bool := forallb (fun x => negb (N.eqb x c)) s.

(** [t] is what is left of [s] after some prefix. *)
Definition suffix_of (t s : str) : Prop := exists pre, s = pre ++ t.

(** A value [len] accepts. *)
Definition sized (v : value) : bool :=
  match v with
  | PyList _ | PyStr _ | PyDict _ => true
  | _ => false
  end.

Definition is_dump (ev : event) : bool :=
  match ev with EvDump => true | _ => false end.

Definition is_sleep (ev : event) : bool :=
  match ev with EvSleep _ => true | _ => false end.

(** Every way [extract_document] can end, with the events it made and the
    database it leaves. *)
Definition outcome (E : env) (p : str) (k : index_kind) (w : world)
           (out : res dict * world) : Prop :=
  exists r evs db',
    out = (Ret r, {| w_db := db'; w_log := w_log w ++ EvDocument k p :: evs |}) /\
    ((exists e, read_image E p = Raise e /\ evs = [] /\ db' = w_db w /\
                r = error_result E p k (py "Image encoding error: " ++ exn_msg e))
     \/ (exists probes,
           evs = EvPost k p :: probes /\ forallb is_probe probes = true /\
           (count_events is_loads probes <= 3)%nat /\
           (count_events is_search probes <= 1)%nat /\
           db' = w_db w /\
           ((exists message, r = error_result E p k message)
            \/ (exists c, model_content E p k = Some (PyStr c) /\
                          r = parsing_failure E p k c)
            \/ (exists d e, parse_produced E p k d /\
                            connect_and_write E k (add_metadata E p k d) p (w_db w)
                            = Raise e /\
                            r = dict_set (add_metadata E p k d) (py "database_error")
                                         (PyStr (exn_msg e)))))
     \/ (exists probes d,
           evs = EvPost k p :: probes ++ [EvCommit] /\
           forallb is_probe probes = true /\
           (count_events is_loads probes <= 3)%nat /\
           (count_events is_search probes <= 1)%nat /\
           parse_produced E p k d /\
           connect_and_write E k (add_metadata E p k d) p (w_db w) = Ret db' /\
           r = add_metadata E p k d)).

(** The three entries every result of [extract_document] has. *)
Definition has_metadata (E : env) (image_path : str) (k : index_kind) (r : dict) : Prop :=
  dict_lookup r (py "source_path") = Some (PyStr image_path) /\
  dict_lookup r (py "processed_at") = Some (PyStr (now E)) /\
  dict_lookup r (py "index_type") = Some (PyStr (index_type_str k)).

(** The results [extract_document] can return for a file. *)
Definition result_of (E : env) (k : index_kind) (image_path : str) (r : dict) : Prop :=
  exists w w', extract_document E image_path k w = (Ret r, w').

(** The keys of the tables are sound and every Entry row has its
    Document row. *)
Definition integrity (db : database) : Prop := keys_ok db /\ references_ok db.

(** The paths the three [glob.glob] calls of a DAG task give for a
    directory with these names, in the order of the concatenation. *)
Definition glob_selected (dirname : str) (names : list str) : list str :=
  List.map (path_join dirname) (filter (glob_match (py ".jpg")) names) ++
  List.map (path_join dirname) (filter (glob_match (py ".jpeg")) names) ++
  List.map (path_join dirname) (filter (glob_match (py ".png")) names).

End Invariants.
Export Invariants.

(* ===================================================================== *)
(** * Facts about strings and dictionaries                               *)
(* ===================================================================== *)

Module PyFacts.

Lemma str_eqb_eq (a b : str) : str_eqb a b = true <-> a = b.
Proof.
  revert b; induction a as [|x a IH]; intros [|y b]; simpl; split;
    try congruence; try reflexivity.
  - intros H. apply andb_true_iff in H. destruct H as [Hx Hab].
    apply N.eqb_eq in Hx. apply IH in Hab. congruence.
  - intros H. injection H as -> ->. rewrite N.eqb_refl. simpl. now apply IH.
Qed.

Lemma str_eqb_refl (a : str) : str_eqb a a = true.
Proof. now apply str_eqb_eq. Qed.

Lemma str_eqb_neq (a b : str) : str_eqb a b = false <-> a <> b.
Proof.
  split.
  - intros H E. apply str_eqb_eq in E. congruence.
  - intros H. destruct (str_eqb a b) eqn:E; [|reflexivity].
    apply str_eqb_eq in E. contradiction.
Qed.

(** A lookup finds a binding whose key is the very string that was asked
    for, and fails only when no binding has that key. *)
Lemma dict_lookup_Some (d : dict) (k : str) (v : value) :
  dict_lookup d k = Some v -> In (k, v) d.
Proof.
  induction d as [|[k' v'] d IH]; simpl; [discriminate|].
  destruct (str_eqb k' k) eqn:E.
  - intros H. injection H as ->. apply str_eqb_eq in E. subst. now left.
  - intros H. right. now apply IH.
Qed.

Lemma dict_lookup_None (d : dict) (k : str) :
  dict_lookup d k = None <-> (forall v, ~ In (k, v) d).
Proof.
  induction d as [|[k' v'] d IH]; simpl.
  - split; [intros _ v []|reflexivity].
  - destruct (str_eqb k' k) eqn:E.
    + split; [discriminate|]. intros H. apply str_eqb_eq in E. subst.
      exfalso. apply (H v'). now left.
    + rewrite IH. apply str_eqb_neq in E. split.
      * intros H v [Hv|Hv]; [congruence|]. now apply (H v).
      * intros H v Hv. apply (H v). now right.
Qed.

Lemma dict_has_In (d : dict) (k : str) :
  dict_has d k = true <-> exists v, In (k, v) d.
Proof.
  unfold dict_has. destruct (dict_lookup d k) eqn:E.
  - split; [|reflexivity]. intros _. exists v. now apply dict_lookup_Some.
  - split; [discriminate|]. intros [v Hv].
    exfalso. revert Hv. now apply dict_lookup_None.
Qed.

Lemma dict_lookup_set_same (d : dict) (k : str) (v : value) :
  dict_lookup (dict_set d k v) k = Some v.
Proof.
  induction d as [|[k' v'] d IH]; simpl.
  - now rewrite str_eqb_refl.
  - destruct (str_eqb k' k) eqn:E; simpl; rewrite E; [reflexivity|exact IH].
Qed.

Lemma dict_lookup_set_other (d : dict) (k k2 : str) (v : value) :
  k <> k2 -> dict_lookup (dict_set d k v) k2 = dict_lookup d k2.
Proof.
  intros Hne. induction d as [|[k' v'] d IH]; simpl.
  - apply str_eqb_neq in Hne. now rewrite Hne.
  - destruct (str_eqb k' k) eqn:E; simpl.
    + apply str_eqb_eq in E. subst k'.
      apply str_eqb_neq in Hne. now rewrite Hne.
    + destruct (str_eqb k' k2); [reflexivity|exact IH].
Qed.

End PyFacts.
Import PyFacts.

(* ===================================================================== *)
(** * The decoder never uses up its recursion budget                     *)
(* ===================================================================== *)

Module JsonFacts.

Lemma dropwhile_length p (s : str) : length (dropwhile p s) <= length s.
Proof.
  induction s as [|c t IH]; simpl; [lia|].
  destruct (p c); simpl; lia.
Qed.

Lemma skip_ws_length (s : str) : length (skip_ws s) <= length s.
Proof. apply dropwhile_length. Qed.

Lemma cons_chunk_Some c r x rest :
  cons_chunk c r = Some (x, rest) ->
  exists x', r = Some (x', rest) /\ x = c :: x'.
Proof.
  destruct r as [[x' rest']|]; simpl; [|discriminate].
  intros H. injection H as <- <-. eauto.
Qed.

(** [scanstring] consumes at least the closing quote. *)
Lemma scanstring_length (s : str) :
  forall x r, scanstring s = Some (x, r) -> length r < length s.
Proof.
  induction s as [s IH] using (well_founded_induction
                                 (Wf_nat.well_founded_ltof _ (@length N))).
  unfold Wf_nat.ltof in IH.
  intros x r H. destruct s as [|c t]; simpl in H; [discriminate|].
  destruct (N.eqb c 34).
  { injection H as <- <-. simpl. lia. }
  destruct (N.eqb c 92).
  2:{ destruct (N.ltb c 32); [discriminate|].
      apply cons_chunk_Some in H. destruct H as (x' & H & _).
      apply IH in H; simpl in *; lia. }
  destruct t as [|e t1]; [discriminate|].
  destruct (N.eqb e 117).
  2:{ destruct (backslash e); [|discriminate].
      apply cons_chunk_Some in H. destruct H as (x' & H & _).
      apply IH in H; simpl in *; lia. }
  destruct t1 as [|h1 [|h2 [|h3 [|h4 t5]]]]; try discriminate.
  destruct (hex4 h1 h2 h3 h4) as [uni|]; [|discriminate].
  assert (Hplain : forall y, cons_chunk y (scanstring t5) = Some (x, r) ->
                             length r < length (c :: e :: h1 :: h2 :: h3 :: h4 :: t5)).
  { intros y Hy. apply cons_chunk_Some in Hy. destruct Hy as (x' & Hy & _).
    apply IH in Hy; simpl in *; lia. }
  destruct (is_high_surrogate uni); [|now apply (Hplain uni)].
  destruct t5 as [|b [|u t7]]; try now apply (Hplain uni).
  destruct (N.eqb b 92 && N.eqb u 117)%bool; [|now apply (Hplain uni)].
  destruct t7 as [|g1 [|g2 [|g3 [|g4 t11]]]]; try discriminate.
  destruct (hex4 g1 g2 g3 g4) as [uni2|]; [|discriminate].
  destruct (is_low_surrogate uni2); [|now apply (Hplain uni)].
  apply cons_chunk_Some in H. destruct H as (x' & H & _).
  apply IH in H; simpl in *; lia.
Qed.

Lemma span_digits_length (s : str) :
  length (snd (span_digits s)) <= length s.
Proof.
  induction s as [|c t IH]; simpl; [lia|].
  destruct (is_digit c); simpl; [|lia].
  destruct (span_digits t); simpl in *; lia.
Qed.

Lemma number_sign_length (s : str) : length (snd (number_sign s)) <= length s.
Proof.
  destruct s as [|c t]; simpl; [lia|].
  destruct (N.eqb c 45); simpl; lia.
Qed.

Lemma number_int_length (s : str) ds r :
  number_int s = Some (ds, r) -> length r < length s.
Proof.
  destruct s as [|d t]; simpl; [discriminate|].
  destruct (N.eqb d 48).
  - intros H. injection H as <- <-. simpl. lia.
  - destruct (is_digit d); [|discriminate].
    pose proof (span_digits_length t) as Hl.
    destruct (span_digits t) as [ds' r']. intros H. injection H as <- <-.
    simpl in *. lia.
Qed.

Lemma number_frac_length (s : str) : length (snd (number_frac s)) <= length s.
Proof.
  destruct s as [|c t]; simpl; [lia|].
  destruct (N.eqb c 46); simpl; [|lia].
  pose proof (span_digits_length t) as Hl.
  destruct (span_digits t) as [[|n l] r']; simpl in *; lia.
Qed.

Lemma number_exp_length (s : str) : length (snd (number_exp s)) <= length s.
Proof.
  destruct s as [|c t]; simpl; [lia|].
  destruct (N.eqb c 101 || N.eqb c 69)%bool; simpl; [|lia].
  assert (Hq : length (snd (match t with
                            | [] => ([], t)
                            | g :: t'' =>
                                if (N.eqb g 45 || N.eqb g 43)%bool
                                then ([g], t'') else ([], t)
                            end)) <= length t).
  { destruct t as [|g t'']; simpl; [lia|].
    destruct (N.eqb g 45 || N.eqb g 43)%bool; simpl; lia. }
  destruct (match t with
            | [] => ([], t)
            | g :: t'' =>
                if (N.eqb g 45 || N.eqb g 43)%bool then ([g], t'') else ([], t)
            end) as [sg t']. simpl in Hq.
  pose proof (span_digits_length t') as Hl.
  destruct (span_digits t') as [[|n l] r']; simpl in *; lia.
Qed.

(** A number takes at least one character. *)
Lemma match_number_length (s : str) g1 g2 g3 r :
  match_number s = Some (g1, g2, g3, r) -> length r < length s.
Proof.
  unfold match_number.
  pose proof (number_sign_length s) as H1.
  destruct (number_sign s) as [sign s1]. simpl in H1.
  destruct (number_int s1) as [[digits r0]|] eqn:E; [|discriminate].
  apply number_int_length in E.
  pose proof (number_frac_length r0) as H2.
  destruct (number_frac r0) as [frac r1]. simpl in H2.
  pose proof (number_exp_length r1) as H3.
  destruct (number_exp r1) as [exp r2]. simpl in H3.
  intros H. injection H as _ _ _ <-. lia.
Qed.

Section Loops.

Variable scan : str -> pres value.
Variable n : nat.
Hypothesis Hscan : productive scan n.

Ltac dead := split; [discriminate|split; intros; discriminate].

Lemma object_loop_fuel :
  forall fuel pairs s, length s < fuel -> length s <= n ->
    object_loop scan fuel pairs s <> PFuel /\
    (forall ps r, object_loop scan fuel pairs s = POk ps r -> length r < length s) /\
    (forall e, object_loop scan fuel pairs s = PRaise e -> limit_error e).
Proof.
  induction fuel as [|fuel IH]; intros pairs s Hf Hn; [lia|].
  simpl. destruct (scanstring s) as [[key s1]|] eqn:Ek; [|dead].
  apply scanstring_length in Ek.
  pose proof (skip_ws_length s1) as L1.
  destruct (skip_ws s1) as [|c s2]; [dead|].
  simpl in L1.
  destruct (N.eqb c 58); [|dead].
  pose proof (skip_ws_length s2) as L2.
  destruct (Hscan (skip_ws s2)) as (Hnf & Hlen & Hlim); [lia|].
  destruct (scan (skip_ws s2)) as [v s3| |e|]; [|dead| |contradiction].
  2:{ split; [discriminate|]. split; [intros; discriminate|].
      intros e' H. injection H as <-. now apply Hlim. }
  specialize (Hlen v s3 eq_refl).
  pose proof (skip_ws_length s3) as L3.
  destruct (skip_ws s3) as [|c' s4]; [dead|].
  simpl in L3.
  destruct (N.eqb c' 125).
  { split; [discriminate|]. split; [|intros; discriminate].
    intros ps r H. injection H as _ <-. lia. }
  destruct (N.eqb c' 44); [|dead].
  pose proof (skip_ws_length s4) as L4.
  destruct (skip_ws s4) as [|q s5]; [dead|].
  simpl in L4.
  destruct (N.eqb q 34); [|dead].
  destruct (IH (pairs ++ [(key, v)]) s5) as (G1 & G2 & G3); [lia|lia|].
  split; [exact G1|]. split; [|exact G3]. intros ps r H. apply G2 in H. lia.
Qed.

Lemma JSONObject_fuel :
  forall fuel s, length s < fuel -> length s <= n ->
    JSONObject scan fuel s <> PFuel /\
    (forall v r, JSONObject scan fuel s = POk v r -> length r <= length s) /\
    (forall e, JSONObject scan fuel s = PRaise e -> limit_error e).
Proof.
  intros fuel s Hf Hn. unfold JSONObject.
  pose proof (skip_ws_length s) as L.
  destruct (skip_ws s) as [|c t]; [dead|].
  simpl in L.
  destruct (N.eqb c 125).
  { split; [discriminate|]. split; [|intros; discriminate].
    intros v r H. injection H as _ <-. lia. }
  destruct (N.eqb c 34); [|dead].
  destruct (@object_loop_fuel fuel [] t) as (G1 & G2 & G3); [lia|lia|].
  destruct (object_loop scan fuel [] t) as [ps r| |e|]; [|dead| |contradiction].
  - split; [discriminate|]. split; [|intros; discriminate].
    intros v r' H. injection H as _ <-. specialize (G2 ps r eq_refl). lia.
  - split; [discriminate|]. split; [intros; discriminate|].
    intros e' H. injection H as <-. now apply G3.
Qed.

Lemma array_loop_fuel :
  forall fuel values s, length s < fuel -> length s < n ->
    array_loop scan fuel values s <> PFuel /\
    (forall vs r, array_loop scan fuel values s = POk vs r -> length r < length s) /\
    (forall e, array_loop scan fuel values s = PRaise e -> limit_error e).
Proof.
  induction fuel as [|fuel IH]; intros values s Hf Hn; [lia|].
  simpl. destruct (Hscan s) as (Hnf & Hlen & Hlim); [lia|].
  destruct (scan s) as [v s1| |e|]; [|dead| |contradiction].
  2:{ split; [discriminate|]. split; [intros; discriminate|].
      intros e' H. injection H as <-. now apply Hlim. }
  specialize (Hlen v s1 eq_refl).
  pose proof (skip_ws_length s1) as L1.
  destruct (skip_ws s1) as [|c s2]; [dead|].
  simpl in L1.
  destruct (N.eqb c 93).
  { split; [discriminate|]. split; [|intros; discriminate].
    intros vs r H. injection H as _ <-. lia. }
  destruct (N.eqb c 44); [|dead].
  pose proof (skip_ws_length s2) as L2.
  destruct (IH (values ++ [v]) (skip_ws s2)) as (G1 & G2 & G3); [lia|lia|].
  split; [exact G1|]. split; [|exact G3]. intros vs r H. apply G2 in H. lia.
Qed.

Lemma JSONArray_fuel :
  forall fuel s, length s < fuel -> length s < n ->
    JSONArray scan fuel s <> PFuel /\
    (forall v r, JSONArray scan fuel s = POk v r -> length r <= length s) /\
    (forall e, JSONArray scan fuel s = PRaise e -> limit_error e).
Proof.
  intros fuel s Hf Hn. unfold JSONArray.
  pose proof (skip_ws_length s) as L.
  destruct (skip_ws s) as [|c t] eqn:Es; [dead|].
  simpl in L.
  destruct (N.eqb c 93).
  { split; [discriminate|]. split; [|intros; discriminate].
    intros v r H. injection H as _ <-. lia. }
  destruct (@array_loop_fuel fuel [] (c :: t)) as (G1 & G2 & G3);
    [simpl; lia|simpl; lia|].
  destruct (array_loop scan fuel [] (c :: t)) as [vs r| |e|]; [|dead| |contradiction].
  - split; [discriminate|]. split; [|intros; discriminate].
    intros v r' H. injection H as _ <-.
    specialize (G2 vs r eq_refl). simpl in G2. lia.
  - split; [discriminate|]. split; [intros; discriminate|].
    intros e' H. injection H as <-. now apply G3.
Qed.

End Loops.

Lemma skipn_length_lt {A : Type} (k : nat) (l : list A) :
  0 < k -> l <> [] -> length (skipn k l) < length l.
Proof.
  intros Hk Hl. rewrite length_skipn. destruct l; [contradiction|].
  cbn [length]. lia.
Qed.

(** With a budget above the length of the text, the scanner never stops for
    lack of budget, a value always takes at least one character, and the
    exceptions are those of the two limits, whatever the depth allowed. *)
Lemma scan_once_productive (L : limits) :
  forall fuel depth, productive (scan_once L fuel depth) fuel.
Proof.
  induction fuel as [|fuel IH]; intros depth s Hs; [lia|].
  destruct s as [|c t]; [split; [discriminate|split; intros; discriminate]|].
  cbn [scan_once]. simpl in Hs.
  destruct (N.eqb c 34).
  { destruct (scanstring t) as [[x r]|] eqn:E;
      [|split; [discriminate|split; intros; discriminate]].
    apply scanstring_length in E.
    split; [discriminate|]. split; [|intros; discriminate].
    intros v r' H. injection H as _ <-. simpl. lia. }
  destruct (N.eqb c 123).
  { destruct depth as [|depth].
    { split; [discriminate|]. split; [intros; discriminate|].
      intros e H. injection H as <-. now left. }
    destruct (@JSONObject_fuel _ _ (IH depth) fuel t) as (G1 & G2 & G3); [lia|lia|].
    split; [exact G1|]. split; [|exact G3].
    intros v r H. apply G2 in H. simpl. lia. }
  destruct (N.eqb c 91).
  { destruct depth as [|depth].
    { split; [discriminate|]. split; [intros; discriminate|].
      intros e H. injection H as <-. now left. }
    destruct (@JSONArray_fuel _ _ (IH depth) fuel t) as (G1 & G2 & G3); [lia|lia|].
    split; [exact G1|]. split; [|exact G3].
    intros v r H. apply G2 in H. simpl. lia. }
  assert (Hk : forall k, 0 < k -> length (skipn k (c :: t)) < length (c :: t)).
  { intros k Hk. apply skipn_length_lt; [exact Hk|discriminate]. }
  destruct (startswith (c :: t) (py "null")).
  { split; [discriminate|]. split; [|intros; discriminate].
    intros v r H. injection H as _ <-. apply (Hk 4%nat). lia. }
  destruct (startswith (c :: t) (py "true")).
  { split; [discriminate|]. split; [|intros; discriminate].
    intros v r H. injection H as _ <-. apply (Hk 4%nat). lia. }
  destruct (startswith (c :: t) (py "false")).
  { split; [discriminate|]. split; [|intros; discriminate].
    intros v r H. injection H as _ <-. apply (Hk 5%nat). lia. }
  destruct (match_number (c :: t)) as [[[[g1 g2] g3] r0]|] eqn:E.
  { apply match_number_length in E.
    destruct g2, g3; try (split; [discriminate|]; split; [|intros; discriminate];
      intros v r H; injection H as _ <-; exact E).
    destruct (int_too_long L g1).
    - split; [discriminate|]. split; [intros; discriminate|].
      intros e H. injection H as <-. now right.
    - split; [discriminate|]. split; [|intros; discriminate].
      intros v r H. injection H as _ <-. exact E. }
  destruct (startswith (c :: t) (py "NaN")).
  { split; [discriminate|]. split; [|intros; discriminate].
    intros v r H. injection H as _ <-. apply (Hk 3%nat). lia. }
  destruct (startswith (c :: t) (py "Infinity")).
  { split; [discriminate|]. split; [|intros; discriminate].
    intros v r H. injection H as _ <-. apply (Hk 8%nat). lia. }
  destruct (startswith (c :: t) (py "-Infinity")).
  { split; [discriminate|]. split; [|intros; discriminate].
    intros v r H. injection H as _ <-. apply (Hk 9%nat). lia. }
  split; [discriminate|split; intros; discriminate].
Qed.

(** The budget of the model's loops is never used up: on every text, with
    every limit, the scan of [json.loads] ends in a value, a
    [JSONDecodeError] or the error of a limit. *)
Lemma json_loads_budget (L : limits) (s : str) :
  scan_once L (S (length s)) (recursion_budget L) (skip_ws s) <> PFuel.
Proof.
  pose proof (skip_ws_length s) as Hl.
  now destruct (@scan_once_productive L (S (length s)) (recursion_budget L) (skip_ws s))
    as (G & _); [lia|].
Qed.

(** [json.loads] returns a value, or raises [JSONDecodeError], or raises
    the error of a limit ([RecursionError], [ValueError]): nothing else. *)
Lemma json_loads_total (L : limits) (s : str) :
  (exists v, json_loads L s = Ret v) \/
  (exists e, json_loads L s = Raise e /\
             (exn_cls e = JSONDecodeError \/ limit_error e)).
Proof.
  unfold json_loads.
  destruct (startswith s [65279%N]); [right; eauto|].
  pose proof (skip_ws_length s) as Hl.
  destruct (@scan_once_productive L (S (length s)) (recursion_budget L) (skip_ws s))
    as (G & _ & G3); [lia|].
  destruct (scan_once L (S (length s)) (recursion_budget L) (skip_ws s))
    as [v r| |e|]; [| | |contradiction].
  - destruct (skip_ws r); [left|right]; eauto.
  - right. eauto.
  - right. exists e. split; [reflexivity|]. right. now apply G3.
Qed.

End JsonFacts.
Import JsonFacts.

(* ===================================================================== *)
(** * The Extractor tries its strategies in order                        *)
(* ===================================================================== *)

Module ExtractorFacts.

Lemma log_add_nil w : log_add w [] = w.
Proof. destruct w. unfold log_add. simpl. now rewrite app_nil_r. Qed.

Lemma log_add_add w a b : log_add (log_add w a) b = log_add w (a ++ b).
Proof. unfold log_add. simpl. now rewrite app_assoc. Qed.

Lemma call_json_loads_run E s w :
  call_json_loads E s w = (json_loads (py_limits E) s, log_add w [EvJsonLoads s]).
Proof.
  unfold call_json_loads, bind, emit, lift, log_add. simpl.
  destruct (json_loads (py_limits E) s); reflexivity.
Qed.

Lemma call_re_search_run s w :
  call_re_search s w = (Ret (re_search json_pattern s), log_add w [EvReSearch s]).
Proof. reflexivity. Qed.

(** [try: return json.loads(s) except json.JSONDecodeError: ...]: the
    handler runs when the decoder raises a [JSONDecodeError], and any other
    exception goes on. *)
Lemma try_loads_run E s (h : exn -> M value) w :
  try_except (call_json_loads E s) JSONDecodeError h w =
  match json_loads (py_limits E) s with
  | Ret v => (Ret v, log_add w [EvJsonLoads s])
  | Raise e =>
      if exn_class_eqb (exn_cls e) JSONDecodeError
      then h e (log_add w [EvJsonLoads s])
      else (Raise e, log_add w [EvJsonLoads s])
  end.
Proof.
  unfold try_except. rewrite call_json_loads_run.
  destruct (json_loads (py_limits E) s); reflexivity.
Qed.

Lemma line_range_scan_run E content w :
  line_range_scan E content w =
  let (r, evs) := first_success (py_limits E) [LineRange] content in (r, log_add w evs).
Proof.
  unfold line_range_scan. simpl. unfold tier_result, tier_events. simpl.
  destruct (negb (find_json_start (split_lines (strip content)) 0 =? -1)
            && negb (find_json_end (split_lines (strip content)) =? -1))%Z;
    simpl.
  - rewrite try_loads_run.
    destruct (json_loads _ _) as [v|e]; simpl; [reflexivity|].
    destruct (exn_class_eqb (exn_cls e) JSONDecodeError); reflexivity.
  - unfold ret. now rewrite log_add_nil.
Qed.

(** The Extractor is the first success of the three strategies, and makes
    the calls of the strategies it tried, in their order, and no other. *)
Lemma extract_first_success E content w :
  extract_json_from_response E content w =
  (fst (first_success (py_limits E) three_tiers content),
   log_add w (snd (first_success (py_limits E) three_tiers content))).
Proof.
  unfold extract_json_from_response. rewrite try_loads_run.
  set (L := py_limits E).
  assert (HL : forall w1 pre,
             line_range_scan E content (log_add w1 pre) =
             (fst (first_success L [LineRange] content),
              log_add w1 (pre ++ snd (first_success L [LineRange] content)))).
  { intros w1 pre. rewrite line_range_scan_run. fold L.
    destruct (first_success L [LineRange] content) as [v evs]. simpl.
    now rewrite log_add_add. }
  unfold three_tiers.
  change (first_success L [DirectParse; FencedBlock; LineRange] content)
    with (match tier_result L DirectParse content with
          | Parsed v => (Ret v, tier_events DirectParse content)
          | Uncaught e => (Raise e, tier_events DirectParse content)
          | Nothing =>
              let (r, evs) :=
                match tier_result L FencedBlock content with
                | Parsed v => (Ret v, tier_events FencedBlock content)
                | Uncaught e => (Raise e, tier_events FencedBlock content)
                | Nothing =>
                    let (r, evs) := first_success L [LineRange] content in
                    (r, tier_events FencedBlock content ++ evs)
                end in
              (r, tier_events DirectParse content ++ evs)
          end).
  unfold tier_result, tier_events.
  cbn [tier_candidate].
  destruct (json_loads L (strip content)) as [v|e]; [reflexivity|].
  destruct (exn_class_eqb (exn_cls e) JSONDecodeError); [|reflexivity].
  unfold bind. rewrite call_re_search_run, log_add_add.
  destruct (re_search json_pattern content) as [[g|]|].
  - rewrite try_loads_run. fold L.
    destruct (json_loads L g) as [v|e'].
    + rewrite log_add_add. reflexivity.
    + destruct (exn_class_eqb (exn_cls e') JSONDecodeError).
      * rewrite log_add_add, HL.
        destruct (first_success L [LineRange] content) as [v evs]. simpl.
        repeat rewrite <- app_assoc. reflexivity.
      * rewrite log_add_add. reflexivity.
  - rewrite HL.
    destruct (first_success L [LineRange] content) as [v evs]. simpl.
    repeat rewrite <- app_assoc. reflexivity.
  - rewrite HL.
    destruct (first_success L [LineRange] content) as [v evs]. simpl.
    repeat rewrite <- app_assoc. reflexivity.
Qed.

Lemma class_eqb_eq a b : exn_class_eqb a b = true <-> a = b.
Proof. destruct a, b; simpl; split; intros H; try reflexivity; discriminate. Qed.

(** What [first_success] returns was decoded from a text it handed to the
    decoder, unless it is Python's None; what it raises was raised by the
    decoder on such a text, and is the error of a limit. *)
Lemma first_success_decoded L tiers content :
  let (r, evs) := first_success L tiers content in
  match r with
  | Ret v =>
      v = PyNone \/
      exists text, In (EvJsonLoads text) evs /\ json_loads L text = Ret v
  | Raise e =>
      limit_error e /\
      exists text, In (EvJsonLoads text) evs /\ json_loads L text = Raise e
  end.
Proof.
  induction tiers as [|t rest IH]; simpl; [now left|].
  unfold tier_result, tier_events.
  assert (Hrest :
            let (r, evs) := first_success L rest content in
            forall pre,
              match r with
              | Ret v =>
                  v = PyNone \/
                  exists text, In (EvJsonLoads text) (pre ++ evs) /\
                               json_loads L text = Ret v
              | Raise e =>
                  limit_error e /\
                  exists text, In (EvJsonLoads text) (pre ++ evs) /\
                               json_loads L text = Raise e
              end).
  { destruct (first_success L rest content) as [[v|e] evs]; intros pre.
    - destruct IH as [IH|[text' [Hin Hl]]]; [now left|right].
      exists text'. split; [|exact Hl]. apply in_or_app. now right.
    - destruct IH as [Hlim [text' [Hin Hl]]]. split; [exact Hlim|].
      exists text'. split; [|exact Hl]. apply in_or_app. now right. }
  destruct (tier_candidate t content) as [text|].
  - destruct (json_loads L text) as [v|e] eqn:Ej.
    + right. exists text. split; [|exact Ej].
      destruct t; simpl; auto.
    + destruct (exn_class_eqb (exn_cls e) JSONDecodeError) eqn:Ec.
      * destruct (first_success L rest content) as [r evs]. apply Hrest.
      * split.
        { destruct (json_loads_total L text) as [[v Hv]|[e' [He' [Hc|Hc]]]];
            rewrite Ej in *; try discriminate; injection He' as <-; [|exact Hc].
          apply class_eqb_eq in Hc. congruence. }
        exists text. split; [|exact Ej]. destruct t; simpl; auto.
  - destruct (first_success L rest content) as [r evs]. apply Hrest.
Qed.

End ExtractorFacts.
Import ExtractorFacts.

(* ===================================================================== *)
(** * The Record Writer                                                  *)
(* ===================================================================== *)

Module WriterFacts.

Lemma bindR_Ret {A B : Type} (r : res A) (k : A -> res B) (b : B) :
  bindR r k = Ret b -> exists a, r = Ret a /\ k a = Ret b.
Proof. destruct r; simpl; [eauto|discriminate]. Qed.

Lemma bind_params_length pos vs xs :
  bind_params pos vs = Ret xs -> length xs = length vs.
Proof.
  revert pos xs; induction vs as [|v vs IH]; simpl; intros pos xs H.
  - injection H as <-. reflexivity.
  - apply bindR_Ret in H. destruct H as (x & _ & H).
    apply bindR_Ret in H. destruct H as (xs' & Hxs & H).
    injection H as <-. simpl. f_equal. now apply IH with (pos := S pos).
Qed.

(** Each value is the binding of the parameter at its position. *)
Lemma bind_params_nth pos vs xs n :
  bind_params pos vs = Ret xs -> (n < length vs)%nat ->
  bind_param (pos + n) (nth n vs PyNone) = Ret (nth_val xs n).
Proof.
  revert pos xs n; induction vs as [|v vs IH]; simpl; intros pos xs n H Hn; [lia|].
  apply bindR_Ret in H. destruct H as (x & Hx & H).
  apply bindR_Ret in H. destruct H as (xs' & Hxs & H).
  injection H as <-. destruct n as [|n]; [now rewrite Nat.add_0_r|].
  unfold nth_val. simpl. rewrite Nat.add_succ_r.
  apply (IH (S pos)); [exact Hxs|lia].
Qed.

Lemma entry_gets_dict d ks :
  entry_gets (PyDict d) ks = Ret (List.map (fun k => dict_get d (py k)) ks).
Proof.
  induction ks as [|k ks IH]; simpl; [reflexivity|]. now rewrite IH.
Qed.

Lemma is_surrogate_false c :
  is_surrogate c = false -> (c < 55296 \/ 57343 < c)%N.
Proof.
  unfold is_surrogate. intros H. apply andb_false_iff in H.
  destruct H as [H|H]; apply N.leb_gt in H; lia.
Qed.

Lemma is_surrogate_outside c :
  (c < 55296 \/ 57343 < c)%N -> is_surrogate c = false.
Proof.
  unfold is_surrogate. intros H. apply andb_false_iff.
  destruct H as [H|H]; [left|right]; apply N.leb_gt; lia.
Qed.

(** A text encodes to UTF-8 exactly when it has no surrogate. *)
Lemma utf8_error_None s : forall i,
  utf8_error s i = None <-> Forall (fun c => (c < 55296 \/ 57343 < c)%N) s.
Proof.
  induction s as [|c s IH]; intros i; cbn [utf8_error].
  - split; [constructor|reflexivity].
  - destruct (is_surrogate c) eqn:Ec.
    + split; [discriminate|]. intros H. inversion H as [|? ? Hc _]; subst.
      apply is_surrogate_outside in Hc. congruence.
    + rewrite IH. split.
      * intros H. constructor; [now apply is_surrogate_false|exact H].
      * intros H. now inversion H.
Qed.

(** What [sqlite3] binds and a TEXT column stores is what the words of
    [stored_as] say. *)
Lemma stored_as_bind pos v x :
  bind_param pos v = Ret x -> stored_as v (text_affinity x).
Proof.
  destruct v as [|b|z|l|s|l|d]; cbn [bind_param]; intros H.
  - injection H as <-. constructor.
  - injection H as <-. destruct b; constructor.
  - destruct ((- 2 ^ 63 <=? z) && (z <? 2 ^ 63))%Z eqn:Ez; [|discriminate].
    injection H as <-. apply andb_true_iff in Ez. destruct Ez as [A B].
    apply Z.leb_le in A. apply Z.ltb_lt in B. constructor. lia.
  - injection H as <-. destruct (str_eqb l (py "NaN")) eqn:El.
    + apply str_eqb_eq in El. subst l. constructor.
    + constructor. intros ->. discriminate.
  - destruct (utf8_error s 0) eqn:Eu; [discriminate|].
    injection H as <-. constructor. now apply (utf8_error_None s 0).
  - discriminate.
  - discriminate.
Qed.

(** A value the words of [stored_as] cover is bound, at any position, to
    what gives its cell. *)
Lemma bind_stored_as pos v cell :
  stored_as v cell -> exists x, bind_param pos v = Ret x /\ text_affinity x = cell.
Proof.
  intros H. destruct H as [|s Hs|z Hz| | |lit Hl|]; cbn [bind_param].
  - now exists SqlNull.
  - apply (utf8_error_None s 0) in Hs. rewrite Hs. now exists (SqlText s).
  - replace ((- 2 ^ 63 <=? z) && (z <? 2 ^ 63))%Z with true.
    + now exists (SqlInteger z).
    + symmetry. apply andb_true_iff. split; [apply Z.leb_le|apply Z.ltb_lt]; lia.
  - now exists (SqlInteger 1).
  - now exists (SqlInteger 0).
  - destruct (str_eqb lit (py "NaN")) eqn:El.
    + apply str_eqb_eq in El. contradiction.
    + now exists (SqlReal lit).
  - now exists SqlNull.
Qed.

(** Each cell of a TEXT column holds what the words of [stored_as] say
    for the parameter at its place. *)
Lemma bind_params_stored pos vs xs n :
  bind_params pos vs = Ret xs -> (n < length vs)%nat ->
  stored_as (nth n vs PyNone) (text_cell xs n).
Proof.
  intros H Hn. unfold text_cell. eapply stored_as_bind.
  now apply bind_params_nth with (1 := H).
Qed.

Lemma stored_as_text s cell : stored_as (PyStr s) cell -> cell = SqlText s.
Proof. intros H. now inversion H. Qed.

Lemma stored_as_none cell : stored_as PyNone cell -> cell = SqlNull.
Proof. intros H. now inversion H. Qed.

Lemma text_affinity_null x : text_affinity x = SqlNull -> x = SqlNull.
Proof. destruct x; simpl; intros H; try discriminate; reflexivity. Qed.

(** A cell stored for [entry.get(name)] stores the field of that name. *)
Lemma stores_get d name cell :
  stored_as (dict_get d (py name)) cell -> stores d name cell.
Proof.
  unfold dict_get, stores. intros H. split; [|split].
  - intros v Hv. rewrite Hv in H. split; [now apply dict_lookup_Some|exact H].
  - intros text Hv. rewrite Hv in H. now apply stored_as_text.
  - intros Hno. apply dict_lookup_None in Hno. rewrite Hno in H.
    now apply stored_as_none.
Qed.

Lemma insert_index1_row conn id params conn' :
  insert_index1 conn id params = Ret conn' ->
  exists xs row,
    bind_params 2 params = Ret xs /\
    index1_entries conn' = index1_entries conn ++ [row] /\
    i1_document_id row = id /\
    documents conn' = documents conn /\
    index2_entries conn' = index2_entries conn /\
    seq_documents conn' = seq_documents conn /\
    row = {| i1_id := seq_index1 conn + 1; i1_document_id := id;
             i1_serial_number := text_cell xs 0; i1_name_of_person := text_cell xs 1;
             i1_family_details := text_cell xs 2; i1_police_station := text_cell xs 3;
             i1_religion := text_cell xs 4; i1_occupation := text_cell xs 5;
             i1_interest_of_person := text_cell xs 6;
             i1_where_registered := text_cell xs 7;
             i1_book_1_volume := text_cell xs 8; i1_book_2_page := text_cell xs 9 |}.
Proof.
  unfold insert_index1. intros H. apply bindR_Ret in H.
  destruct H as (xs & Hxs & H). injection H as <-.
  eexists xs, _. simpl. repeat split; try reflexivity; exact Hxs.
Qed.

Lemma insert_index2_row conn id params conn' :
  insert_index2 conn id params = Ret conn' ->
  exists xs row,
    bind_params 2 params = Ret xs /\
    index2_entries conn' = index2_entries conn ++ [row] /\
    i2_document_id row = id /\
    documents conn' = documents conn /\
    index1_entries conn' = index1_entries conn /\
    seq_documents conn' = seq_documents conn /\
    row = {| i2_id := seq_index2 conn + 1; i2_document_id := id;
             i2_serial_number := text_cell xs 0; i2_property_name := text_cell xs 1;
             i2_pargana_town_thana := text_cell xs 2; i2_location := text_cell xs 3;
             i2_nature_of_transaction := text_cell xs 4;
             i2_where_registered := text_cell xs 5;
             i2_book_1_volume := text_cell xs 6; i2_book_1_page := text_cell xs 7 |}.
Proof.
  unfold insert_index2. intros H. apply bindR_Ret in H.
  destruct H as (xs & Hxs & H). injection H as <-.
  eexists xs, _. simpl. repeat split; try reflexivity; exact Hxs.
Qed.

(** The rows the loop over the entries adds: one per entry, in the table
    of the kind, all with the same [document_id]. *)
Lemma insert_entries_rows k id entries :
  forall conn conn', insert_entries k id entries conn = Ret conn' ->
    documents conn' = documents conn /\
    seq_documents conn' = seq_documents conn /\
    match k with
    | INDEX_1 =>
        exists rows, gained (index1_entries conn) (index1_entries conn') rows /\
                     length rows = length entries /\
                     Forall (fun r => i1_document_id r = id) rows /\
                     index2_entries conn' = index2_entries conn
    | INDEX_2 =>
        exists rows, gained (index2_entries conn) (index2_entries conn') rows /\
                     length rows = length entries /\
                     Forall (fun r => i2_document_id r = id) rows /\
                     index1_entries conn' = index1_entries conn
    end.
Proof.
  unfold gained.
  induction entries as [|entry rest IH]; simpl; intros conn conn' H.
  - injection H as <-. repeat split.
    destruct k; exists []; rewrite app_nil_r; auto.
  - apply bindR_Ret in H. destruct H as (conn1 & H1 & H).
    apply IH in H. destruct H as (Hd & Hs & Hk).
    destruct k; simpl in H1; apply bindR_Ret in H1;
      destruct H1 as (params & _ & H1).
    + apply insert_index1_row in H1.
      destruct H1 as (xs & row & _ & Hrow & Hid & Hd1 & H21 & Hs1 & _).
      split; [congruence|]. split; [congruence|].
      destruct Hk as (rows & Hg & Hl & Hf & H2).
      exists (row :: rows). rewrite Hg, Hrow, <- app_assoc. simpl.
      repeat split; [now f_equal| |congruence].
      constructor; assumption.
    + apply insert_index2_row in H1.
      destruct H1 as (xs & row & _ & Hrow & Hid & Hd1 & H21 & Hs1 & _).
      split; [congruence|]. split; [congruence|].
      destruct Hk as (rows & Hg & Hl & Hf & H2).
      exists (row :: rows). rewrite Hg, Hrow, <- app_assoc. simpl.
      repeat split; [now f_equal| |congruence].
      constructor; assumption.
Qed.

Lemma insert_document_row conn params conn' :
  insert_document conn params = Ret conn' ->
  exists row,
    documents conn' = documents conn ++ [row] /\
    doc_id row = lastrowid_documents conn' /\
    stored_as (nth 5 params PyNone) (doc_source_path row) /\
    stored_as (nth 0 params PyNone) (doc_document_type row) /\
    doc_document_type row <> SqlNull /\
    index1_entries conn' = index1_entries conn /\
    index2_entries conn' = index2_entries conn.
Proof.
  unfold insert_document. intros H.
  apply bindR_Ret in H. destruct H as (xs & Hxs & H).
  apply bindR_Ret in H. destruct H as ([] & Hn0 & H).
  apply bindR_Ret in H. destruct H as ([] & Hn5 & H).
  injection H as <-. eexists. simpl.
  pose proof (bind_params_length _ _ Hxs) as Hl.
  repeat split; try reflexivity.
  - destruct (Nat.lt_ge_cases 5 (length params)) as [L|L].
    + unfold text_cell. eapply stored_as_bind. now apply bind_params_nth with (1 := Hxs).
    + exfalso. unfold nth_val in Hn5. rewrite nth_overflow in Hn5 by lia.
      discriminate.
  - destruct (Nat.lt_ge_cases 0 (length params)) as [L|L].
    + unfold text_cell. eapply stored_as_bind. now apply bind_params_nth with (1 := Hxs).
    + exfalso. unfold nth_val in Hn0. rewrite nth_overflow in Hn0 by lia.
      discriminate.
  - intros E. unfold text_cell in E. apply text_affinity_null in E.
    rewrite E in Hn0. discriminate.
Qed.

(** What a committed transaction added to the database. *)
Lemma transaction_rows k json_data image_path conn conn' :
  transaction k json_data image_path conn = Ret conn' ->
  exists doc entries,
    py_iter (dict_get_default json_data (py "entries") (PyList [])) = Ret entries /\
    documents conn' = documents conn ++ [doc] /\
    doc_source_path doc = SqlText image_path /\
    match k with
    | INDEX_1 =>
        exists rows, gained (index1_entries conn) (index1_entries conn') rows /\
                     length rows = length entries /\
                     Forall (fun r => i1_document_id r = doc_id doc) rows /\
                     index2_entries conn' = index2_entries conn
    | INDEX_2 =>
        exists rows, gained (index2_entries conn) (index2_entries conn') rows /\
                     length rows = length entries /\
                     Forall (fun r => i2_document_id r = doc_id doc) rows /\
                     index1_entries conn' = index1_entries conn
    end.
Proof.
  unfold transaction. intros H.
  apply bindR_Ret in H. destruct H as (conn1 & H1 & H).
  apply bindR_Ret in H. destruct H as (entries & He & H).
  apply insert_document_row in H1.
  destruct H1 as (doc & Hd & Hid & Hsp & _ & _ & Hi1 & Hi2).
  apply insert_entries_rows in H. destruct H as (Hd' & Hs' & Hk).
  exists doc, entries. split; [exact He|]. split; [congruence|].
  split; [now apply stored_as_text in Hsp|].
  rewrite Hid. unfold lastrowid_documents.
  destruct k; destruct Hk as (rows & Hg & Hl & Hf & Ho); exists rows;
    unfold gained in *; repeat split; try congruence; exact Hf.
Qed.

Lemma connect_and_write_Ret E k json_data image_path db conn :
  connect_and_write E k json_data image_path db = Ret conn ->
  transaction k json_data image_path db = Ret conn.
Proof.
  unfold connect_and_write. intros H. apply bindR_Ret in H.
  now destruct H as (_ & _ & H).
Qed.

End WriterFacts.
Import WriterFacts.

(* ===================================================================== *)
(** * One file through [extract_document]                                *)
(* ===================================================================== *)

Module DocumentFacts.

(** A reply that is text: the Extractor runs, then the Record Writer if
    the Extractor returned a dict. *)
Lemma handle_content_run E p k c w :
  handle_content E p k (PyStr c) w =
  let w1 := log_add w (snd (first_success (py_limits E) three_tiers c)) in
  match fst (first_success (py_limits E) three_tiers c) with
  | Raise e => (Raise e, w1)
  | Ret PyNone => (Ret (parsing_failure E p k c), w1)
  | Ret (PyDict d) =>
      let json_data := add_metadata E p k d in
      match connect_and_write E k json_data p (w_db w) with
      | Ret conn =>
          (Ret json_data, {| w_db := conn; w_log := w_log w1 ++ [EvCommit] |})
      | Raise e =>
          (Ret (dict_set json_data (py "database_error") (PyStr (exn_msg e))), w1)
      end
  | Ret v => (Raise (no_item_assignment v), w1)
  end.
Proof.
  unfold handle_content, bind at 1. rewrite extract_first_success.
  destruct (fst (first_success (py_limits E) three_tiers c)) as [[| | | | | |d]|e];
    try reflexivity.
  cbv zeta. unfold try_except_Exception, bind, insert_to_sqlite, ret.
  simpl w_db.
  destruct (connect_and_write E k (add_metadata E p k d) p (w_db w)); reflexivity.
Qed.

(** A reply that is not text has no [strip]. *)
Lemma handle_content_not_str E p k content w :
  (forall c, content <> PyStr c) ->
  exists e, handle_content E p k content w = (Raise e, w).
Proof.
  intros H. unfold handle_content, raise.
  destruct content; try (eexists; reflexivity).
  exfalso. now apply (H s).
Qed.

Lemma extract_document_reply E p k w content :
  model_content E p k = Some content ->
  extract_document E p k w =
  match handle_content E p k content (log_add w [EvDocument k p; EvPost k p]) with
  | (Ret r, w') => (Ret r, w')
  | (Raise e, w') => (Ret (error_result E p k (handler_message e)), w')
  end.
Proof.
  unfold model_content, extract_document, handler_message.
  unfold bind at 1, emit at 1. cbv iota beta.
  destruct (read_image E p) as [b64|e]; [|discriminate].
  destruct (http_post E k (py "data:image/jpeg;base64," ++ b64)) as [result|e] eqn:Ep;
    [|discriminate].
  destruct (has_choices result) as [[|]|e] eqn:Eh; try discriminate.
  destruct (response_content result) as [c|e] eqn:Er; [|discriminate].
  intros H. injection H as ->.
  unfold bind, emit, lift. simpl w_db. simpl w_log. cbv iota beta.
  try rewrite Ep; cbv iota beta. try rewrite Eh; cbv iota beta.
  try rewrite Er; cbv iota beta.
  unfold log_add. simpl w_db. simpl w_log. rewrite <- app_assoc. simpl app.
  destruct (handle_content E p k content _) as [[r|e] w']; [reflexivity|].
  destruct (exn_class_eqb (exn_cls e) RequestException); reflexivity.
Qed.

Lemma extract_document_no_reply E p k w :
  model_content E p k = None ->
  exists message evs,
    extract_document E p k w = (Ret (error_result E p k message), log_add w evs) /\
    (evs = [EvDocument k p] \/ evs = [EvDocument k p; EvPost k p]).
Proof.
  unfold model_content, extract_document.
  unfold bind at 1, emit at 1. cbv iota beta.
  destruct (read_image E p) as [b64|e].
  2:{ intros _. eexists _, [_]. split; [reflexivity|]. now left. }
  unfold bind, emit, lift, ret. simpl w_db. simpl w_log. cbv iota beta.
  destruct (http_post E k (py "data:image/jpeg;base64," ++ b64)) as [result|e].
  2:{ intros _. cbv iota beta.
      destruct (exn_class_eqb (exn_cls e) RequestException);
        eexists _, [_; _]; (split; [|now right]);
        unfold log_add; simpl; rewrite <- app_assoc; reflexivity. }
  cbv iota beta.
  destruct (has_choices result) as [[|]|e].
  - destruct (response_content result) as [c|e]; [discriminate|].
    intros _. cbv iota beta.
    destruct (exn_class_eqb (exn_cls e) RequestException);
      eexists _, [_; _]; (split; [|now right]);
        unfold log_add; simpl; rewrite <- app_assoc; reflexivity.
  - intros _. cbv iota beta.
    eexists _, [_; _]; (split; [|now right]);
        unfold log_add; simpl; rewrite <- app_assoc; reflexivity.
  - intros _. cbv iota beta.
    destruct (exn_class_eqb (exn_cls e) RequestException);
      eexists _, [_; _]; (split; [|now right]);
        unfold log_add; simpl; rewrite <- app_assoc; reflexivity.
Qed.

(** [extract_document] always returns a dict. *)
Lemma extract_document_returns E p k w :
  exists r w', extract_document E p k w = (Ret r, w').
Proof.
  destruct (model_content E p k) as [content|] eqn:Em.
  - rewrite (extract_document_reply _ _ _ _ Em).
    destruct (handle_content E p k content _) as [[r|e] w']; eauto.
  - destruct (extract_document_no_reply E p k w Em) as (m & evs & H & _). eauto.
Qed.

(** The database after a file: the committed transaction when the reply is
    text, the Extractor returned a dict and every statement went through;
    the database as it was otherwise. *)
Lemma extract_document_db E p k w :
  w_db (snd (extract_document E p k w)) =
  match model_content E p k with
  | Some (PyStr c) =>
      match fst (first_success (py_limits E) three_tiers c) with
      | Ret (PyDict d) =>
          match connect_and_write E k (add_metadata E p k d) p (w_db w) with
          | Ret conn => conn
          | Raise _ => w_db w
          end
      | _ => w_db w
      end
  | _ => w_db w
  end.
Proof.
  destruct (model_content E p k) as [content|] eqn:Em.
  - rewrite (extract_document_reply _ _ _ _ Em).
    destruct content;
      try (edestruct handle_content_not_str as [e He];
           [|rewrite He; reflexivity]; intros c; discriminate).
    rewrite handle_content_run. cbv zeta.
    destruct (fst (first_success (py_limits E) three_tiers s)) as [[| | | | | |d]|e];
      try reflexivity.
    simpl w_db.
    destruct (connect_and_write E k (add_metadata E p k d) p (w_db w)); reflexivity.
  - destruct (extract_document_no_reply E p k w Em) as (m & evs & H & _).
    rewrite H. reflexivity.
Qed.

End DocumentFacts.
Import DocumentFacts.

(* ===================================================================== *)
(** * The calls of the Extractor, and the keys of a result              *)
(* ===================================================================== *)

Module ResultFacts.

Lemma first_success_probes L tiers content :
  forallb is_probe (snd (first_success L tiers content)) = true.
Proof.
  induction tiers as [|t rest IH]; simpl; [reflexivity|].
  assert (Ht : forallb is_probe (tier_events t content) = true).
  { unfold tier_events. destruct t; destruct (tier_candidate _ content); reflexivity. }
  destruct (tier_result L t content); simpl; [exact Ht| |exact Ht].
  destruct (first_success L rest content) as [v evs]. simpl in *.
  rewrite forallb_app, Ht, IH. reflexivity.
Qed.

Lemma py_neq (a b : string) : str_eqb (py a) (py b) = false -> py a <> py b.
Proof. apply str_eqb_neq. Qed.

(** The three keys of the metadata leave every other key as it was. *)
Lemma dict_lookup_add_metadata E p k d key :
  key <> py "source_path" -> key <> py "processed_at" -> key <> py "index_type" ->
  dict_lookup (add_metadata E p k d) key = dict_lookup d key.
Proof.
  intros H1 H2 H3. unfold add_metadata.
  rewrite !dict_lookup_set_other by congruence. reflexivity.
Qed.

Ltac cell Hn n := apply stores_get; apply (Hn n); lia.

End ResultFacts.
Import ResultFacts.

(* ===================================================================== *)
(** * The Batch Driver                                                   *)
(* ===================================================================== *)

Module BatchFacts.

Lemma processed_app a b : processed (a ++ b) = processed a ++ processed b.
Proof.
  induction a as [|ev a IH]; simpl; [reflexivity|].
  destruct ev; simpl; now rewrite ?IH.
Qed.

Lemma processed_probes evs : forallb is_probe evs = true -> processed evs = [].
Proof.
  induction evs as [|ev evs IH]; simpl; [reflexivity|].
  intros H. apply andb_true_iff in H. destruct H as [H1 H2].
  destruct ev; try discriminate; now apply IH.
Qed.

(** One call of [extract_document] is one more processed file. *)
Lemma extract_document_processed E p k w :
  processed (w_log (snd (extract_document E p k w))) =
  processed (w_log w) ++ [(k, p)].
Proof.
  destruct (model_content E p k) as [content|] eqn:Em.
  - rewrite (extract_document_reply _ _ _ _ Em).
    assert (Hnot : forall e, processed
                     (w_log (snd (Ret (error_result E p k (handler_message e)),
                                  log_add w [EvDocument k p; EvPost k p])))
                   = processed (w_log w) ++ [(k, p)]).
    { intros e. simpl. now rewrite processed_app. }
    destruct content;
      try (edestruct handle_content_not_str as [e He];
           [|rewrite He; apply Hnot]; intros c; discriminate).
    rewrite handle_content_run. cbv zeta.
    pose proof (first_success_probes (py_limits E) three_tiers s) as Hp.
    apply processed_probes in Hp.
    destruct (first_success (py_limits E) three_tiers s) as [v evs]. cbn [fst snd] in *.
    assert (Hlog : processed (w_log (log_add (log_add w [EvDocument k p; EvPost k p]) evs))
                   = processed (w_log w) ++ [(k, p)]).
    { simpl. rewrite !processed_app, Hp. simpl. now rewrite app_nil_r. }
    destruct v as [[| | | | | |d]|e]; try exact Hlog.
    simpl w_db.
    destruct (connect_and_write E k (add_metadata E p k d) p (w_db w)); [|exact Hlog].
    cbn [snd w_log]. rewrite processed_app, Hlog. simpl. now rewrite app_nil_r.
  - destruct (extract_document_no_reply E p k w Em) as (m & evs & H & [->| ->]);
      rewrite H; simpl; now rewrite processed_app.
Qed.

Lemma record_all_cons k r rs results :
  record_all k (r :: rs) results = record_all k rs (record_result k r results).
Proof. reflexivity. Qed.

Lemma count_cons f r rs :
  count f (r :: rs) = ((if f r then 1 else 0) + count f rs)%nat.
Proof. unfold count. simpl. destruct (f r); reflexivity. Qed.

Lemma record_all_index1 rs : forall results,
  let after := record_all INDEX_1 rs results in
  index1_results after = index1_results results ++ rs /\
  index1_failed (summary after) = (index1_failed (summary results) + count is_failed rs)%nat /\
  index1_successful (summary after) =
    (index1_successful (summary results) + count (fun r => negb (is_failed r)) rs)%nat /\
  index2_results after = index2_results results /\
  index2_failed (summary after) = index2_failed (summary results) /\
  index2_successful (summary after) = index2_successful (summary results) /\
  batch_info after = batch_info results.
Proof.
  induction rs as [|r rs IH]; intros results; cbv zeta.
  - simpl. rewrite app_nil_r. unfold count. simpl. repeat split; lia.
  - rewrite record_all_cons.
    specialize (IH (record_result INDEX_1 r results)). cbv zeta in IH.
    destruct IH as (H1 & H2 & H3 & H4 & H5 & H6 & H7).
    rewrite H1, H2, H3, H4, H5, H6, H7, !count_cons.
    unfold record_result. cbn [index1_results index2_results summary batch_info].
    rewrite <- app_assoc. cbn [app].
    destruct (is_failed r);
      cbn [index1_failed index1_successful index2_failed index2_successful negb];
      repeat split; lia.
Qed.

Lemma record_all_index2 rs : forall results,
  let after := record_all INDEX_2 rs results in
  index2_results after = index2_results results ++ rs /\
  index2_failed (summary after) = (index2_failed (summary results) + count is_failed rs)%nat /\
  index2_successful (summary after) =
    (index2_successful (summary results) + count (fun r => negb (is_failed r)) rs)%nat /\
  index1_results after = index1_results results /\
  index1_failed (summary after) = index1_failed (summary results) /\
  index1_successful (summary after) = index1_successful (summary results) /\
  batch_info after = batch_info results.
Proof.
  induction rs as [|r rs IH]; intros results; cbv zeta.
  - simpl. rewrite app_nil_r. unfold count. simpl. repeat split; lia.
  - rewrite record_all_cons.
    specialize (IH (record_result INDEX_2 r results)). cbv zeta in IH.
    destruct IH as (H1 & H2 & H3 & H4 & H5 & H6 & H7).
    rewrite H1, H2, H3, H4, H5, H6, H7, !count_cons.
    unfold record_result. cbn [index1_results index2_results summary batch_info].
    rewrite <- app_assoc. cbn [app].
    destruct (is_failed r);
      cbn [index1_failed index1_successful index2_failed index2_successful negb];
      repeat split; lia.
Qed.

(** The loop of one kind returns, with one result per file, and hands the
    files to [extract_document] in the order of the list. *)
Lemma process_files_uncounted_run E k delay files :
  forall results w,
  exists rs w',
    process_files_uncounted E k delay files results w = (Ret (record_all k rs results), w') /\
    length rs = length files /\
    processed (w_log w') = processed (w_log w) ++ List.map (pair k) files.
Proof.
  induction files as [|path rest IH]; intros results w.
  - exists [], w. simpl. rewrite app_nil_r. repeat split.
  - cbn [process_files_uncounted]. unfold bind at 1.
    pose proof (extract_document_processed E path k w) as Hp.
    destruct (extract_document_returns E path k w) as (r & w1 & Hr).
    rewrite Hr in *. cbn [snd] in Hp.
    destruct rest as [|path2 rest2].
    + exists [r], w1. simpl. repeat split. exact Hp.
    + unfold bind, emit. cbv iota beta.
      match goal with
      | |- context [process_files_uncounted E k delay (path2 :: rest2) ?res ?wx] =>
          destruct (IH res wx) as (rs & w2 & Hrun & Hlen & Hlog)
      end.
      exists (r :: rs), w2. rewrite Hrun. split; [reflexivity|].
      split; [cbn [length] in *; lia|].
      rewrite Hlog. cbn [w_log]. rewrite processed_app, Hp. simpl.
      rewrite <- !app_assoc. reflexivity.
Qed.

End BatchFacts.
Import BatchFacts.

(* ===================================================================== *)
(** * Selecting and ordering the files of a folder                       *)
(* ===================================================================== *)

Module ListingFacts.

Lemma str_ltb_asym a : forall b, str_ltb a b = true -> str_ltb b a = false.
Proof.
  induction a as [|x a IH]; intros [|y b]; simpl; try reflexivity;
    try discriminate.
  intros H. apply orb_true_iff in H. apply orb_false_iff.
  destruct H as [H|H].
  - apply N.ltb_lt in H. split.
    + apply N.ltb_ge. lia.
    + apply andb_false_iff. left. apply N.eqb_neq. lia.
  - apply andb_true_iff in H. destruct H as [Hxy Hab].
    apply N.eqb_eq in Hxy. subst. split.
    + apply N.ltb_irrefl.
    + rewrite N.eqb_refl. simpl. now apply IH.
Qed.

Lemma str_leb_total a b : str_leb a b = false -> str_leb b a = true.
Proof.
  unfold str_leb. intros H. apply negb_false_iff in H.
  apply str_ltb_asym in H. now rewrite H.
Qed.

Lemma insert_sorted_perm x l : Permutation (insert_sorted x l) (x :: l).
Proof.
  induction l as [|y t IH]; simpl; [apply Permutation_refl|].
  destruct (str_leb x y); [apply Permutation_refl|].
  apply perm_trans with (y :: x :: t); [now apply perm_skip|apply perm_swap].
Qed.

Lemma insert_sorted_hd x y l :
  lex_le y x -> HdRel lex_le y l -> HdRel lex_le y (insert_sorted x l).
Proof.
  intros Hyx Hl. destruct l as [|z t]; simpl; [now constructor|].
  destruct (str_leb x z); constructor; [exact Hyx|].
  now inversion Hl.
Qed.

Lemma insert_sorted_sorted x l :
  Sorted lex_le l -> Sorted lex_le (insert_sorted x l).
Proof.
  induction 1 as [|y t Hs IH Hd]; simpl.
  - repeat constructor.
  - destruct (str_leb x y) eqn:E.
    + constructor; [now constructor|]. now constructor.
    + constructor; [exact IH|].
      apply insert_sorted_hd; [|exact Hd]. now apply str_leb_total.
Qed.

(** [sort] puts its argument in lexicographic order and neither drops nor
    invents a path. *)
Lemma sort_sorted l : Sorted lex_le (sort l).
Proof.
  induction l as [|x l IH]; simpl; [constructor|now apply insert_sorted_sorted].
Qed.

Lemma sort_perm l : Permutation (sort l) l.
Proof.
  induction l as [|x l IH]; simpl; [constructor|].
  apply perm_trans with (x :: sort l);
    [apply insert_sorted_perm|now apply perm_skip].
Qed.

Lemma startswith_iff s p : startswith s p = true <-> exists t, s = p ++ t.
Proof.
  revert s; induction p as [|x p IH]; intros [|c s]; simpl.
  - split; [intros _; now exists []|reflexivity].
  - split; [intros _; now exists (c :: s)|reflexivity].
  - split; [discriminate|intros [t H]; discriminate].
  - rewrite andb_true_iff, N.eqb_eq, IH. split.
    + intros [-> [t ->]]. now exists t.
    + intros [t H]. injection H as -> ->. split; [reflexivity|now exists t].
Qed.

Lemma endswith_iff s p : endswith s p = true <-> exists t, s = t ++ p.
Proof.
  unfold endswith. rewrite startswith_iff. split.
  - intros [t H]. exists (rev t).
    rewrite <- (rev_involutive s), H, rev_app_distr, rev_involutive. reflexivity.
  - intros [t ->]. exists (rev t). apply rev_app_distr.
Qed.

(** [lower] sends to a character of an extension that character and, for
    a letter, its capital, and nothing else. *)
Lemma lower_cp_caseless c x : ext_char x -> (lower_cp c = x <-> caseless c x).
Proof.
  intros Hx. unfold lower_cp, caseless.
  destruct ((65 <=? c) && (c <=? 90) || (192 <=? c) && (c <=? 214)
            || (216 <=? c) && (c <=? 222))%N eqn:E.
  - repeat (apply orb_true_iff in E; destruct E as [E|E]);
      apply andb_true_iff in E; destruct E as [E1 E2];
      apply N.leb_le in E1; apply N.leb_le in E2;
      unfold ext_char in Hx; split; intros H; lia.
  - repeat (apply orb_false_iff in E; destruct E as [E ?]).
    repeat match goal with
           | H : (_ && _)%bool = false |- _ => apply andb_false_iff in H
           end.
    repeat match goal with
           | H : _ \/ _ |- _ => destruct H
           end;
      repeat match goal with
             | H : (_ <=? _)%N = false |- _ => apply N.leb_gt in H
             end;
      unfold ext_char in Hx; split; intros Hc; lia.
Qed.

Lemma lower_caseless tail ext :
  Forall ext_char ext -> (lower tail = ext <-> Forall2 caseless tail ext).
Proof.
  unfold lower. revert ext. induction tail as [|c tail IH]; intros [|x ext] Hext; simpl.
  - split; [constructor|reflexivity].
  - split; [discriminate|intros H; inversion H].
  - split; [discriminate|intros H; inversion H].
  - inversion Hext as [|? ? Hx Hrest]; subst. split.
    + intros H. injection H as Hc Ht. constructor.
      * now apply lower_cp_caseless.
      * now apply IH.
    + intros H. inversion H as [|? ? ? ? Hc Ht]; subst. f_equal.
      * now apply lower_cp_caseless.
      * now apply IH.
Qed.

(** A name ends in an extension once lowered exactly when it ends in the
    extension, letter case aside. *)
Lemma endswith_lower f ext :
  Forall ext_char ext -> (endswith (lower f) ext = true <-> ends_caseless f ext).
Proof.
  intros Hext. rewrite endswith_iff. unfold ends_caseless. split.
  - intros [t H]. unfold lower in H. apply map_eq_app in H.
    destruct H as (stem & tail & -> & _ & Htail).
    exists stem, tail. split; [reflexivity|]. now apply lower_caseless.
  - intros (stem & tail & -> & H). exists (lower stem).
    unfold lower. rewrite map_app. f_equal. now apply lower_caseless.
Qed.

(** The test of the Batch Driver is the test on the extension. *)
Lemma is_image_file_iff f : is_image_file f = true <-> has_image_extension f.
Proof.
  unfold is_image_file, has_image_extension. cbv zeta.
  assert (Hext : forall ext,
             In ext [py ".jpg"; py ".jpeg"; py ".png"] -> Forall ext_char ext).
  { intros ext H. apply Forall_forall. intros x Hx. unfold ext_char.
    repeat (destruct H as [<-|H]; [vm_compute in Hx; intuition lia|]).
    destruct H. }
  rewrite !orb_true_iff, !endswith_lower; [tauto| | |]; apply Hext; simpl; auto.
Qed.

End ListingFacts.
Import ListingFacts.

(* ===================================================================== *)
(** * A whole batch                                                      *)
(* ===================================================================== *)

Module BatchRun.

(** A failed listing ends the batch with the initial summary; otherwise
    the loops run on the sorted selections. *)
Lemma process_batch_uncounted_run E f1 f2 delay w :
  process_batch_documents_uncounted E f1 f2 delay w =
  match listdir E f1 with
  | Raise _ => (Ret (initial_results E), log_add w [EvListdir f1])
  | Ret names1 =>
      match listdir E f2 with
      | Raise _ => (Ret (initial_results E), log_add w [EvListdir f1; EvListdir f2])
      | Ret names2 =>
          run_loops_uncounted E delay (sort (selected f1 names1)) (sort (selected f2 names2))
                    (log_add w [EvListdir f1; EvListdir f2])
      end
  end.
Proof.
  unfold process_batch_documents_uncounted, run_loops_uncounted, selected.
  unfold bind at 1. unfold try_except_Exception.
  unfold list_image_files, call_listdir.
  unfold bind at 1. unfold bind at 1. unfold bind at 1.
  unfold emit at 1, lift at 1. cbv iota beta.
  destruct (listdir E f1) as [names1|e1]; [|reflexivity].
  unfold ret at 1. cbv iota beta.
  unfold bind at 1. unfold bind at 1. unfold bind at 1.
  unfold emit at 1, lift at 1. cbv iota beta.
  destruct (listdir E f2) as [names2|e2].
  - unfold ret at 1. cbv iota beta. unfold ret at 1. cbv iota beta.
    unfold log_add. simpl w_db. simpl w_log. rewrite <- app_assoc. reflexivity.
  - cbv iota beta. unfold ret at 1.
    unfold log_add. simpl w_db. simpl w_log. rewrite <- app_assoc. reflexivity.
Qed.

(** Both loops return; the first handles every file of kind A before the
    second touches a file of kind B. *)
Lemma run_loops_uncounted_run E delay files1 files2 w :
  exists rs1 rs2 w',
    run_loops_uncounted E delay files1 files2 w =
    (Ret (record_all INDEX_2 rs2
            (record_all INDEX_1 rs1
               (set_totals (initial_results E) (length files1) (length files2)))),
     w') /\
    length rs1 = length files1 /\
    length rs2 = length files2 /\
    processed (w_log w') =
    processed (w_log w) ++ List.map (pair INDEX_1) files1 ++ List.map (pair INDEX_2) files2.
Proof.
  unfold run_loops_uncounted.
  destruct (process_files_uncounted_run E INDEX_1 delay files1
              (set_totals (initial_results E) (length files1) (length files2)) w)
    as (rs1 & w1 & H1 & L1 & P1).
  destruct (process_files_uncounted_run E INDEX_2 delay files2
              (record_all INDEX_1 rs1
                 (set_totals (initial_results E) (length files1) (length files2))) w1)
    as (rs2 & w2 & H2 & L2 & P2).
  exists rs1, rs2, (log_add w2 [EvDump]).
  unfold bind at 1. rewrite H1. unfold bind at 1. rewrite H2.
  split; [reflexivity|]. split; [exact L1|]. split; [exact L2|].
  simpl. rewrite processed_app, P2, P1. simpl.
  now rewrite app_nil_r, <- app_assoc.
Qed.

(** A float is zero exactly when the number it writes is zero or rounds
    to zero. *)
Lemma float_is_zero_iff lit : float_is_zero lit = false <-> float_nonzero lit.
Proof.
  unfold float_is_zero, float_nonzero.
  destruct (float_decimal lit) as [[m e]|]; [|tauto].
  set (a := (m * 2 ^ 1075)%Z). set (b := (10 ^ (- e))%Z).
  rewrite orb_false_iff, andb_false_iff, Z.eqb_neq, Z.ltb_ge, Z.leb_gt.
  split.
  - intros [Hm [He|Hab]]; split; try exact Hm; intros; lia.
  - intros [Hm Himp]. split; [exact Hm|].
    destruct (Z.lt_ge_cases e 0) as [He|He]; [right; now apply Himp|left; lia].
Qed.

(** [bool(v)] is True exactly for the values that are true in Python's
    sense. *)
Lemma truthy_iff v : truthy v = true <-> python_true v.
Proof.
  split.
  - destruct v as [|b|z|lit|s|l|d]; simpl; intros H; try discriminate.
    + subst b. constructor.
    + constructor. apply negb_true_iff, Z.eqb_neq in H. exact H.
    + constructor. apply negb_true_iff in H. now apply float_is_zero_iff.
    + destruct s; [discriminate|constructor].
    + destruct l; [discriminate|constructor].
    + destruct d; [discriminate|constructor].
  - intros H. destruct H as [|z Hz|lit Hl| | |]; simpl; try reflexivity.
    + apply negb_true_iff, Z.eqb_neq. exact Hz.
    + apply negb_true_iff. now apply float_is_zero_iff.
Qed.

Lemma is_failed_iff r : is_failed r = true <-> carries_failure r.
Proof.
  unfold is_failed, carries_failure. rewrite orb_true_iff, dict_has_In, truthy_iff.
  unfold dict_get. split; (intros [H|H]; [now left|right]).
  - destruct (dict_lookup r (py "parsing_error")) as [v|]; [eauto|inversion H].
  - destruct H as (v & -> & Hv). exact Hv.
Qed.

End BatchRun.
Import BatchRun.

(* ===================================================================== *)
(** * The pattern on a fenced object                                     *)
(* ===================================================================== *)

Module ReFacts.

Local Open Scope N_scope.

Section Stars.

Variable R : Type.
Variable p : N -> bool.


(** A greedy star fails when the rest of the pattern fails after every
    run the star can take. *)
Lemma star_greedy_none (s : str) (k : str -> option R) :
  (forall ws t, s = ws ++ t -> forallb p ws = true -> k t = None) ->
  star_greedy p s k = None.
Proof.
  induction s as [|a s IH]; intros H; simpl.
  - now apply (H [] []).
  - destruct (p a) eqn:Ha.
    + rewrite IH.
      * now apply (H [] (a :: s)).
      * intros ws t -> Hws. apply (H (a :: ws) t); [reflexivity|].
        simpl. now rewrite Ha.
    + now apply (H [] (a :: s)).
Qed.

End Stars.


Lemma no_backtick_app a b :
  no_backtick (a ++ b) = no_backtick a && no_backtick b.
Proof. apply forallb_app. Qed.















Lemma re_match_not_fence c t : c <> 96 -> re_match json_pattern (c :: t) = None.
Proof.
  intros H. unfold re_match, json_pattern. cbn [rmatch]. unfold fence at 1.
  cbn [rmatch]. unfold lit at 1, backtick. cbn [rmatch].
  apply N.eqb_neq in H. now rewrite H.
Qed.


(** Without a backtick there is no fence to find. *)
Lemma re_search_none s : no_backtick s = true -> re_search json_pattern s = None.
Proof.
  induction s as [|c s IH]; intros H; [reflexivity|].
  simpl in H. apply andb_true_iff in H. destruct H as [Hc Hs].
  apply negb_true_iff, N.eqb_neq in Hc.
  cbn [re_search]. rewrite (re_match_not_fence _ Hc). now apply IH.
Qed.

End ReFacts.
Import ReFacts.

(* ===================================================================== *)
(** * Trimming, and the range of lines of the third strategy             *)
(* ===================================================================== *)

Module LineFacts.

Local Open Scope N_scope.

Lemma lstrip_app_ws ws s : all_space ws = true -> lstrip (ws ++ s) = lstrip s.
Proof.
  unfold lstrip. induction ws as [|w ws IH]; simpl; [reflexivity|].
  intros H. apply andb_true_iff in H. destruct H as [Hw Hws].
  rewrite Hw. now apply IH.
Qed.





Local Open Scope Z_scope.



Lemma forallb_rev {A : Type} (f : A -> bool) l :
  forallb f (rev l) = forallb f l.
Proof.
  induction l as [|x l IH]; simpl; [reflexivity|].
  rewrite forallb_app, IH. simpl. rewrite andb_true_r. apply andb_comm.
Qed.







End LineFacts.
Import LineFacts.

(* ===================================================================== *)
(** * Further facts: a text without braces                               *)
(* ===================================================================== *)

Module BraceFacts.

Local Open Scope N_scope.

Lemma suffix_refl s : suffix_of s s.
Proof. now exists []. Qed.

Lemma suffix_cons c t s : suffix_of t s -> suffix_of t (c :: s).
Proof. intros [pre ->]. now exists (c :: pre). Qed.

Lemma suffix_trans a b c : suffix_of a b -> suffix_of b c -> suffix_of a c.
Proof.
  intros [p ->] [q ->]. exists (q ++ p). now rewrite app_assoc.
Qed.

Lemma suffix_tail c t s : suffix_of (c :: t) s -> suffix_of t s.
Proof. intros [pre ->]. exists (pre ++ [c]). now rewrite <- app_assoc. Qed.

Section Fail.

Variable R : Type.

Lemma star_greedy_fail p s (k : str -> option R) :
  (forall t, suffix_of t s -> k t = None) -> star_greedy p s k = None.
Proof.
  intros H. apply star_greedy_none. intros ws t -> _. apply H. now exists ws.
Qed.

Lemma star_lazy_fail p s (k : str -> option R) :
  (forall t, suffix_of t s -> k t = None) -> star_lazy p s k = None.
Proof.
  induction s as [|c s IH]; intros H; simpl.
  - now rewrite (H [] (suffix_refl [])).
  - rewrite (H (c :: s) (suffix_refl _)).
    destruct (p c); [|reflexivity].
    apply IH. intros t Ht. apply H. now apply suffix_cons.
Qed.

(** The rest of a pattern is always tried on what is left of the text: if
    it fails there whatever is left, the pattern fails. *)
Lemma rmatch_fail r :
  forall s cap (k : str -> option str -> option R),
    (forall t c, suffix_of t s -> k t c = None) -> rmatch r s cap k = None.
Proof.
  induction r as [p|p|p|r1 IH1|r1 IH1 r2 IH2|r1 IH1]; intros s cap k H;
    cbn [rmatch].
  - destruct s as [|c t]; [reflexivity|]. destruct (p c); [|reflexivity].
    apply H. exists [c]. reflexivity.
  - apply star_greedy_fail. intros t Ht. now apply H.
  - apply star_lazy_fail. intros t Ht. now apply H.
  - rewrite (IH1 s cap k H). apply H, suffix_refl.
  - apply IH1. intros t c Ht. apply IH2. intros t' c' Ht'.
    apply H. now apply suffix_trans with t.
  - apply IH1. intros t c Ht. now apply H.
Qed.

End Fail.

Lemma lacks_suffix c t s : lacks c s = true -> suffix_of t s -> lacks c t = true.
Proof.
  intros H [pre ->]. unfold lacks in *. rewrite forallb_app in H.
  now apply andb_true_iff in H.
Qed.

Lemma lacks_head c x t : lacks c (x :: t) = true -> (x =? c) = false.
Proof.
  unfold lacks. simpl. intros H. apply andb_true_iff in H.
  now apply negb_true_iff.
Qed.

(** Group 1 needs an opening and a closing brace. *)
Lemma json_group_fail (R : Type) s cap (k : str -> option str -> option R) :
  lacks 123 s = true \/ lacks 125 s = true ->
  rmatch json_group s cap k = None.
Proof.
  intros H. unfold json_group. cbn [rmatch]. unfold lit at 1. cbn [rmatch].
  destruct s as [|c t]; [reflexivity|].
  destruct (c =? 123) eqn:Ec.
  2:{ reflexivity. }
  destruct H as [H|H]; [apply lacks_head in H; congruence|].
  apply star_lazy_fail. intros t' Ht'. unfold lit. cbn [rmatch].
  destruct t' as [|x t'']; [reflexivity|].
  assert (Hx : lacks 125 (x :: t'') = true).
  { apply lacks_suffix with (c :: t); [exact H|now apply suffix_cons]. }
  apply lacks_head in Hx. now rewrite Hx.
Qed.

Lemma re_match_no_brace s :
  lacks 123 s = true \/ lacks 125 s = true -> re_match json_pattern s = None.
Proof.
  intros H. unfold re_match, json_pattern. cbn [rmatch].
  apply rmatch_fail. intros t1 c1 H1.
  apply rmatch_fail. intros t2 c2 H2.
  apply star_greedy_fail. intros t3 H3.
  apply json_group_fail.
  assert (Hs : suffix_of t3 s).
  { apply suffix_trans with t2; [exact H3|].
    apply suffix_trans with t1; assumption. }
  destruct H as [H|H]; [left|right]; now apply lacks_suffix with s.
Qed.

Lemma re_search_no_brace s :
  lacks 123 s = true \/ lacks 125 s = true -> re_search json_pattern s = None.
Proof.
  induction s as [|c s IH]; intros H; cbn [re_search];
    rewrite re_match_no_brace by exact H; [reflexivity|].
  apply IH. destruct H as [H|H]; [left|right];
    (apply lacks_suffix with (c :: s); [exact H|exists [c]; reflexivity]).
Qed.

Lemma lacks_dropwhile c p s : lacks c s = true -> lacks c (dropwhile p s) = true.
Proof.
  induction s as [|x s IH]; simpl; [auto|]. intros H.
  destruct (p x); [|exact H].
  apply IH. unfold lacks in *. simpl in H. now apply andb_true_iff in H.
Qed.

Lemma lacks_rstrip c s : lacks c s = true -> lacks c (rstrip s) = true.
Proof.
  induction s as [|x s IH]; simpl; [auto|]. intros H.
  unfold lacks in H. simpl in H. apply andb_true_iff in H. destruct H as [Hx Hs].
  specialize (IH Hs).
  destruct (rstrip s) as [|y r].
  - destruct (isspace x); [reflexivity|]. unfold lacks. simpl. now rewrite Hx.
  - unfold lacks in *. simpl in *. now rewrite Hx, IH.
Qed.

Lemma lacks_strip c s : lacks c s = true -> lacks c (strip s) = true.
Proof. intros H. now apply lacks_rstrip, lacks_dropwhile. Qed.

Lemma lacks_split_lines c s :
  lacks c s = true -> forallb (lacks c) (split_lines s) = true.
Proof.
  induction s as [|x s IH]; simpl; [reflexivity|]. intros H.
  unfold lacks in H. simpl in H. apply andb_true_iff in H. destruct H as [Hx Hs].
  specialize (IH Hs).
  destruct (x =? 10); [simpl; exact IH|].
  destruct (split_lines s) as [|l ls]; simpl in *.
  - unfold lacks. simpl. now rewrite Hx.
  - apply andb_true_iff in IH. destruct IH as [Hl Hls].
    unfold lacks in *. simpl. now rewrite Hx, Hl, Hls.
Qed.

Lemma startswith_lacks c s : lacks c s = true -> startswith s [c] = false.
Proof.
  destruct s as [|x s]; [reflexivity|]. intros H. apply lacks_head in H.
  simpl. now rewrite H.
Qed.

Lemma endswith_lacks c s : lacks c s = true -> endswith s [c] = false.
Proof.
  intros H. destruct (endswith s [c]) eqn:E; [|reflexivity].
  apply endswith_iff in E. destruct E as [t ->].
  unfold lacks in H. rewrite forallb_app in H. apply andb_true_iff in H.
  destruct H as [_ H]. simpl in H. rewrite N.eqb_refl in H. discriminate.
Qed.

Local Open Scope Z_scope.

Lemma find_json_start_none lines :
  forallb (lacks 123) lines = true -> forall i, find_json_start lines i = -1.
Proof.
  induction lines as [|l lines IH]; intros H i; simpl; [reflexivity|].
  simpl in H. apply andb_true_iff in H. destruct H as [Hl Hs].
  change (py "{") with [123%N].
  rewrite startswith_lacks by (now apply lacks_strip). now apply IH.
Qed.

Lemma scan_json_end_none lines :
  forallb (lacks 125) lines = true -> forall i, scan_json_end lines i = -1.
Proof.
  induction lines as [|l lines IH]; intros H i; simpl; [reflexivity|].
  simpl in H. apply andb_true_iff in H. destruct H as [Hl Hs].
  change (py "}") with [125%N].
  rewrite endswith_lacks by (now apply lacks_strip). now apply IH.
Qed.

(** Without an opening brace, or without a closing one, the third strategy
    finds no range of lines. *)
Lemma line_range_no_brace content :
  lacks 123 content = true \/ lacks 125 content = true ->
  tier_candidate LineRange content = None.
Proof.
  intros H. cbn [tier_candidate]. cbv zeta.
  destruct H as [H|H].
  - rewrite find_json_start_none; [reflexivity|].
    now apply lacks_split_lines, lacks_strip.
  - unfold find_json_end. rewrite scan_json_end_none.
    + now rewrite andb_false_r.
    + rewrite forallb_rev. now apply lacks_split_lines, lacks_strip.
Qed.

(** A text that lacks a brace: the direct parse decides. *)
Lemma first_success_no_brace L content :
  lacks 123 content = true \/ lacks 125 content = true ->
  first_success L three_tiers content =
  match json_loads L (strip content) with
  | Ret v => (Ret v, [EvJsonLoads (strip content)])
  | Raise e =>
      if exn_class_eqb (exn_cls e) JSONDecodeError
      then (Ret PyNone, [EvJsonLoads (strip content); EvReSearch content])
      else (Raise e, [EvJsonLoads (strip content)])
  end.
Proof.
  intros H. unfold three_tiers. cbn [first_success].
  unfold tier_result, tier_events.
  rewrite line_range_no_brace by exact H. cbn [tier_candidate].
  rewrite re_search_no_brace by exact H.
  destruct (json_loads L (strip content)) as [v|e]; [reflexivity|].
  destruct (exn_class_eqb (exn_cls e) JSONDecodeError); reflexivity.
Qed.

End BraceFacts.
Import BraceFacts.

(* ===================================================================== *)
(** * Further facts: the outcomes of one file                            *)
(* ===================================================================== *)

Module OutcomeFacts.

(** The calls of the three strategies: at most three decodings and one
    search. *)
Lemma first_success_counts L content :
  let evs := snd (first_success L three_tiers content) in
  count_events is_loads evs <= 3 /\ count_events is_search evs <= 1 /\
  count_events is_post evs = 0 /\ count_events is_commit evs = 0 /\
  count_events batch_level evs = 0.
Proof.
  unfold three_tiers. cbn [first_success]. unfold tier_result, tier_events.
  destruct (tier_candidate DirectParse content) as [t1|];
    destruct (tier_candidate FencedBlock content) as [t2|];
    destruct (tier_candidate LineRange content) as [t3|];
    repeat match goal with
           | |- context [json_loads L ?t] =>
               let e := fresh "e" in
               destruct (json_loads L t) as [?|e];
               [|destruct (exn_class_eqb (exn_cls e) JSONDecodeError)]
           end;
    cbv; repeat split; lia.
Qed.

Lemma count_events_app f a b :
  count_events f (a ++ b) = count_events f a + count_events f b.
Proof. unfold count_events. now rewrite filter_app, length_app. Qed.

(** The image could not be read: no request is made. *)
Lemma extract_document_unreadable E p k w e :
  read_image E p = Raise e ->
  extract_document E p k w =
  (Ret (error_result E p k (py "Image encoding error: " ++ exn_msg e)),
   log_add w [EvDocument k p]).
Proof.
  intros H. unfold extract_document, bind at 1, emit at 1. cbv iota beta.
  rewrite H. reflexivity.
Qed.

Lemma model_content_read E p k content :
  model_content E p k = Some content -> exists b64, read_image E p = Ret b64.
Proof.
  unfold model_content. destruct (read_image E p); [eauto|discriminate].
Qed.

(** The image was read but the response holds no reply: one request. *)
Lemma extract_document_no_content E p k w b64 :
  read_image E p = Ret b64 ->
  model_content E p k = None ->
  exists message,
    extract_document E p k w =
    (Ret (error_result E p k message), log_add w [EvDocument k p; EvPost k p]).
Proof.
  intros Hr. unfold model_content, extract_document.
  unfold bind at 1, emit at 1. cbv iota beta. rewrite Hr.
  unfold bind, emit, lift, ret. simpl w_db. simpl w_log. cbv iota beta.
  destruct (http_post E k (py "data:image/jpeg;base64," ++ b64)) as [result|e].
  2:{ intros _. cbv iota beta.
      destruct (exn_class_eqb (exn_cls e) RequestException); eexists;
        unfold log_add; simpl; rewrite <- app_assoc; reflexivity. }
  cbv iota beta.
  destruct (has_choices result) as [[|]|e].
  - destruct (response_content result) as [c|e]; [discriminate|].
    intros _. cbv iota beta.
    destruct (exn_class_eqb (exn_cls e) RequestException); eexists;
      unfold log_add; simpl; rewrite <- app_assoc; reflexivity.
  - intros _. cbv iota beta. eexists.
    unfold log_add; simpl; rewrite <- app_assoc; reflexivity.
  - intros _. cbv iota beta.
    destruct (exn_class_eqb (exn_cls e) RequestException); eexists;
      unfold log_add; simpl; rewrite <- app_assoc; reflexivity.
Qed.

Lemma outcome_error E p k w message probes :
  forallb is_probe probes = true ->
  count_events is_loads probes <= 3 -> count_events is_search probes <= 1 ->
  outcome E p k w
    (Ret (error_result E p k message),
     log_add (log_add w [EvDocument k p; EvPost k p]) probes).
Proof.
  intros H1 H2 H3. exists (error_result E p k message), (EvPost k p :: probes), (w_db w).
  split; [unfold log_add; simpl; now rewrite <- app_assoc|].
  right. left. exists probes. repeat split; auto. left. eauto.
Qed.

Lemma extract_document_cases E p k w : outcome E p k w (extract_document E p k w).
Proof.
  destruct (read_image E p) as [b64|e] eqn:Hr.
  2:{ rewrite extract_document_unreadable with (e := e) by exact Hr.
      exists (error_result E p k (py "Image encoding error: " ++ exn_msg e)), [], (w_db w).
      split; [reflexivity|]. left. exists e. auto. }
  destruct (model_content E p k) as [content|] eqn:Em.
  2:{ destruct (extract_document_no_content E p k w Hr Em) as (m & H).
      rewrite H. rewrite <- (log_add_nil (log_add w _)).
      apply outcome_error; cbv; auto; lia. }
  rewrite extract_document_reply with (content := content) by exact Em.
  assert (Hplain : (forall c, content <> PyStr c) ->
            outcome E p k w
              (let (r0, w') := handle_content E p k content
                                 (log_add w [EvDocument k p; EvPost k p]) in
               match r0 with
               | Ret r => (Ret r, w')
               | Raise e => (Ret (error_result E p k (handler_message e)), w')
               end)).
  { intros Hc.
    edestruct handle_content_not_str as [e He]; [exact Hc|]. rewrite He.
    rewrite <- (log_add_nil (log_add w _)).
    apply outcome_error; cbv; auto; lia. }
  destruct content as [| | | |c| |]; try (apply Hplain; intros c; discriminate).
  clear Hplain. rewrite handle_content_run.
  pose proof (first_success_probes (py_limits E) three_tiers c) as Hp.
  pose proof (first_success_counts (py_limits E) c) as Hc. cbv zeta in Hc.
  destruct Hc as (Hc1 & Hc2 & _).
  assert (Hpp : forall d, fst (first_success (py_limits E) three_tiers c) = Ret (PyDict d) ->
                          parse_produced E p k d).
  { intros d Hd. exists c, w. split; [exact Em|].
    rewrite extract_first_success. cbn [fst]. now rewrite Hd. }
  destruct (first_success (py_limits E) three_tiers c) as [v probes]. cbn [fst snd] in *.
  destruct v as [[| | | | | |d]|e]; cbv zeta;
    try (now apply outcome_error).
  - exists (parsing_failure E p k c), (EvPost k p :: probes), (w_db w).
    split; [unfold log_add; simpl; now rewrite <- app_assoc|].
    right. left. exists probes. repeat split; auto. right. left. eauto.
  - simpl w_db.
    destruct (connect_and_write E k (add_metadata E p k d) p (w_db w))
      as [conn|e] eqn:Ec.
    + exists (add_metadata E p k d), (EvPost k p :: probes ++ [EvCommit]), conn.
      split; [unfold log_add; simpl; now rewrite <- !app_assoc|].
      right. right. exists probes, d. repeat split; auto.
    + exists (dict_set (add_metadata E p k d) (py "database_error") (PyStr (exn_msg e))),
             (EvPost k p :: probes), (w_db w).
      split; [unfold log_add; simpl; now rewrite <- app_assoc|].
      right. left. exists probes. repeat split; auto.
      right. right. exists d, e. auto.
Qed.

End OutcomeFacts.
Import OutcomeFacts.

(* ===================================================================== *)
(** * Further properties of the Extractor and of one file                *)
(* ===================================================================== *)

Module FileFacts.

Lemma probe_file_event evs :
  forallb is_probe evs = true -> forallb is_file_event evs = true.
Proof.
  induction evs as [|ev evs IH]; simpl; [reflexivity|].
  intros H. apply andb_true_iff in H. destruct H as [H1 H2].
  rewrite (IH H2). destruct ev; try discriminate; reflexivity.
Qed.

Lemma strip_all_space content : all_space content = true -> strip content = [].
Proof.
  intros H. unfold strip.
  rewrite <- (app_nil_r content), lstrip_app_ws by exact H. reflexivity.
Qed.

Lemma all_space_lacks c content :
  isspace c = false -> all_space content = true -> lacks c content = true.
Proof.
  intros Hc. unfold all_space, lacks.
  induction content as [|x s IH]; simpl; [reflexivity|].
  intros H. apply andb_true_iff in H. destruct H as [Hx Hs].
  rewrite (IH Hs), andb_true_r.
  destruct (N.eqb x c) eqn:Ex; [|reflexivity].
  apply N.eqb_eq in Ex. congruence.
Qed.

Lemma has_metadata_error E p k message : has_metadata E p k (error_result E p k message).
Proof. repeat split. Qed.

Lemma has_metadata_parsing E p k c : has_metadata E p k (parsing_failure E p k c).
Proof. repeat split. Qed.

Lemma has_metadata_add E p k d : has_metadata E p k (add_metadata E p k d).
Proof.
  unfold has_metadata, add_metadata.
  rewrite dict_lookup_set_same.
  rewrite !dict_lookup_set_other by (apply py_neq; reflexivity).
  rewrite dict_lookup_set_same.
  rewrite !dict_lookup_set_other by (apply py_neq; reflexivity).
  rewrite dict_lookup_set_same. auto.
Qed.

Lemma has_metadata_database_error E p k d message :
  has_metadata E p k
    (dict_set (add_metadata E p k d) (py "database_error") (PyStr message)).
Proof.
  destruct (has_metadata_add E p k d) as (H1 & H2 & H3).
  unfold has_metadata.
  rewrite !dict_lookup_set_other by (apply py_neq; reflexivity). auto.
Qed.

Lemma is_failed_error E p k message : is_failed (error_result E p k message) = true.
Proof. reflexivity. Qed.

Lemma is_failed_parsing E p k c : is_failed (parsing_failure E p k c) = true.
Proof. reflexivity. Qed.

Lemma probes_counts evs :
  forallb is_probe evs = true ->
  count_events is_post evs = 0%nat /\ count_events is_commit evs = 0%nat.
Proof.
  unfold count_events.
  induction evs as [|ev evs IH]; simpl; [auto|].
  intros H. apply andb_true_iff in H. destruct H as [H1 H2].
  destruct (IH H2) as [A B]. destruct ev; try discriminate; simpl; auto.
Qed.

Lemma count_events_cons f ev evs :
  count_events f (ev :: evs) = ((if f ev then 1 else 0) + count_events f evs)%nat.
Proof. unfold count_events. simpl. destruct (f ev); reflexivity. Qed.

End FileFacts.
Import FileFacts.

(* ===================================================================== *)
(** * Further facts about the Record Writer                              *)
(* ===================================================================== *)

Module WriterMore.

Local Open Scope Z_scope.

Lemma ids_ok_snoc ids counter :
  ids_ok ids counter -> ids_ok (ids ++ [counter + 1]) (counter + 1).
Proof.
  intros [Hn Hle]. split.
  - apply (Permutation_NoDup (Permutation_cons_append ids (counter + 1))).
    constructor; [|exact Hn]. intros Hin. apply Hle in Hin. lia.
  - intros i Hi. apply in_app_iff in Hi. destruct Hi as [Hi|[<-|[]]]; [|lia].
    apply Hle in Hi. lia.
Qed.

Lemma extends_refl {A : Type} (l : list A) : extends l l.
Proof. exists []. now rewrite app_nil_r. Qed.

Lemma extends_trans {A : Type} (a b c : list A) :
  extends a b -> extends b c -> extends a c.
Proof. intros [x ->] [y ->]. exists (x ++ y). now rewrite app_assoc. Qed.

Lemma extends_In {A : Type} (a b : list A) x : extends a b -> In x a -> In x b.
Proof. intros [n ->] H. apply in_app_iff. now left. Qed.

Lemma append_only_refl db : append_only db db.
Proof. repeat split; apply extends_refl. Qed.

Lemma append_only_trans a b c : append_only a b -> append_only b c -> append_only a c.
Proof.
  intros (A1 & A2 & A3) (B1 & B2 & B3).
  repeat split; eapply extends_trans; eassumption.
Qed.

(** One entry of kind A: the row, the identifier it gets, and what stays. *)
Lemma insert_entry_index1 id entry conn conn' :
  insert_entry INDEX_1 id entry conn = Ret conn' ->
  exists row,
    index1_entries conn' = index1_entries conn ++ [row] /\
    row1_of entry row /\
    i1_id row = seq_index1 conn + 1 /\
    i1_document_id row = id /\
    seq_index1 conn' = seq_index1 conn + 1 /\
    documents conn' = documents conn /\
    seq_documents conn' = seq_documents conn /\
    index2_entries conn' = index2_entries conn /\
    seq_index2 conn' = seq_index2 conn.
Proof.
  intros H. destruct entry as [| | | | | |d]; try discriminate H.
  unfold insert_entry in H. rewrite entry_gets_dict in H. cbn [bindR] in H.
  unfold insert_index1 in H. apply bindR_Ret in H. destruct H as (xs & Hxs & H).
  injection H as <-. eexists. cbn [index1_entries documents seq_documents seq_index1
                                   index2_entries seq_index2 i1_id i1_document_id].
  split; [reflexivity|]. split; [|repeat split].
  exists d. split; [reflexivity|].
  assert (Hn : forall n, (n < 10)%nat ->
             stored_as (nth n (List.map (fun f => dict_get d (py f)) index1_fields)
                            PyNone) (text_cell xs n)).
  { intros n Hn. apply bind_params_stored with (1 := Hxs).
    rewrite length_map. exact Hn. }
  cbn [i1_serial_number i1_name_of_person i1_family_details
       i1_police_station i1_religion i1_occupation
       i1_interest_of_person i1_where_registered
       i1_book_1_volume i1_book_2_page].
  split; [cell Hn 0%nat|]. split; [cell Hn 1%nat|]. split; [cell Hn 2%nat|].
  split; [cell Hn 3%nat|]. split; [cell Hn 4%nat|]. split; [cell Hn 5%nat|].
  split; [cell Hn 6%nat|]. split; [cell Hn 7%nat|]. split; [cell Hn 8%nat|].
  cell Hn 9%nat.
Qed.

(** One entry of kind B. *)
Lemma insert_entry_index2 id entry conn conn' :
  insert_entry INDEX_2 id entry conn = Ret conn' ->
  exists row,
    index2_entries conn' = index2_entries conn ++ [row] /\
    row2_of entry row /\
    i2_id row = seq_index2 conn + 1 /\
    i2_document_id row = id /\
    seq_index2 conn' = seq_index2 conn + 1 /\
    documents conn' = documents conn /\
    seq_documents conn' = seq_documents conn /\
    index1_entries conn' = index1_entries conn /\
    seq_index1 conn' = seq_index1 conn.
Proof.
  intros H. destruct entry as [| | | | | |d]; try discriminate H.
  unfold insert_entry in H. rewrite entry_gets_dict in H. cbn [bindR] in H.
  unfold insert_index2 in H. apply bindR_Ret in H. destruct H as (xs & Hxs & H).
  injection H as <-. eexists. cbn [index1_entries documents seq_documents seq_index1
                                   index2_entries seq_index2 i2_id i2_document_id].
  split; [reflexivity|]. split; [|repeat split].
  exists d. split; [reflexivity|].
  assert (Hn : forall n, (n < 8)%nat ->
             stored_as (nth n (List.map (fun f => dict_get d (py f)) index2_fields)
                            PyNone) (text_cell xs n)).
  { intros n Hn. apply bind_params_stored with (1 := Hxs).
    rewrite length_map. exact Hn. }
  cbn [i2_serial_number i2_property_name i2_pargana_town_thana
       i2_location i2_nature_of_transaction i2_where_registered
       i2_book_1_volume i2_book_1_page].
  split; [cell Hn 0%nat|]. split; [cell Hn 1%nat|]. split; [cell Hn 2%nat|].
  split; [cell Hn 3%nat|]. split; [cell Hn 4%nat|]. split; [cell Hn 5%nat|].
  split; [cell Hn 6%nat|]. cell Hn 7%nat.
Qed.

Lemma insert_entries_written k id entries :
  forall conn conn',
    insert_entries k id entries conn = Ret conn' ->
    entries_written k id entries conn conn'.
Proof.
  unfold entries_written.
  induction entries as [|entry rest IH]; intros conn conn' H.
  - simpl in H. injection H as <-. split; [reflexivity|]. split; [reflexivity|].
    destruct k; (split; [exists []; rewrite app_nil_r; auto|auto]).
  - cbn [insert_entries] in H. apply bindR_Ret in H. destruct H as (conn1 & H1 & H).
    apply IH in H. destruct H as (Hd & Hs & Hk).
    destruct k.
    + apply insert_entry_index1 in H1.
      destruct H1 as (row & Hrow & Hof & Hid & Hdoc & Hseq & Hd1 & Hs1 & H21 & Hs21).
      destruct Hk as ((rows & Hrows & Hall & Href) & Hkeys & H2 & Hs2).
      split; [congruence|]. split; [congruence|]. split; [|split; [|split; congruence]].
      * exists (row :: rows). rewrite Hrows, Hrow, <- app_assoc.
        split; [reflexivity|]. split; constructor; assumption.
      * intros Hok. apply Hkeys. rewrite Hrow, map_app, Hseq. cbn [List.map].
        rewrite Hid. now apply ids_ok_snoc.
    + apply insert_entry_index2 in H1.
      destruct H1 as (row & Hrow & Hof & Hid & Hdoc & Hseq & Hd1 & Hs1 & H21 & Hs21).
      destruct Hk as ((rows & Hrows & Hall & Href) & Hkeys & H2 & Hs2).
      split; [congruence|]. split; [congruence|]. split; [|split; [|split; congruence]].
      * exists (row :: rows). rewrite Hrows, Hrow, <- app_assoc.
        split; [reflexivity|]. split; constructor; assumption.
      * intros Hok. apply Hkeys. rewrite Hrow, map_app, Hseq. cbn [List.map].
        rewrite Hid. now apply ids_ok_snoc.
Qed.

(** The Document row of a transaction. *)
Lemma insert_document_detail conn json_data image_path conn' :
  insert_document conn
    [ dict_get json_data (py "document_type");
      dict_get json_data (py "year");
      dict_get json_data (py "office_location");
      dict_get json_data (py "confidence");
      dict_get json_data (py "extraction_notes");
      PyStr image_path ] = Ret conn' ->
  exists doc,
    documents conn' = documents conn ++ [doc] /\
    document_of json_data image_path doc /\
    doc_id doc = seq_documents conn + 1 /\
    seq_documents conn' = seq_documents conn + 1 /\
    index1_entries conn' = index1_entries conn /\
    seq_index1 conn' = seq_index1 conn /\
    index2_entries conn' = index2_entries conn /\
    seq_index2 conn' = seq_index2 conn.
Proof.
  unfold insert_document. intros H.
  apply bindR_Ret in H. destruct H as (xs & Hxs & H).
  apply bindR_Ret in H. destruct H as ([] & Hn0 & H).
  apply bindR_Ret in H. destruct H as ([] & Hn5 & H).
  injection H as <-. eexists.
  cbn [documents index1_entries index2_entries seq_documents seq_index1 seq_index2
       doc_id].
  split; [reflexivity|]. split; [|repeat split].
  assert (Hn : forall n, (n < 6)%nat ->
             stored_as (nth n [ dict_get json_data (py "document_type");
                                dict_get json_data (py "year");
                                dict_get json_data (py "office_location");
                                dict_get json_data (py "confidence");
                                dict_get json_data (py "extraction_notes");
                                PyStr image_path ] PyNone) (text_cell xs n)).
  { intros n Hn. apply bind_params_stored with (1 := Hxs). exact Hn. }
  unfold document_of.
  cbn [doc_document_type doc_year doc_office_location doc_confidence
       doc_extraction_notes doc_source_path].
  split; [cell Hn 0%nat|]. split; [cell Hn 1%nat|]. split; [cell Hn 2%nat|].
  split; [cell Hn 3%nat|]. split; [cell Hn 4%nat|]. split.
  - assert (L : (5 < 6)%nat) by lia. specialize (Hn 5%nat L). cbn [nth] in Hn.
    now apply stored_as_text in Hn.
  - intros E. unfold text_cell in E. apply text_affinity_null in E.
    rewrite E in Hn0. discriminate.
Qed.

(** What a transaction that reaches its end has written. *)
Lemma transaction_detail k json_data image_path conn conn' :
  transaction k json_data image_path conn = Ret conn' ->
  exists doc entries,
    py_iter (dict_get_default json_data (py "entries") (PyList [])) = Ret entries /\
    documents conn' = documents conn ++ [doc] /\
    document_of json_data image_path doc /\
    doc_id doc = seq_documents conn + 1 /\
    seq_documents conn' = seq_documents conn + 1 /\
    match k with
    | INDEX_1 =>
        (exists rows,
            index1_entries conn' = index1_entries conn ++ rows /\
            Forall2 row1_of entries rows /\
            Forall (fun r => i1_document_id r = doc_id doc) rows) /\
        (ids_ok (List.map i1_id (index1_entries conn)) (seq_index1 conn) ->
         ids_ok (List.map i1_id (index1_entries conn')) (seq_index1 conn')) /\
        index2_entries conn' = index2_entries conn /\
        seq_index2 conn' = seq_index2 conn
    | INDEX_2 =>
        (exists rows,
            index2_entries conn' = index2_entries conn ++ rows /\
            Forall2 row2_of entries rows /\
            Forall (fun r => i2_document_id r = doc_id doc) rows) /\
        (ids_ok (List.map i2_id (index2_entries conn)) (seq_index2 conn) ->
         ids_ok (List.map i2_id (index2_entries conn')) (seq_index2 conn')) /\
        index1_entries conn' = index1_entries conn /\
        seq_index1 conn' = seq_index1 conn
    end.
Proof.
  unfold transaction. intros H.
  apply bindR_Ret in H. destruct H as (conn1 & H1 & H).
  apply bindR_Ret in H. destruct H as (entries & He & H).
  apply insert_document_detail in H1.
  destruct H1 as (doc & Hd & Hof & Hid & Hseq & Hi1 & Hs1 & Hi2 & Hs2).
  apply insert_entries_written in H. destruct H as (Hd' & Hs' & Hk).
  exists doc, entries. split; [exact He|]. split; [congruence|].
  split; [exact Hof|]. split; [exact Hid|]. split; [congruence|].
  unfold lastrowid_documents in Hk. rewrite Hseq, <- Hid in Hk.
  rewrite Hi1, Hs1, Hi2, Hs2 in Hk. exact Hk.
Qed.

Lemma transaction_append_only k json_data image_path conn conn' :
  transaction k json_data image_path conn = Ret conn' -> append_only conn conn'.
Proof.
  intros H. apply transaction_detail in H.
  destruct H as (doc & entries & _ & Hd & _ & _ & _ & Hk).
  unfold append_only. split; [exists [doc]; exact Hd|].
  destruct k; destruct Hk as ((rows & Hrows & _) & _ & Ho & _).
  - split; [exists rows; exact Hrows|rewrite Ho; apply extends_refl].
  - split; [rewrite Ho; apply extends_refl|exists rows; exact Hrows].
Qed.

Lemma transaction_keys k json_data image_path conn conn' :
  transaction k json_data image_path conn = Ret conn' -> keys_ok conn -> keys_ok conn'.
Proof.
  intros H (K0 & K1 & K2). apply transaction_detail in H.
  destruct H as (doc & entries & _ & Hd & _ & Hid & Hseq & Hk).
  unfold keys_ok. split.
  { rewrite Hd, map_app, Hseq. cbn [List.map]. rewrite Hid. now apply ids_ok_snoc. }
  destruct k; destruct Hk as (_ & Hkeys & Ho & Hso).
  - split; [now apply Hkeys|]. now rewrite Ho, Hso.
  - split; [now rewrite Ho, Hso|now apply Hkeys].
Qed.

Lemma transaction_references k json_data image_path conn conn' :
  transaction k json_data image_path conn = Ret conn' ->
  references_ok conn -> references_ok conn'.
Proof.
  intros H (R1 & R2). apply transaction_detail in H.
  destruct H as (doc & entries & _ & Hd & _ & _ & _ & Hk).
  assert (Hold : forall id, (exists d, In d (documents conn) /\ doc_id d = id) ->
                            exists d, In d (documents conn') /\ doc_id d = id).
  { intros id (d & Hin & Hid). exists d. split; [|exact Hid].
    rewrite Hd. apply in_app_iff. now left. }
  assert (Hnew : exists d, In d (documents conn') /\ doc_id d = doc_id doc).
  { exists doc. split; [|reflexivity]. rewrite Hd. apply in_app_iff. right. now left. }
  unfold references_ok.
  destruct k; destruct Hk as ((rows & Hrows & _ & Href) & _ & Ho & _).
  - split.
    + intros r Hr. rewrite Hrows in Hr. apply in_app_iff in Hr.
      destruct Hr as [Hr|Hr]; [now apply Hold, R1|].
      rewrite Forall_forall in Href. rewrite (Href r Hr). exact Hnew.
    + intros r Hr. rewrite Ho in Hr. now apply Hold, R2.
  - split.
    + intros r Hr. rewrite Ho in Hr. now apply Hold, R1.
    + intros r Hr. rewrite Hrows in Hr. apply in_app_iff in Hr.
      destruct Hr as [Hr|Hr]; [now apply Hold, R2|].
      rewrite Forall_forall in Href. rewrite (Href r Hr). exact Hnew.
Qed.

End WriterMore.
Import WriterMore.

(* ===================================================================== *)
(** * Further facts: what every entry point keeps of the database        *)
(* ===================================================================== *)

Module KeepFacts.

Lemma report_result_run r w :
  report_result r w = (Ret tt, w) \/
  exists e, is_failed r = false /\ entries_count r = Raise e /\
            exn_cls e = TypeError /\ report_result r w = (Raise e, w).
Proof.
  unfold report_result. destruct (is_failed r); [now left|].
  unfold bind, lift. destruct (entries_count r) as [n|e] eqn:En; [now left|].
  right. exists e. repeat split.
  unfold entries_count, py_len in En.
  destruct (dict_get_default r (py "entries") (PyList [])); try discriminate;
    injection En as <-; reflexivity.
Qed.

Lemma process_batch_run E f1 f2 delay w :
  process_batch_documents E f1 f2 delay w =
  match listdir E f1 with
  | Raise _ => (Ret (initial_results E), log_add w [EvListdir f1])
  | Ret names1 =>
      match listdir E f2 with
      | Raise _ => (Ret (initial_results E), log_add w [EvListdir f1; EvListdir f2])
      | Ret names2 =>
          run_loops E delay (sort (selected f1 names1)) (sort (selected f2 names2))
                         (log_add w [EvListdir f1; EvListdir f2])
      end
  end.
Proof.
  unfold process_batch_documents, run_loops, selected.
  unfold bind at 1. unfold try_except_Exception.
  unfold list_image_files, call_listdir.
  unfold bind at 1. unfold bind at 1. unfold bind at 1.
  unfold emit at 1, lift at 1. cbv iota beta.
  destruct (listdir E f1) as [names1|e1]; [|reflexivity].
  unfold ret at 1. cbv iota beta.
  unfold bind at 1. unfold bind at 1. unfold bind at 1.
  unfold emit at 1, lift at 1. cbv iota beta.
  destruct (listdir E f2) as [names2|e2].
  - unfold ret at 1. cbv iota beta. unfold ret at 1. cbv iota beta.
    unfold log_add. simpl w_db. simpl w_log. rewrite <- app_assoc. reflexivity.
  - cbv iota beta. unfold ret at 1.
    unfold log_add. simpl w_db. simpl w_log. rewrite <- app_assoc. reflexivity.
Qed.

Section Keeps.

Variable R : database -> database -> Prop.
Hypothesis R_refl : forall db, R db db.
Hypothesis R_trans : forall a b c, R a b -> R b c -> R a c.
Hypothesis R_transaction :
  forall k json_data image_path conn conn',
    transaction k json_data image_path conn = Ret conn' -> R conn conn'.

Lemma extract_document_keeps E p k w :
  R (w_db w) (w_db (snd (extract_document E p k w))).
Proof.
  rewrite extract_document_db.
  destruct (model_content E p k) as [[| | | |c| |]|]; try apply R_refl.
  destruct (fst (first_success (py_limits E) three_tiers c)) as [[| | | | | |d]|e];
    try apply R_refl.
  destruct (connect_and_write E k (add_metadata E p k d) p (w_db w)) eqn:Ec;
    [|apply R_refl].
  apply connect_and_write_Ret in Ec. eapply R_transaction. exact Ec.
Qed.

Lemma process_files_keeps E k delay files :
  forall results w,
    R (w_db w) (w_db (snd (process_files E k delay files results w))).
Proof.
  induction files as [|path rest IH]; intros results w; [apply R_refl|].
  cbn [process_files]. unfold bind at 1.
  pose proof (extract_document_keeps E path k w) as Hk.
  destruct (extract_document_returns E path k w) as (r & w1 & Hr).
  rewrite Hr in *. cbn [snd] in Hk. unfold bind at 1.
  destruct (report_result_run r w1) as [->|(e & _ & _ & _ & ->)]; [|exact Hk].
  destruct rest as [|path2 rest2]; [exact Hk|].
  unfold bind at 1, emit at 1. cbv iota beta.
  eapply R_trans; [exact Hk|].
  match goal with
  | |- context [process_files E k delay (path2 :: rest2) ?res ?wx] =>
      apply (IH res wx)
  end.
Qed.

Lemma run_loops_keeps E delay files1 files2 w :
  R (w_db w) (w_db (snd (run_loops E delay files1 files2 w))).
Proof.
  unfold run_loops. unfold bind at 1.
  match goal with
  | |- context [process_files E INDEX_1 delay files1 ?res w] =>
      pose proof (process_files_keeps E INDEX_1 delay files1 res w) as H1;
      destruct (process_files E INDEX_1 delay files1 res w) as [[res1|e1] w1]
  end; [|exact H1].
  cbn [snd] in H1. unfold bind at 1.
  pose proof (process_files_keeps E INDEX_2 delay files2 res1 w1) as H2.
  destruct (process_files E INDEX_2 delay files2 res1 w1) as [[res2|e2] w2];
    cbn [snd] in H2; (eapply R_trans; [exact H1|exact H2]).
Qed.

Lemma process_batch_keeps E f1 f2 delay w :
  R (w_db w) (w_db (snd (process_batch_documents E f1 f2 delay w))).
Proof.
  rewrite process_batch_run.
  destruct (listdir E f1); [|apply R_refl].
  destruct (listdir E f2); [|apply R_refl].
  apply (run_loops_keeps E delay _ _ (log_add w _)).
Qed.

Lemma extract_each_keeps E k files :
  forall results w,
    R (w_db w) (w_db (snd (extract_each E k files results w))).
Proof.
  induction files as [|path rest IH]; intros results w; [apply R_refl|].
  cbn [extract_each]. unfold bind at 1.
  pose proof (extract_document_keeps E path k w) as Hk.
  destruct (extract_document_returns E path k w) as (r & w1 & Hr).
  rewrite Hr in *. cbn [snd] in Hk.
  eapply R_trans; [exact Hk|apply IH].
Qed.

Lemma process_index_only_keeps E k dirname w :
  R (w_db w) (w_db (snd (process_index_only E k dirname w))).
Proof.
  unfold process_index_only, glob_ext.
  unfold bind, emit, ret. cbv iota beta.
  match goal with
  | |- context [extract_each E k ?fs [] ?wx] =>
      apply (extract_each_keeps E k fs [] wx)
  end.
Qed.

Lemma test_single_document_keeps E p k w :
  R (w_db w) (w_db (snd (test_single_document E p k w))).
Proof.
  unfold test_single_document. unfold bind at 1.
  pose proof (extract_document_keeps E p k w) as Hk.
  destruct (extract_document_returns E p k w) as (r & w1 & Hr).
  rewrite Hr in *. cbn [snd] in Hk.
  destruct (is_failed r); [exact Hk|].
  unfold bind, lift, emit, ret.
  destruct (entries_count r); exact Hk.
Qed.

End Keeps.

Lemma integrity_transaction k json_data image_path conn conn' :
  transaction k json_data image_path conn = Ret conn' ->
  integrity conn -> integrity conn'.
Proof.
  intros H [K Rf]. split.
  - eapply transaction_keys; eassumption.
  - eapply transaction_references; eassumption.
Qed.

Lemma integrity_empty : integrity empty_db.
Proof.
  unfold integrity, keys_ok, references_ok, ids_ok. simpl.
  repeat split; try constructor; intros ? [].
Qed.

End KeepFacts.
Import KeepFacts.

(* ===================================================================== *)
(** * Further facts: the loops with the count of the entries             *)
(* ===================================================================== *)

Module LoopFacts.

Lemma extract_document_step E p k w :
  exists r evs db',
    extract_document E p k w =
      (Ret r, {| w_db := db'; w_log := w_log w ++ EvDocument k p :: evs |}) /\
    forallb is_file_event evs = true.
Proof.
  destruct (extract_document_cases E p k w) as (r & evs & db' & Hrun & Hcase).
  exists r, evs, db'. split; [exact Hrun|].
  destruct Hcase as [(e & _ & -> & _)|[(probes & -> & Hp & _)|Hc]].
  - reflexivity.
  - cbn [forallb is_file_event]. now apply probe_file_event.
  - destruct Hc as (probes & d & -> & Hp & _).
    cbn [forallb is_file_event]. rewrite forallb_app, (probe_file_event _ Hp).
    reflexivity.
Qed.

Lemma file_events_quiet evs :
  forallb is_file_event evs = true ->
  filter batch_level evs = [] /\ processed evs = [].
Proof.
  induction evs as [|ev evs IH]; simpl; [auto|].
  intros H. apply andb_true_iff in H. destruct H as [H1 H2].
  destruct (IH H2) as [A B]. destruct ev; try discriminate; simpl; auto.
Qed.

Lemma process_files_cons E k delay path rest results w r w1 :
  extract_document E path k w = (Ret r, w1) ->
  process_files E k delay (path :: rest) results w =
  match report_result r w1 with
  | (Ret _, _) =>
      match rest with
      | [] => (Ret (record_result k r results), w1)
      | _ :: _ =>
          process_files E k delay rest (record_result k r results)
                             (log_add w1 [EvSleep delay])
      end
  | (Raise e, w2) => (Raise e, w2)
  end.
Proof.
  intros Hr. cbn [process_files]. unfold bind at 1. rewrite Hr.
  unfold bind at 1.
  destruct (report_result_run r w1) as [->|(e & _ & _ & _ & ->)]; [|reflexivity].
  destruct rest; reflexivity.
Qed.

Lemma process_files_uncounted_cons E k delay path rest results w r w1 :
  extract_document E path k w = (Ret r, w1) ->
  process_files_uncounted E k delay (path :: rest) results w =
  match rest with
  | [] => (Ret (record_result k r results), w1)
  | _ :: _ =>
      process_files_uncounted E k delay rest (record_result k r results)
                    (log_add w1 [EvSleep delay])
  end.
Proof.
  intros Hr. cbn [process_files_uncounted]. unfold bind at 1. rewrite Hr.
  destruct rest; reflexivity.
Qed.

Lemma filter_batch_level_file k p evs :
  forallb is_file_event evs = true ->
  filter batch_level (EvDocument k p :: evs) = [].
Proof. intros H. simpl. now apply file_events_quiet. Qed.

(** One loop, whichever way it ends.  When it returns, the loop without
    the count returns the same, there is one result per file in the order
    of the files, and the loop slept once between two files; when it
    raises, the exception is the TypeError of the count of the entries of
    an unfailed result.  No summary is written inside a loop. *)
Lemma process_files_run E k delay files :
  forall results w,
  exists out evs db',
    process_files E k delay files results w =
      (out, {| w_db := db'; w_log := w_log w ++ evs |}) /\
    count_events is_dump evs = 0%nat /\
    match out with
    | Ret res =>
        process_files_uncounted E k delay files results w =
          (Ret res, {| w_db := db'; w_log := w_log w ++ evs |}) /\
        filter batch_level evs = repeat (EvSleep delay) (pred (length files)) /\
        (exists blocks,
            Forall2 (file_block k) files blocks /\
            evs = interleave (EvSleep delay) blocks) /\
        exists rs,
          res = record_all k rs results /\ Forall2 (result_of E k) files rs
    | Raise e =>
        exn_cls e = TypeError /\
        exists done p rest r w1 blocks,
          files = done ++ p :: rest /\
          Forall2 (file_block k) (done ++ [p]) blocks /\
          evs = interleave (EvSleep delay) blocks /\
          extract_document E p k w1 =
            (Ret r, {| w_db := db'; w_log := w_log w ++ evs |}) /\
          is_failed r = false /\ entries_count r = Raise e
    end.
Proof.
  induction files as [|path rest IH]; intros results w.
  - exists (Ret results), [], (w_db w).
    assert (Hw : (Ret results, w) =
                 (Ret results, {| w_db := w_db w; w_log := w_log w ++ [] |})).
    { destruct w. simpl. now rewrite app_nil_r. }
    split; [exact Hw|]. split; [reflexivity|]. split; [exact Hw|].
    split; [reflexivity|].
    split; [exists []; split; [constructor|reflexivity]|].
    exists []. split; [reflexivity|constructor].
  - destruct (extract_document_step E path k w) as (r & evs1 & db1 & Hr & Hev).
    assert (Hres : result_of E k path r) by (eexists _, _; exact Hr).
    assert (Hd1 : count_events is_dump (EvDocument k path :: evs1) = 0%nat).
    { unfold count_events. simpl.
      clear - Hev. induction evs1 as [|ev evs IH]; [reflexivity|].
      simpl in Hev. apply andb_true_iff in Hev. destruct Hev as [H1 H2].
      destruct ev; try discriminate; simpl; now apply IH. }
    rewrite process_files_cons with (1 := Hr).
    rewrite process_files_uncounted_cons with (1 := Hr).
    destruct (report_result_run r {| w_db := db1;
                                     w_log := w_log w ++ EvDocument k path :: evs1 |})
      as [->|(e & Hf & Hen & Hcls & ->)].
    + assert (Hblock : file_block k path (EvDocument k path :: evs1))
        by (exists evs1; auto).
      destruct rest as [|path2 rest2].
      * exists (Ret (record_result k r results)), (EvDocument k path :: evs1), db1.
        split; [reflexivity|]. split; [exact Hd1|]. split; [reflexivity|].
        split; [now apply filter_batch_level_file|].
        split.
        { exists [EvDocument k path :: evs1].
          split; [constructor; [exact Hblock|constructor]|reflexivity]. }
        exists [r]. split; [reflexivity|]. constructor; [exact Hres|constructor].
      * destruct (IH (record_result k r results)
                     (log_add {| w_db := db1;
                                 w_log := w_log w ++ EvDocument k path :: evs1 |}
                              [EvSleep delay]))
          as (out & evs2 & db2 & Hrun & Hd2 & Hout).
        assert (Hlog : forall db,
                   {| w_db := db;
                      w_log := w_log (log_add {| w_db := db1;
                                 w_log := w_log w ++ EvDocument k path :: evs1 |}
                              [EvSleep delay]) ++ evs2 |} =
                   {| w_db := db;
                      w_log := w_log w ++
                               (EvDocument k path :: evs1) ++ EvSleep delay :: evs2 |}).
        { intros db. f_equal. simpl. rewrite <- !app_assoc. reflexivity. }
        rewrite Hlog in Hrun.
        exists out, ((EvDocument k path :: evs1) ++ EvSleep delay :: evs2), db2.
        split; [exact Hrun|].
        split; [rewrite count_events_app, Hd1, count_events_cons; exact Hd2|].
        destruct out as [res|e].
        -- destruct Hout as (Habs & Hsl & (blocks & Hb & ->) & rs & -> & Hall).
           rewrite Hlog in Habs. split; [exact Habs|].
           split.
           { rewrite filter_app, (filter_batch_level_file k path evs1 Hev).
             cbn [filter batch_level app]. rewrite Hsl. reflexivity. }
           split.
           { exists ((EvDocument k path :: evs1) :: blocks).
             split; [constructor; assumption|].
             inversion Hb; subst. reflexivity. }
           exists (r :: rs). split; [reflexivity|]. constructor; assumption.
        -- destruct Hout as (Hcls & done & p & rest' & r' & w1 & blocks
                             & Hfiles & Hb & -> & Hr' & Hf' & Hen').
           split; [exact Hcls|].
           exists (path :: done), p, rest', r', w1,
                  ((EvDocument k path :: evs1) :: blocks).
           split; [cbn [app]; now rewrite Hfiles|].
           split; [cbn [app]; constructor; assumption|].
           split.
           { destruct blocks as [|b blocks]; [|reflexivity].
             apply Forall2_length in Hb. rewrite length_app in Hb.
             cbn [length] in Hb. lia. }
           split; [|auto]. rewrite Hr'. f_equal. apply Hlog.
    + exists (Raise e), (EvDocument k path :: evs1), db1.
      split; [reflexivity|]. split; [exact Hd1|]. split; [exact Hcls|].
      exists [], path, rest, r, w, [EvDocument k path :: evs1].
      split; [reflexivity|].
      split; [constructor; [exists evs1; auto|constructor]|].
      split; [reflexivity|]. auto.
Qed.

(** The files a run of blocks hands to [extract_document]. *)
Lemma processed_interleave k delay files blocks :
  Forall2 (file_block k) files blocks ->
  processed (interleave (EvSleep delay) blocks) = List.map (pair k) files.
Proof.
  induction 1 as [|p b files blocks (evs & -> & Hev) Hrest IH]; [reflexivity|].
  assert (Hb : processed (EvDocument k p :: evs) = [(k, p)]).
  { cbn [processed]. f_equal. now apply file_events_quiet. }
  destruct blocks as [|b2 blocks].
  - inversion Hrest; subst. exact Hb.
  - change (interleave (EvSleep delay) ((EvDocument k p :: evs) :: b2 :: blocks))
      with ((EvDocument k p :: evs) ++ EvSleep delay :: interleave (EvSleep delay) (b2 :: blocks)).
    rewrite processed_app, Hb. cbn [processed app List.map]. now rewrite IH.
Qed.

Lemma process_files_aborts E k delay files p :
  In p files ->
  (forall w, exists r w' e,
      extract_document E p k w = (Ret r, w') /\
      is_failed r = false /\ entries_count r = Raise e) ->
  forall results w,
  exists e w', process_files E k delay files results w = (Raise e, w').
Proof.
  intros Hin Hbad. induction files as [|path rest IH]; [destruct Hin|].
  intros results w.
  destruct (extract_document_returns E path k w) as (r & w1 & Hr).
  rewrite process_files_cons with (1 := Hr).
  destruct (report_result_run r w1) as [Hrep|(e & _ & _ & _ & Hrep)].
  - destruct Hin as [->|Hin].
    + destruct (Hbad w) as (r' & w1' & e & Hr' & Hf & Hen).
      rewrite Hr in Hr'. injection Hr' as <- <-.
      unfold report_result, bind, lift in Hrep. rewrite Hf, Hen in Hrep.
      discriminate Hrep.
    + rewrite Hrep. destruct rest as [|path2 rest2]; [destruct Hin|].
      apply (IH Hin).
  - rewrite Hrep. eauto.
Qed.

(** A reply whose object has an [entries] value that [len] refuses gives a
    result whose entries cannot be counted. *)
Lemma uncountable_result E p k d v :
  parse_produced E p k d ->
  dict_lookup d (py "entries") = Some v -> sized v = false ->
  is_failed d = false ->
  forall w, exists r w' e,
    extract_document E p k w = (Ret r, w') /\
    is_failed r = false /\ entries_count r = Raise e.
Proof.
  intros (c & w0 & Em & Hx) Hv Hs Hf w.
  assert (Hx' : fst (first_success (py_limits E) three_tiers c) = Ret (PyDict d)).
  { rewrite extract_first_success in Hx. exact Hx. }
  clear Hx. rename Hx' into Hx.
  rewrite extract_document_reply with (content := PyStr c) by exact Em.
  rewrite handle_content_run, Hx. cbv zeta.
  assert (Hmeta : forall key,
             key <> py "source_path" -> key <> py "processed_at" ->
             key <> py "index_type" -> key <> py "database_error" ->
             forall m,
               dict_lookup (add_metadata E p k d) key = dict_lookup d key /\
               dict_lookup (dict_set (add_metadata E p k d) (py "database_error") m) key
               = dict_lookup d key).
  { intros key H1 H2 H3 H4 m.
    rewrite dict_lookup_set_other by congruence.
    rewrite dict_lookup_add_metadata by assumption. auto. }
  assert (Hany : forall r, (forall key,
               key = py "error" \/ key = py "parsing_error" \/ key = py "entries" ->
               dict_lookup r key = dict_lookup d key) ->
             is_failed r = false /\ exists e, entries_count r = Raise e).
  { intros r Hk. split.
    - unfold is_failed, dict_has, dict_get in *.
      rewrite !Hk by auto. exact Hf.
    - unfold entries_count, dict_get_default. rewrite Hk, Hv by auto.
      destruct v; try discriminate Hs; eexists; reflexivity. }
  assert (Hkeys : forall key,
             key = py "error" \/ key = py "parsing_error" \/ key = py "entries" ->
             key <> py "source_path" /\ key <> py "processed_at" /\
             key <> py "index_type" /\ key <> py "database_error").
  { intros key [->|[->| ->]]; repeat split; apply py_neq; reflexivity. }
  destruct (connect_and_write E k (add_metadata E p k d) p
              (w_db (log_add w [EvDocument k p; EvPost k p]))) as [conn|e].
  - destruct (Hany (add_metadata E p k d)) as (A & e' & B).
    { intros key Hkey. destruct (Hkeys key Hkey) as (H1 & H2 & H3 & H4).
      apply (Hmeta key H1 H2 H3 H4 (PyStr [])). }
    eexists _, _, e'. split; [reflexivity|auto].
  - destruct (Hany (dict_set (add_metadata E p k d) (py "database_error")
                             (PyStr (exn_msg e)))) as (A & e' & B).
    { intros key Hkey. destruct (Hkeys key Hkey) as (H1 & H2 & H3 & H4).
      apply (Hmeta key H1 H2 H3 H4 (PyStr (exn_msg e))). }
    eexists _, _, e'. split; [reflexivity|auto].
Qed.

(** The two loops and the summary, whichever way they end. *)
Lemma run_loops_run E delay files1 files2 w :
  exists out evs db',
    run_loops E delay files1 files2 w =
      (out, {| w_db := db'; w_log := w_log w ++ evs |}) /\
    match out with
    | Ret res =>
        run_loops_uncounted E delay files1 files2 w =
          (Ret res, {| w_db := db'; w_log := w_log w ++ evs |}) /\
        filter batch_level evs =
          repeat (EvSleep delay) (pred (length files1)) ++
          repeat (EvSleep delay) (pred (length files2)) ++ [EvDump] /\
        (exists blocks1 blocks2,
            Forall2 (file_block INDEX_1) files1 blocks1 /\
            Forall2 (file_block INDEX_2) files2 blocks2 /\
            evs = interleave (EvSleep delay) blocks1 ++
                  interleave (EvSleep delay) blocks2 ++ [EvDump]) /\
        exists rs1 rs2,
          res = record_all INDEX_2 rs2
                  (record_all INDEX_1 rs1
                     (set_totals (initial_results E) (length files1) (length files2))) /\
          Forall2 (result_of E INDEX_1) files1 rs1 /\
          Forall2 (result_of E INDEX_2) files2 rs2
    | Raise e =>
        exn_cls e = TypeError /\
        count_events is_dump evs = 0%nat /\
        exists k p r w1 before after,
          List.map (pair INDEX_1) files1 ++ List.map (pair INDEX_2) files2
          = before ++ (k, p) :: after /\
          processed evs = before ++ [(k, p)] /\
          extract_document E p k w1 =
            (Ret r, {| w_db := db'; w_log := w_log w ++ evs |}) /\
          is_failed r = false /\ entries_count r = Raise e
    end.
Proof.
  unfold run_loops.
  set (r0 := set_totals (initial_results E) (length files1) (length files2)).
  destruct (process_files_run E INDEX_1 delay files1 r0 w)
    as (out1 & evs1 & db1 & H1 & D1 & O1).
  unfold bind at 1. rewrite H1.
  destruct out1 as [res1|e1].
  2:{ exists (Raise e1), evs1, db1. split; [reflexivity|].
      destruct O1 as (Hc & done & p & rest & r & w1 & blocks
                      & Hfiles & Hb & Hevs & Hr & Hf & Hen).
      split; [exact Hc|]. split; [exact D1|].
      exists INDEX_1, p, r, w1, (List.map (pair INDEX_1) done),
             (List.map (pair INDEX_1) rest ++ List.map (pair INDEX_2) files2).
      split.
      { rewrite Hfiles, map_app. cbn [List.map]. now rewrite <- app_assoc. }
      split; [|auto].
      rewrite Hevs, (processed_interleave delay Hb), map_app. reflexivity. }
  destruct O1 as (A1 & S1 & (blocks1 & B1 & Hevs1) & rs1 & -> & F1).
  destruct (process_files_run E INDEX_2 delay files2 (record_all INDEX_1 rs1 r0)
              {| w_db := db1; w_log := w_log w ++ evs1 |})
    as (out2 & evs2 & db2 & H2 & D2 & O2).
  cbn [w_log] in H2, O2. rewrite <- app_assoc in H2, O2.
  unfold bind at 1. rewrite H2.
  destruct out2 as [res2|e2].
  2:{ exists (Raise e2), (evs1 ++ evs2), db2. split; [reflexivity|].
      destruct O2 as (Hc & done & p & rest & r & w1 & blocks
                      & Hfiles & Hb & Hevs & Hr & Hf & Hen).
      split; [exact Hc|]. split; [now rewrite count_events_app, D1, D2|].
      exists INDEX_2, p, r, w1,
             (List.map (pair INDEX_1) files1 ++ List.map (pair INDEX_2) done),
             (List.map (pair INDEX_2) rest).
      split.
      { rewrite Hfiles, map_app. cbn [List.map]. now rewrite <- app_assoc. }
      split; [|auto].
      rewrite processed_app, Hevs1, Hevs, (processed_interleave delay B1),
        (processed_interleave delay Hb), map_app, <- app_assoc. reflexivity. }
  destruct O2 as (A2 & S2 & (blocks2 & B2 & Hevs2) & rs2 & -> & F2).
  exists (Ret (record_all INDEX_2 rs2 (record_all INDEX_1 rs1 r0))),
         (evs1 ++ evs2 ++ [EvDump]), db2.
  assert (Hw : forall (x : batch_results),
             (emit EvDump ;;; ret x) {| w_db := db2; w_log := w_log w ++ evs1 ++ evs2 |}
             = (Ret x, {| w_db := db2; w_log := w_log w ++ evs1 ++ evs2 ++ [EvDump] |})).
  { intros x. unfold bind, emit, ret. cbn [w_db w_log].
    now rewrite <- !app_assoc. }
  split; [apply Hw|]. split.
  { unfold run_loops_uncounted. fold r0. unfold bind at 1. rewrite A1.
    unfold bind at 1. rewrite A2. apply Hw. }
  split.
  { rewrite !filter_app, S1, S2. reflexivity. }
  split; [exists blocks1, blocks2; repeat split; try assumption; congruence|].
  exists rs1, rs2. auto.
Qed.



End LoopFacts.
Import LoopFacts.

(* ===================================================================== *)
(** * Further facts: the order of strings and the sort                   *)
(* ===================================================================== *)

Module OrderFacts.

Lemma str_ltb_trans a : forall b c,
  str_ltb a b = true -> str_ltb b c = true -> str_ltb a c = true.
Proof.
  induction a as [|x a IH]; intros [|y b] [|z c]; simpl; try discriminate;
    try reflexivity.
  intros H1 H2. apply orb_true_iff in H1. apply orb_true_iff in H2.
  apply orb_true_iff.
  destruct H1 as [H1|H1]; destruct H2 as [H2|H2].
  - left. apply N.ltb_lt in H1, H2. apply N.ltb_lt. lia.
  - apply andb_true_iff in H2. destruct H2 as [E _]. apply N.eqb_eq in E. subst.
    now left.
  - apply andb_true_iff in H1. destruct H1 as [E _]. apply N.eqb_eq in E. subst.
    now left.
  - apply andb_true_iff in H1. destruct H1 as [E1 H1]. apply N.eqb_eq in E1.
    apply andb_true_iff in H2. destruct H2 as [E2 H2]. apply N.eqb_eq in E2.
    subst. right. rewrite N.eqb_refl. simpl. now apply IH with b.
Qed.

Lemma str_ltb_trichotomy a : forall b,
  str_ltb a b = false -> str_ltb b a = false -> a = b.
Proof.
  induction a as [|x a IH]; intros [|y b]; simpl; try discriminate;
    try reflexivity.
  intros H1 H2. apply orb_false_iff in H1. apply orb_false_iff in H2.
  destruct H1 as [L1 A1]. destruct H2 as [L2 A2].
  apply N.ltb_ge in L1, L2. assert (x = y) by lia. subst y.
  rewrite N.eqb_refl in A1, A2. simpl in A1, A2.
  f_equal. now apply IH.
Qed.

Lemma lex_le_antisym a b : lex_le a b -> lex_le b a -> a = b.
Proof.
  unfold lex_le, str_leb. intros H1 H2.
  apply negb_true_iff in H1. apply negb_true_iff in H2.
  now apply str_ltb_trichotomy.
Qed.

Lemma lex_le_trans a b c : lex_le a b -> lex_le b c -> lex_le a c.
Proof.
  unfold lex_le, str_leb. intros H1 H2.
  apply negb_true_iff in H1. apply negb_true_iff in H2. apply negb_true_iff.
  destruct (str_ltb c a) eqn:Hca; [exfalso|reflexivity].
  destruct (str_ltb b c) eqn:Hbc.
  - rewrite (@str_ltb_trans b c a Hbc Hca) in H1. discriminate.
  - assert (b = c) by (now apply str_ltb_trichotomy). subst. congruence.
Qed.

Lemma sorted_strongly l : Sorted lex_le l -> StronglySorted lex_le l.
Proof.
  apply Sorted_StronglySorted. intros a b c. apply lex_le_trans.
Qed.

(** A list has one sorted arrangement. *)
Lemma sorted_unique l : forall l',
  StronglySorted lex_le l -> StronglySorted lex_le l' -> Permutation l l' -> l = l'.
Proof.
  induction l as [|x t IH]; intros l' S1 S2 P.
  - apply Permutation_nil in P. now subst.
  - destruct l' as [|y t'].
    { apply Permutation_sym, Permutation_nil in P. discriminate. }
    apply StronglySorted_inv in S1. destruct S1 as [S1 F1].
    apply StronglySorted_inv in S2. destruct S2 as [S2 F2].
    rewrite Forall_forall in F1, F2.
    assert (Hxy : x = y).
    { assert (Hx : In x (y :: t')) by (apply (Permutation_in _ P); now left).
      assert (Hy : In y (x :: t))
        by (apply (Permutation_in _ (Permutation_sym P)); now left).
      destruct Hx as [Hx|Hx]; [now symmetry|].
      destruct Hy as [Hy|Hy]; [exact Hy|].
      apply lex_le_antisym; [now apply F1|now apply F2]. }
    subst y. f_equal. apply IH; [exact S1|exact S2|].
    now apply Permutation_cons_inv with x.
Qed.

Lemma sort_permutation l l' : Permutation l l' -> sort l = sort l'.
Proof.
  intros P. apply sorted_unique.
  - apply sorted_strongly, sort_sorted.
  - apply sorted_strongly, sort_sorted.
  - apply perm_trans with l; [apply sort_perm|].
    apply perm_trans with l'; [exact P|apply Permutation_sym, sort_perm].
Qed.

Lemma filter_permutation {A : Type} (f : A -> bool) l l' :
  Permutation l l' -> Permutation (filter f l) (filter f l').
Proof.
  induction 1 as [|x l l' P IH|x y l|l l' l'' P1 IH1 P2 IH2]; simpl.
  - constructor.
  - destruct (f x); [now constructor|exact IH].
  - destruct (f x), (f y); try apply Permutation_refl. apply perm_swap.
  - now apply perm_trans with (filter f l').
Qed.

End OrderFacts.
Import OrderFacts.

(* ===================================================================== *)
(** * Further facts: the tasks of the DAG for one kind                   *)
(* ===================================================================== *)

Module DagFacts.

Lemma process_index_only_run E k dirname w :
  process_index_only E k dirname w =
  extract_each E k
    (sort match listdir E dirname with
          | Ret names => glob_selected dirname names
          | Raise _ => []
          end) []
    (log_add w [EvListdir dirname; EvListdir dirname; EvListdir dirname]).
Proof.
  unfold process_index_only, glob_ext, glob_selected.
  unfold bind, emit, ret, log_add. cbn [w_db w_log]. cbv iota beta.
  rewrite <- !app_assoc. cbn [app].
  destruct (listdir E dirname); reflexivity.
Qed.

(** The loop of a DAG task returns, with one result per file in the order
    of the list, and does nothing between two files. *)
Lemma extract_each_run E k files :
  forall results w,
  exists rs evs db',
    extract_each E k files results w =
      (Ret (results ++ rs), {| w_db := db'; w_log := w_log w ++ evs |}) /\
    Forall2 (result_of E k) files rs /\
    processed evs = List.map (pair k) files /\
    filter batch_level evs = [].
Proof.
  induction files as [|path rest IH]; intros results w.
  - exists [], [], (w_db w). rewrite !app_nil_r. destruct w. simpl.
    repeat split. constructor.
  - destruct (extract_document_step E path k w) as (r & evs1 & db1 & Hr & Hev).
    destruct (file_events_quiet _ Hev) as [Q1 Q2].
    cbn [extract_each]. unfold bind at 1. rewrite Hr.
    destruct (IH (results ++ [r])
                 {| w_db := db1; w_log := w_log w ++ EvDocument k path :: evs1 |})
      as (rs & evs2 & db2 & Hrun & Hall & Hp & Hq).
    exists (r :: rs), ((EvDocument k path :: evs1) ++ evs2), db2.
    rewrite Hrun. cbn [w_log]. rewrite <- !app_assoc. cbn [app].
    split; [reflexivity|]. split.
    { constructor; [eexists _, _; exact Hr|exact Hall]. }
    split.
    + cbn [processed]. rewrite processed_app, Q2, Hp. reflexivity.
    + cbn [filter batch_level]. rewrite filter_app, Q1, Hq. reflexivity.
Qed.

Lemma glob_match_image ext name :
  ext = py ".jpg" \/ ext = py ".jpeg" \/ ext = py ".png" ->
  glob_match ext name = true -> is_image_file name = true.
Proof.
  intros Hext H. unfold glob_match in H. apply andb_true_iff in H.
  destruct H as [_ H]. apply endswith_iff in H. destruct H as [t ->].
  apply is_image_file_iff.
  assert (Hsame : forall l, Forall2 caseless l l).
  { induction l; constructor; [now left|assumption]. }
  destruct Hext as [->|[->| ->]]; [left|right; left|right; right];
    (eexists t, _; split; [reflexivity|apply Hsame]).
Qed.

Lemma endswith_slash d : endswith (d ++ py "/") (py "/") = true.
Proof. apply endswith_iff. now exists d. Qed.

(** [os.path.join] gives the same path for a directory written with or
    without the slash at its end. *)
Lemma path_join_slash d name :
  d <> [] -> endswith d (py "/") = false ->
  path_join (d ++ py "/") name = path_join d name.
Proof.
  intros Hd He. unfold path_join.
  destruct (startswith name (py "/")); [reflexivity|].
  rewrite endswith_slash, He.
  destruct d as [|c d]; [contradiction|].
  cbn [app]. now rewrite <- app_assoc.
Qed.

(** A result whose entries cannot be counted, and that is not failed,
    comes from a write that did not reach its commit. *)
Lemma uncountable_has_database_error E k p r e :
  result_of E k p r -> is_failed r = false -> entries_count r = Raise e ->
  dict_has r (py "database_error") = true.
Proof.
  intros (w & w' & Hrun) Hf En.
  destruct (extract_document_cases E p k w) as (r0 & evs & db' & Hrun0 & Hcase).
  rewrite Hrun in Hrun0. injection Hrun0 as -> _.
  destruct Hcase as [(e0 & _ & _ & _ & ->)|[(probes & _ & _ & _ & _ & _ & Hr)|Hc]].
  - rewrite is_failed_error in Hf. discriminate.
  - destruct Hr as [(m & ->)|[(c & _ & ->)|(d & e0 & _ & _ & ->)]].
    + rewrite is_failed_error in Hf. discriminate.
    + rewrite is_failed_parsing in Hf. discriminate.
    + unfold dict_has. now rewrite dict_lookup_set_same.
  - destruct Hc as (probes & d & _ & _ & _ & _ & _ & Hw & ->).
    apply connect_and_write_Ret, transaction_detail in Hw.
    destruct Hw as (doc & entries & He & _).
    unfold entries_count in En.
    destruct (dict_get_default (add_metadata E p k d) (py "entries") (PyList []));
      discriminate.
Qed.

(** No name ends in two of the three extensions. *)
Lemma endswith_disjoint name :
  (endswith name (py ".jpg") && endswith name (py ".jpeg") = false) /\
  (endswith name (py ".jpg") && endswith name (py ".png") = false) /\
  (endswith name (py ".jpeg") && endswith name (py ".png") = false).
Proof.
  unfold endswith.
  destruct (rev name) as [|a [|b l]].
  - auto.
  - simpl. rewrite !andb_false_r. auto.
  - change (rev (py ".jpg")) with (103 :: 112 :: py "j.")%N.
    change (rev (py ".jpeg")) with (103 :: 101 :: py "pj.")%N.
    change (rev (py ".png")) with (103 :: 110 :: py "p.")%N.
    cbn [startswith].
    destruct (N.eqb_spec a 103); [|auto].
    destruct (N.eqb_spec b 112); destruct (N.eqb_spec b 101);
      destruct (N.eqb_spec b 110); subst; try discriminate; cbn [andb];
      rewrite ?andb_false_r; auto.
Qed.

(** Three filters that share out the elements a fourth one keeps. *)
Lemma three_filters {A : Type} (f g1 g2 g3 : A -> bool) l :
  (forall x, In x l ->
     (f x = true /\ ((g1 x = true /\ g2 x = false /\ g3 x = false) \/
                     (g1 x = false /\ g2 x = true /\ g3 x = false) \/
                     (g1 x = false /\ g2 x = false /\ g3 x = true))) \/
     (f x = false /\ g1 x = false /\ g2 x = false /\ g3 x = false)) ->
  Permutation (filter g1 l ++ filter g2 l ++ filter g3 l) (filter f l).
Proof.
  induction l as [|x l IH]; intros H; [constructor|].
  assert (IH' : Permutation (filter g1 l ++ filter g2 l ++ filter g3 l) (filter f l)).
  { apply IH. intros y Hy. apply H. now right. }
  cbn [filter].
  destruct (H x (or_introl eq_refl))
    as [(-> & [(-> & -> & ->)|[(-> & -> & ->)|(-> & -> & ->)]])|(-> & -> & -> & ->)].
  - cbn [app]. now constructor.
  - apply Permutation_sym, Permutation_cons_app, Permutation_sym. exact IH'.
  - apply Permutation_sym. rewrite app_assoc.
    apply Permutation_cons_app. rewrite <- app_assoc. apply Permutation_sym. exact IH'.
  - exact IH'.
Qed.

(** When every image name of a directory is visible and has its extension
    in lower case, the three patterns select what the Batch Driver
    selects. *)
Lemma glob_selected_perm d names :
  d <> [] -> endswith d (py "/") = false ->
  (forall name, In name names -> is_image_file name = true ->
     ishidden name = false /\
     (endswith name (py ".jpg") || endswith name (py ".jpeg")
      || endswith name (py ".png")) = true) ->
  Permutation (glob_selected d names) (selected (d ++ py "/") names).
Proof.
  intros Hd He Hn. unfold glob_selected, selected.
  rewrite <- !map_app.
  rewrite (map_ext (path_join (d ++ py "/")) (path_join d))
    by (intros name; now apply path_join_slash).
  apply Permutation_map, three_filters.
  intros name Hin.
  destruct (endswith_disjoint name) as (D1 & D2 & D3).
  destruct (is_image_file name) eqn:Hf.
  - left. split; [reflexivity|].
    destruct (Hn name Hin Hf) as [Hh Hx].
    unfold glob_match. rewrite Hh. cbn [negb andb].
    destruct (endswith name (py ".jpg")), (endswith name (py ".jpeg")),
      (endswith name (py ".png")); try discriminate; auto.
  - right. split; [reflexivity|].
    assert (Hg : forall ext,
               ext = py ".jpg" \/ ext = py ".jpeg" \/ ext = py ".png" ->
               glob_match ext name = false).
    { intros ext Hext. destruct (glob_match ext name) eqn:Hg; [|reflexivity].
      rewrite (@glob_match_image ext name Hext Hg) in Hf. discriminate. }
    repeat split; apply Hg; auto.
Qed.

Lemma process_index_only_processed E k d w names :
  listdir E d = Ret names ->
  processed (w_log (snd (process_index_only E k d w))) =
  processed (w_log w) ++ List.map (pair k) (sort (glob_selected d names)).
Proof.
  intros Hl. rewrite process_index_only_run, Hl.
  destruct (extract_each_run E k (sort (glob_selected d names)) []
              (log_add w [EvListdir d; EvListdir d; EvListdir d]))
    as (rs & evs & db' & Hrun & _ & Hp & _).
  rewrite Hrun. cbn [snd w_log log_add].
  rewrite !processed_app, Hp. cbn [processed]. now rewrite app_nil_r.
Qed.

End DagFacts.
Import DagFacts.

(* ===================================================================== *)
(** * Further facts: what the second and third strategies can return     *)
(* ===================================================================== *)

Module TierFacts.

Local Open Scope N_scope.

Section Calls.

Variable R : Type.

Lemma star_greedy_inv p s (k : str -> option R) x :
  star_greedy p s k = Some x ->
  exists s', k s' = Some x /\ (length s' <= length s)%nat.
Proof.
  induction s as [|c t IH]; cbn [star_greedy length];
    [intros H; exists []; split; [exact H|cbn [length]; lia]|].
  destruct (p c).
  - destruct (star_greedy p t k) as [y|] eqn:E.
    + intros H. injection H as ->.
      destruct (IH eq_refl) as (s' & Hk & Hl). exists s'. split; [exact Hk|lia].
    + intros H. exists (c :: t). split; [exact H|cbn [length]; lia].
  - intros H. exists (c :: t). split; [exact H|cbn [length]; lia].
Qed.

Lemma star_lazy_inv p s (k : str -> option R) x :
  star_lazy p s k = Some x ->
  exists s', k s' = Some x /\ (length s' <= length s)%nat.
Proof.
  induction s as [|c t IH]; cbn [star_lazy length].
  - destruct (k []) eqn:E; [|discriminate]. intros H. exists [].
    split; [congruence|cbn [length]; lia].
  - destruct (k (c :: t)) eqn:E.
    + intros H. exists (c :: t). split; [congruence|cbn [length]; lia].
    + destruct (p c); [|discriminate]. intros H.
      destruct (IH H) as (s' & Hk & Hl). exists s'. split; [exact Hk|lia].
Qed.

(** A match ends in a call of its continuation. *)
Lemma rmatch_call r : forall s cap (k : str -> option str -> option R) x,
  rmatch r s cap k = Some x -> exists s' cap', k s' cap' = Some x.
Proof.
  induction r as [p|p|p|r1 IH1|r1 IH1 r2 IH2|r1 IH1]; intros s cap k x; cbn [rmatch].
  - destruct s as [|c t]; [discriminate|]. destruct (p c); [eauto|discriminate].
  - intros H. apply star_greedy_inv in H. destruct H as (s' & H & _). eauto.
  - intros H. apply star_lazy_inv in H. destruct H as (s' & H & _). eauto.
  - destruct (rmatch r1 s cap k) eqn:E.
    + intros H. injection H as ->. now apply IH1 in E.
    + eauto.
  - intros H. apply IH1 in H. destruct H as (s1 & cap1 & H). now apply IH2 in H.
  - intros H. apply IH1 in H. destruct H as (s1 & cap1 & H). eauto.
Qed.

(** What group 1 holds opens with a brace. *)
Lemma json_group_capture s cap (k : str -> option str -> option R) x :
  rmatch json_group s cap k = Some x ->
  exists s' t, k s' (Some (123 :: t)) = Some x.
Proof.
  unfold json_group, lit. cbn [rmatch].
  destruct s as [|c u]; [discriminate|].
  destruct (N.eqb_spec c 123) as [->|]; [|discriminate].
  intros H. apply star_lazy_inv in H. destruct H as (s1 & H & Hlen).
  destruct s1 as [|c1 u1]; [discriminate|].
  destruct (c1 =? 125); [|discriminate].
  exists u1. cbn [length] in *.
  replace (S (length u) - length u1)%nat with (S (length u - length u1)) in H by lia.
  cbn [firstn] in H. eauto.
Qed.

(** The closing fence keeps the capture. *)
Lemma closing_keeps s cap (k : str -> option str -> option R) x :
  rmatch closing s cap k = Some x -> exists s', k s' cap = Some x.
Proof.
  unfold closing, fence, lit. cbn [rmatch]. intros H.
  apply star_greedy_inv in H. destruct H as (s1 & H & _).
  destruct s1 as [|a [|b [|c t]]]; try discriminate;
    try (destruct (a =? backtick); discriminate);
    try (destruct (a =? backtick); [destruct (b =? backtick)|]; discriminate).
  destruct (a =? backtick); [|discriminate].
  destruct (b =? backtick); [|discriminate].
  destruct (c =? backtick); [|discriminate]. eauto.
Qed.

End Calls.

Lemma re_match_capture s cap :
  re_match json_pattern s = Some cap -> exists t, cap = Some (123 :: t).
Proof.
  unfold re_match, json_pattern. cbn [rmatch]. intros H.
  apply rmatch_call in H. destruct H as (s1 & c1 & H).
  apply rmatch_call in H. destruct H as (s2 & c2 & H).
  apply star_greedy_inv in H. destruct H as (s3 & H & _).
  apply json_group_capture in H. destruct H as (s4 & t & H).
  apply closing_keeps in H. destruct H as (s5 & H).
  injection H as <-. eauto.
Qed.

Lemma re_search_capture s cap :
  re_search json_pattern s = Some cap -> exists t, cap = Some (123 :: t).
Proof.
  induction s as [|c s IH]; cbn [re_search].
  - destruct (re_match json_pattern []) eqn:E; [|discriminate].
    intros H. injection H as <-. now apply re_match_capture in E.
  - destruct (re_match json_pattern (c :: s)) eqn:E; [|exact IH].
    intros H. injection H as <-. now apply re_match_capture in E.
Qed.

(** A text that opens with a brace decodes to an object or not at all. *)
Lemma json_loads_object L s rest v :
  skip_ws s = 123 :: rest -> json_loads L s = Ret v -> exists d, v = PyDict d.
Proof.
  unfold json_loads. intros Hs.
  destruct (startswith s [65279]); [discriminate|].
  rewrite Hs. cbn [scan_once].
  change (123 =? 34) with false. change (123 =? 123) with true. cbv iota.
  destruct (recursion_budget L) as [|depth]; [discriminate|].
  unfold JSONObject.
  destruct (skip_ws rest) as [|c t]; [discriminate|].
  destruct (c =? 125).
  { destruct (skip_ws t); [|discriminate]. intros H. injection H as <-. eauto. }
  destruct (c =? 34); [|discriminate].
  destruct (object_loop _ _ _ t) as [pairs r| | |]; try discriminate.
  destruct (skip_ws r); [|discriminate]. intros H. injection H as <-. eauto.
Qed.

(** A character that [strip] removes and the decoder does not skip stops
    the decoder. *)
Lemma scan_once_space L c fuel depth t :
  isspace c = true -> json_ws c = false ->
  scan_once L (S fuel) depth (c :: t) = PErr.
Proof.
  intros Hs Hj.
  assert (Hc : c = 11 \/ c = 12 \/ c = 28 \/ c = 29 \/ c = 30 \/ c = 31 \/
               c = 133 \/ c = 160 \/ c = 5760 \/
               c = 8192 \/ c = 8193 \/ c = 8194 \/ c = 8195 \/ c = 8196 \/
               c = 8197 \/ c = 8198 \/ c = 8199 \/ c = 8200 \/ c = 8201 \/
               c = 8202 \/ c = 8232 \/ c = 8233 \/ c = 8239 \/ c = 8287 \/
               c = 12288).
  { unfold isspace in Hs. unfold json_ws in Hj.
    repeat rewrite orb_false_iff in Hj. repeat rewrite N.eqb_neq in Hj.
    repeat rewrite orb_true_iff in Hs. repeat rewrite andb_true_iff in Hs.
    repeat rewrite N.leb_le in Hs. repeat rewrite N.eqb_eq in Hs. lia. }
  repeat (destruct Hc as [->|Hc]; [reflexivity|]). subst c. reflexivity.
Qed.

Lemma skip_ws_padded ws rest :
  all_space ws = true ->
  skip_ws (ws ++ 123 :: rest) = 123 :: rest \/
  exists c t, skip_ws (ws ++ 123 :: rest) = c :: t /\
              isspace c = true /\ json_ws c = false.
Proof.
  unfold all_space, skip_ws.
  induction ws as [|c ws IH]; intros H; [now left|].
  cbn [forallb] in H. apply andb_true_iff in H. destruct H as [Hc Hws].
  cbn [app dropwhile]. destruct (json_ws c) eqn:Hj; [now apply IH|].
  right. exists c, (ws ++ 123 :: rest). auto.
Qed.

Lemma json_loads_padded L ws rest v :
  all_space ws = true -> json_loads L (ws ++ 123 :: rest) = Ret v ->
  exists d, v = PyDict d.
Proof.
  intros Hws H.
  destruct (@skip_ws_padded ws rest Hws) as [Hs|(c & t & Hs & Hc & Hj)].
  - now apply json_loads_object with (1 := Hs) (2 := H).
  - exfalso. unfold json_loads in H.
    destruct (startswith (ws ++ 123 :: rest) [65279]); [discriminate|].
    rewrite Hs, scan_once_space in H by assumption. discriminate.
Qed.

Lemma rstrip_prefix s : exists suf, s = rstrip s ++ suf.
Proof.
  induction s as [|c t [suf IH]]; [now exists []|].
  cbn [rstrip]. destruct (rstrip t) as [|y r].
  - destruct (isspace c); [now exists (c :: t)|].
    exists suf. cbn [app] in *. now f_equal.
  - exists suf. cbn [app] in *. now f_equal.
Qed.

Lemma lstrip_split s : exists ws, all_space ws = true /\ s = ws ++ lstrip s.
Proof.
  unfold lstrip, all_space. induction s as [|c t (ws & Hws & IH)]; [now exists []|].
  cbn [dropwhile]. destruct (isspace c) eqn:Hc.
  - exists (c :: ws). cbn [forallb app]. rewrite Hc, Hws. split; [reflexivity|].
    now f_equal.
  - now exists [].
Qed.

(** A line that [strip] makes open with a brace is white space, a brace
    and a rest. *)
Lemma brace_line l :
  startswith (strip l) (py "{") = true ->
  exists ws r, all_space ws = true /\ l = ws ++ 123 :: r.
Proof.
  intros H. apply startswith_iff in H. destruct H as [t Ht].
  destruct (lstrip_split l) as (ws & Hws & Hl).
  destruct (rstrip_prefix (lstrip l)) as [suf Hsuf].
  unfold strip in Ht. rewrite Ht in Hsuf.
  exists ws, (t ++ suf). split; [exact Hws|].
  rewrite Hl at 1. rewrite Hsuf. reflexivity.
Qed.

Lemma find_json_start_line content_lines :
  forall i a,
    find_json_start content_lines i = a -> a <> (-1)%Z -> (0 <= i)%Z ->
    (i <= a)%Z /\
    exists l0 more,
      skipn (Z.to_nat (a - i)) content_lines = l0 :: more /\
      startswith (strip l0) (py "{") = true.
Proof.
  induction content_lines as [|line rest IH]; intros i a H Ha Hi; cbn [find_json_start] in H.
  - congruence.
  - destruct (startswith (strip line) (py "{")) eqn:E.
    + subst a. split; [lia|]. rewrite Z.sub_diag. exists line, rest. auto.
    + destruct (IH (i + 1)%Z a H Ha) as (Hle & l0 & more & Hsk & Hl0); [lia|].
      split; [lia|]. exists l0, more. split; [|exact Hl0].
      replace (Z.to_nat (a - i)) with (S (Z.to_nat (a - (i + 1)))) by lia.
      exact Hsk.
Qed.

(** The text the third strategy hands to the decoder is empty, or opens
    with white space and a brace. *)
Lemma line_range_text content text :
  tier_candidate LineRange content = Some text ->
  text = [] \/ exists ws r, all_space ws = true /\ text = ws ++ 123 :: r.
Proof.
  cbn [tier_candidate]. cbv zeta.
  set (content_lines := split_lines (strip content)).
  destruct (Z.eqb_spec (find_json_start content_lines 0) (-1)) as [|Hs];
    [discriminate|].
  cbn [negb andb].
  destruct (negb (find_json_end content_lines =? -1)%Z); [|discriminate].
  intros H. injection H as <-.
  destruct (@find_json_start_line content_lines 0%Z _ eq_refl Hs) as (_ & l0 & more & Hsk & Hl0);
    [lia|].
  unfold slice. rewrite Z.sub_0_r in Hsk. rewrite Hsk.
  destruct (Z.to_nat (_ + 1 - _)) as [|n]; [left; reflexivity|]. right.
  destruct (@brace_line l0 Hl0) as (ws & r & Hws & ->).
  cbn [firstn join].
  destruct (firstn n more) as [|l1 ls].
  - exists ws, r. auto.
  - exists ws, (r ++ [10] ++ join [10] (l1 :: ls)). split; [exact Hws|].
    now rewrite <- app_assoc.
Qed.

(** The second and the third strategy return objects only. *)
Lemma later_tiers_objects L t content v :
  t = FencedBlock \/ t = LineRange ->
  tier_result L t content = Parsed v -> exists d, v = PyDict d.
Proof.
  unfold tier_result. intros [->| ->].
  - cbn [tier_candidate].
    destruct (re_search json_pattern content) as [cap|] eqn:E; [|discriminate].
    apply re_search_capture in E. destruct E as [g ->].
    destruct (json_loads L (123 :: g)) as [x|e] eqn:El;
      [|destruct (exn_class_eqb (exn_cls e) JSONDecodeError); discriminate].
    intros H. injection H as <-.
    eapply json_loads_object with (2 := El). reflexivity.
  - destruct (tier_candidate LineRange content) as [text|] eqn:E; [|discriminate].
    destruct (json_loads L text) as [x|e] eqn:El;
      [|destruct (exn_class_eqb (exn_cls e) JSONDecodeError); discriminate].
    intros H. injection H as <-.
    apply line_range_text in E. destruct E as [->|(ws & r & Hws & ->)].
    + discriminate El.
    + now apply json_loads_padded with (1 := Hws) (2 := El).
Qed.

End TierFacts.
Import TierFacts.

(* ===================================================================== *)
(** * Facts the claims lean on                                           *)
(* ===================================================================== *)

Module ClaimFacts.





(** A value has one cell. *)
Lemma stored_as_fun v c1 c2 : stored_as v c1 -> stored_as v c2 -> c1 = c2.
Proof.
  intros H1 H2. destruct H1; inversion H2; subst; try reflexivity; congruence.
Qed.

(** Values that can be held are bound, whatever the positions. *)
Lemma bind_params_storable vs : forall pos,
  Forall storable vs ->
  exists xs, bind_params pos vs = Ret xs /\ length xs = length vs.
Proof.
  induction vs as [|v vs IH]; intros pos H; [now exists []|].
  inversion H as [|? ? [cell Hv] Hvs]; subst.
  destruct (@bind_stored_as pos v cell Hv) as (x & Hx & _).
  destruct (IH (S pos) Hvs) as (xs & Hxs & Hl).
  exists (x :: xs). cbn [bind_params bindR length]. rewrite Hx. cbn [bindR].
  rewrite Hxs. cbn [bindR]. auto.
Qed.

(** Values that were bound can be held. *)
Lemma bind_params_bound vs : forall pos xs,
  bind_params pos vs = Ret xs -> Forall storable vs.
Proof.
  induction vs as [|v vs IH]; intros pos xs H; [constructor|].
  cbn [bind_params] in H. apply bindR_Ret in H. destruct H as (x & Hx & H).
  apply bindR_Ret in H. destruct H as (xs' & Hxs & _).
  constructor; [|exact (IH _ _ Hxs)].
  exists (text_affinity x). exact (@stored_as_bind _ _ _ Hx).
Qed.

Lemma entry_fields_storable d names :
  Forall (fun name => storable (dict_get d (py name))) names ->
  Forall storable (List.map (fun name => dict_get d (py name)) names).
Proof. intros H. now apply Forall_map. Qed.

(** An entry that is an object whose fields can be held is inserted. *)
Lemma insert_entry_storable k id d conn :
  Forall (fun name => storable (dict_get d (py name))) (fields_of k) ->
  exists conn', insert_entry k id (PyDict d) conn = Ret conn'.
Proof.
  intros H. apply entry_fields_storable in H.
  destruct k; cbn [fields_of] in H; unfold insert_entry;
    rewrite entry_gets_dict; cbn [bindR];
    destruct (@bind_params_storable _ 2%nat H) as (xs & Hxs & _).
  - unfold insert_index1. rewrite Hxs. cbn [bindR]. eauto.
  - unfold insert_index2. rewrite Hxs. cbn [bindR]. eauto.
Qed.

Lemma insert_entries_storable k id items :
  Forall (fun item =>
            exists d, item = PyDict d /\
                      Forall (fun name => storable (dict_get d (py name)))
                             (fields_of k)) items ->
  forall conn, exists conn', insert_entries k id items conn = Ret conn'.
Proof.
  induction 1 as [|item items (d & -> & Hd) _ IH]; intros conn;
    cbn [insert_entries]; [eauto|].
  destruct (@insert_entry_storable k id d conn Hd) as (conn1 & ->). cbn [bindR].
  apply IH.
Qed.

(** A write whose conditions are met reaches its commit. *)
Lemma writable_commits E k json_data image_path items w :
  writable E k json_data image_path items ->
  exists w', insert_to_sqlite E k json_data image_path w = (Ret tt, w').
Proof.
  intros (Hc & (cell & Ht & Hnn) & Hf & Hp & He & Hitems).
  unfold insert_to_sqlite, connect_and_write. rewrite Hc. cbn [bindR].
  unfold transaction.
  assert (Hall : Forall storable
            [ dict_get json_data (py "document_type");
              dict_get json_data (py "year");
              dict_get json_data (py "office_location");
              dict_get json_data (py "confidence");
              dict_get json_data (py "extraction_notes");
              PyStr image_path ]).
  { inversion Hf as [|? ? F1 Hf1]; subst. inversion Hf1 as [|? ? F2 Hf2]; subst.
    inversion Hf2 as [|? ? F3 Hf3]; subst. inversion Hf3 as [|? ? F4 _]; subst.
    repeat constructor; try assumption. now exists cell. }
  destruct (@bind_params_storable _ 1%nat Hall) as (xs & Hxs & Hl).
  assert (H0 : nth_val xs 0 <> SqlNull).
  { intros Hn.
    pose proof (@bind_params_stored 1 _ xs 0 Hxs ltac:(cbn; lia)) as Hs.
    cbn [nth] in Hs. unfold text_cell in Hs. rewrite Hn in Hs.
    apply Hnn. exact (stored_as_fun Ht Hs). }
  assert (H5 : nth_val xs 5 <> SqlNull).
  { intros Hn.
    pose proof (@bind_params_stored 1 _ xs 5 Hxs ltac:(cbn; lia)) as Hs.
    cbn [nth] in Hs. unfold text_cell in Hs. rewrite Hn in Hs.
    apply stored_as_text in Hs. discriminate. }
  unfold insert_document. rewrite Hxs. cbn [bindR].
  destruct (nth_val xs 0) eqn:E0; try contradiction;
    destruct (nth_val xs 5) eqn:E5; try contradiction;
    cbn [not_null bindR]; rewrite He; cbn [py_iter bindR];
    match goal with
    | |- context [insert_entries k ?id items ?c] =>
        destruct (@insert_entries_storable k id items Hitems c) as (conn' & ->)
    end; eauto.
Qed.

End ClaimFacts.
Import ClaimFacts.

(* ===================================================================== *)
(** * The claims of the specification                                    *)
(* ===================================================================== *)




(** C2, as the claim has it, fails twice.  What the Extractor returns need
    not be a JSON object: on the text [[1, 2]] the direct parse succeeds
    and the Extractor returns a list, which is neither an object nor None.
    And the Extractor can raise: the three [try] blocks handle
    [json.JSONDecodeError] alone, so on a text of 991 opening brackets, in
    an interpreter that allows 990 nested calls, the [RecursionError] of
    [json.loads] leaves the function. *)
Lemma C2_counterexample :
  let E := env_const PyNone [] in
  fst (extract_json_from_response E (py "[1, 2]") world0)
  = Ret (PyList [PyInt 1; PyInt 2])
  /\ (forall d, PyList [PyInt 1; PyInt 2] <> PyDict d)
  /\ PyList [PyInt 1; PyInt 2] <> PyNone
  /\ recursion_budget (py_limits E) = 990%nat
  /\ fst (extract_json_from_response E (repeat 91%N 991) world0)
     = Raise (recursion_error "array").
Proof.
  cbv zeta. split; [reflexivity|]. split; [intros d H; discriminate|].
  split; [discriminate|]. split; [reflexivity|]. vm_compute. reflexivity.
Qed.

(** C2, amended: on every string the Extractor either returns Python's
    None, or returns the value the decoder parsed from a text a strategy
    handed to it (a JSON object, or whatever other JSON value that text
    is), or lets through the exception the decoder raised on such a text
    when that exception is not a [JSONDecodeError]: a [RecursionError] or
    the [ValueError] of the digit limit.  It does not touch the database.
    [extract_document] returns a dict on every file, never an exception;
    when the reply is a text from which the three strategies extract
    nothing, that dict has [parsing_error] set to True, an [error] message
    and the reply itself under [raw_content]; when the Extractor raised,
    the dict has an [error] that says Unexpected error and carries the
    message of the exception. *)
Theorem C2_never_raises :
  forall E content w,
    (exists r evs,
        extract_json_from_response E content w = (r, log_add w evs) /\
        match r with
        | Ret v =>
            v = PyNone \/
            exists text, In (EvJsonLoads text) evs /\
                         json_loads (py_limits E) text = Ret v
        | Raise e =>
            limit_error e /\
            exists text, In (EvJsonLoads text) evs /\
                         json_loads (py_limits E) text = Raise e
        end)
    /\ (forall p k, exists r w', extract_document E p k w = (Ret r, w'))
    /\ (forall p k,
          model_content E p k = Some (PyStr content) ->
          fst (extract_json_from_response E content w) = Ret PyNone ->
          exists r w',
            extract_document E p k w = (Ret r, w') /\
            w_db w' = w_db w /\
            r = parsing_failure E p k content /\
            dict_lookup r (py "parsing_error") = Some (PyBool true) /\
            dict_has r (py "error") = true /\
            dict_lookup r (py "raw_content") = Some (PyStr content))
    /\ (forall p k e,
          model_content E p k = Some (PyStr content) ->
          fst (extract_json_from_response E content w) = Raise e ->
          exists w',
            extract_document E p k w =
              (Ret (error_result E p k (py "Unexpected error: " ++ exn_msg e)), w') /\
            w_db w' = w_db w).
Proof.
  intros E content w. split; [|split; [|split]].
  - rewrite extract_first_success.
    pose proof (first_success_decoded (py_limits E) three_tiers content) as H.
    destruct (first_success (py_limits E) three_tiers content) as [r evs].
    exists r, evs. split; [reflexivity|exact H].
  - intros p k. apply extract_document_returns.
  - intros p k Hm Hnone.
    rewrite extract_first_success in Hnone.
    rewrite (extract_document_reply _ _ _ _ Hm), handle_content_run.
    destruct (first_success (py_limits E) three_tiers content) as [v evs].
    cbn [fst snd] in *. subst v.
    eexists _, _. split; [reflexivity|].
    repeat split; reflexivity.
  - intros p k e Hm Hraise.
    rewrite extract_first_success in Hraise.
    rewrite (extract_document_reply _ _ _ _ Hm), handle_content_run.
    pose proof (first_success_decoded (py_limits E) three_tiers content) as H.
    destruct (first_success (py_limits E) three_tiers content) as [v evs].
    cbn [fst snd] in *. subst v. destruct H as [Hlim _].
    eexists. split.
    + cbv zeta. unfold handler_message.
      destruct Hlim as [Hc|Hc]; rewrite Hc; reflexivity.
    + reflexivity.
Qed.

Lemma C2_never_raises_witness :
  let content := py "I could not read this page." in
  let deep := repeat 91%N 991 in
  let p := py "/data/index1/a.jpg" in
  (exists r w',
      extract_document (env_const (PyStr content) []) p INDEX_1 world0 = (Ret r, w') /\
      w_db w' = w_db world0 /\
      r = parsing_failure (env_const (PyStr content) []) p INDEX_1 content /\
      dict_lookup r (py "parsing_error") = Some (PyBool true) /\
      dict_has r (py "error") = true /\
      dict_lookup r (py "raw_content") = Some (PyStr content))
  /\ (exists w',
        extract_document (env_const (PyStr deep) []) p INDEX_1 world0 =
          (Ret (error_result (env_const (PyStr deep) []) p INDEX_1
                  (py "Unexpected error: " ++ exn_msg (recursion_error "array"))), w') /\
        w_db w' = w_db world0).
Proof.
  intros content deep p. split.
  - apply (proj1 (proj2 (proj2 (C2_never_raises (env_const (PyStr content) [])
                                  content world0))) p INDEX_1); reflexivity.
  - apply (proj2 (proj2 (proj2 (C2_never_raises (env_const (PyStr deep) [])
                                  deep world0))) p INDEX_1 (recursion_error "array"));
      [reflexivity|vm_compute; reflexivity].
Defined.

(** C3, as the claim has it, fails: an object whose [entries] array holds
    one item that is a string gets no Entry row and no Document row (the
    item has no [get], the commit is not reached), and an object with zero
    entries and no [document_type] gets no Document row (the column is NOT
    NULL). *)
Lemma C3_counterexample :
  let E := env_const PyNone [] in
  let path := py "/data/index1/a.jpg" in
  let one := [ (py "document_type", PyStr (py "INDEX_1"));
               (py "entries", PyList [PyStr (py "row 1")]) ] in
  let zero := [ (py "entries", PyList []) ] in
  json_loads (py_limits E) (js "{'document_type':'INDEX_1','entries':['row 1']}")
  = Ret (PyDict one)
  /\ (exists e, insert_to_sqlite E INDEX_1 one path world0 = (Raise e, world0))
  /\ json_loads (py_limits E) (js "{'entries':[]}") = Ret (PyDict zero)
  /\ (exists e, insert_to_sqlite E INDEX_1 zero path world0 = (Raise e, world0))
  /\ documents (w_db world0) = [] /\ index1_entries (w_db world0) = [].
Proof.
  cbv zeta. split; [reflexivity|]. split; [eexists; reflexivity|].
  split; [reflexivity|]. split; [eexists; reflexivity|]. split; reflexivity.
Qed.

(** C3, amended: for every parsed JSON object whose [entries] array has N
    items (none when the key is absent), a write of the Record Writer that
    succeeds commits exactly one Document row and exactly N Entry rows in
    the table of the kind, each referencing the identifier of that Document
    row, and leaves the table of the other kind as it was; a write in which
    a statement raises commits nothing: the database and the trace are as
    they were.  The write succeeds when the database can be opened, the
    object has a [document_type] that is stored as something other than
    NULL, its other top-level fields and the path can be stored, every
    item is an object and every field of every item can be stored; so for
    a kind-A object with a text for [document_type] and zero entries it
    creates one Document row and no Entry row. *)
Theorem C3_writer_rows :
  forall E k json_data image_path w,
    (forall items w',
        dict_get_default json_data (py "entries") (PyList []) = PyList items ->
        insert_to_sqlite E k json_data image_path w = (Ret tt, w') ->
        w_log w' = w_log w ++ [EvCommit] /\
        exists doc,
          gained (documents (w_db w)) (documents (w_db w')) [doc] /\
          match k with
          | INDEX_1 =>
              exists rows,
                gained (index1_entries (w_db w)) (index1_entries (w_db w')) rows /\
                length rows = length items /\
                Forall (fun r => i1_document_id r = doc_id doc) rows /\
                index2_entries (w_db w') = index2_entries (w_db w)
          | INDEX_2 =>
              exists rows,
                gained (index2_entries (w_db w)) (index2_entries (w_db w')) rows /\
                length rows = length items /\
                Forall (fun r => i2_document_id r = doc_id doc) rows /\
                index1_entries (w_db w') = index1_entries (w_db w)
          end)
    /\ (forall e w',
          insert_to_sqlite E k json_data image_path w = (Raise e, w') -> w' = w)
    /\ (forall items,
          writable E k json_data image_path items ->
          exists w', insert_to_sqlite E k json_data image_path w = (Ret tt, w')).
Proof.
  intros E k json_data image_path w. split; [|split].
  - intros items w' Hitems H.
    unfold insert_to_sqlite in H.
    destruct (connect_and_write E k json_data image_path (w_db w)) as [conn|e] eqn:Et;
      [|discriminate].
    injection H as <-. simpl w_db. split; [reflexivity|].
    apply connect_and_write_Ret, transaction_rows in Et.
    destruct Et as (doc & entries & He & Hd & _ & Hk).
    rewrite Hitems in He. simpl in He. injection He as <-.
    exists doc. split; [exact Hd|exact Hk].
  - intros e w' H. unfold insert_to_sqlite in H.
    destruct (connect_and_write E k json_data image_path (w_db w)); [discriminate|].
    now injection H.
  - intros items H. now apply writable_commits with (items := items).
Qed.

Lemma C3_writer_rows_witness :
  let E := env_const PyNone [] in
  let zero := [ (py "document_type", PyStr (py "INDEX_1"));
                (py "entries", PyList []) ] in
  let two := [ (py "document_type", PyStr (py "INDEX_2"));
               (py "year", PyInt 1965);
               (py "entries",
                PyList [ PyDict [ (py "serial_number", PyInt 1);
                                  (py "Pargana/Town/Thana", PyStr (py "Ausgram")) ];
                         PyDict [ (py "serial_number", PyInt 2) ] ]) ] in
  let items := [ PyDict [ (py "serial_number", PyInt 1);
                          (py "Pargana/Town/Thana", PyStr (py "Ausgram")) ];
                 PyDict [ (py "serial_number", PyInt 2) ] ] in
  let w1 := snd (insert_to_sqlite E INDEX_1 zero (py "/data/index1/a.jpg") world0) in
  let w2 := snd (insert_to_sqlite E INDEX_2 two (py "/data/index2/b.jpg") w1) in
  (exists w', insert_to_sqlite E INDEX_1 zero (py "/data/index1/a.jpg") world0
              = (Ret tt, w'))
  /\ (w_log w1 = w_log world0 ++ [EvCommit] /\
      exists doc,
        gained (documents (w_db world0)) (documents (w_db w1)) [doc] /\
        exists rows,
          gained (index1_entries (w_db world0)) (index1_entries (w_db w1)) rows /\
          length rows = 0%nat /\
          Forall (fun r => i1_document_id r = doc_id doc) rows /\
          index2_entries (w_db w1) = index2_entries (w_db world0))
  /\ (exists w', insert_to_sqlite E INDEX_2 two (py "/data/index2/b.jpg") w1
                 = (Ret tt, w'))
  /\ (w_log w2 = w_log w1 ++ [EvCommit] /\
      exists doc,
        gained (documents (w_db w1)) (documents (w_db w2)) [doc] /\
        exists rows,
          gained (index2_entries (w_db w1)) (index2_entries (w_db w2)) rows /\
          length rows = 2%nat /\
          Forall (fun r => i2_document_id r = doc_id doc) rows /\
          index1_entries (w_db w2) = index1_entries (w_db w1)).
Proof.
  intros E zero two items w1 w2.
  assert (Htext : forall s, existsb is_surrogate s = false -> storable (PyStr s)).
  { intros s Hs. exists (SqlText s). constructor.
    apply Forall_forall. intros c Hc. apply is_surrogate_false.
    destruct (is_surrogate c) eqn:Ec; [|reflexivity].
    assert (existsb is_surrogate s = true)
      by (apply existsb_exists; exists c; auto). congruence. }
  assert (Hnone : storable PyNone) by (exists SqlNull; constructor).
  assert (Hint : forall z, (- 2 ^ 63 <= z < 2 ^ 63)%Z -> storable (PyInt z)).
  { intros z Hz. eexists. now constructor. }
  assert (Hall : forall (d : dict) names,
             Forall (fun name => dict_get d (py name) = PyNone \/
                                 (exists s, dict_get d (py name) = PyStr s /\
                                            existsb is_surrogate s = false) \/
                                 (exists z, dict_get d (py name) = PyInt z /\
                                            (- 2 ^ 63 <= z < 2 ^ 63)%Z)) names ->
             Forall (fun name => storable (dict_get d (py name))) names).
  { intros d names. apply Forall_impl.
    intros name [->|[(s & -> & Hs)|(z & -> & Hz)]]; auto. }
  assert (Htype : forall t, existsb is_surrogate t = false ->
                            exists cell, stored_as (PyStr t) cell /\ cell <> SqlNull).
  { intros t Ht. destruct (Htext t Ht) as [cell Hcell]. exists cell.
    split; [exact Hcell|]. apply stored_as_text in Hcell. subst. discriminate. }
  split; [|split; [|split]].
  - apply (proj2 (proj2 (C3_writer_rows E INDEX_1 zero (py "/data/index1/a.jpg")
                           world0)) []).
    split; [reflexivity|]. split; [now apply Htype|].
    split; [apply Hall; repeat constructor|].
    split; [now apply Htext|]. split; [reflexivity|constructor].
  - apply (proj1 (C3_writer_rows E INDEX_1 zero (py "/data/index1/a.jpg") world0)
                 [] w1); reflexivity.
  - apply (proj2 (proj2 (C3_writer_rows E INDEX_2 two (py "/data/index2/b.jpg")
                           w1)) items).
    split; [reflexivity|]. split; [now apply Htype|].
    split.
    { apply Hall. constructor; [|repeat constructor].
      right. right. exists 1965%Z. split; [reflexivity|lia]. }
    split; [now apply Htext|]. split; [reflexivity|].
    constructor; [|constructor; [|constructor]]; eexists; (split; [reflexivity|]);
      apply Hall.
    + constructor; [right; right; exists 1%Z; split; [reflexivity|lia]|].
      constructor; [now left|].
      constructor; [right; left; eexists; split; reflexivity|].
      repeat constructor.
    + constructor; [right; right; exists 2%Z; split; [reflexivity|lia]|].
      repeat constructor.
  - apply (proj1 (C3_writer_rows E INDEX_2 two (py "/data/index2/b.jpg") w1)
                 items w2); reflexivity.
Defined.

(** C4: in both loops the Batch Driver counts a result as failed exactly
    when it carries an [error] key or a [parsing_error] flag that is true
    in Python's sense, and counts every other result as successful.  The
    test gives the expected answer on each of the results made by hand;
    recording a result appends it to the list of its kind and adds one to
    the failed counter of that kind when the result is failed, to the
    successful counter when it is not, and leaves every other counter as it
    was; and in the results of a batch that returns, the two lists hold the
    results of the files handed to [extract_document], in that order, and
    the four counters are the numbers of failed and of other results in
    the lists. *)
Theorem C4_failure_classification :
  (forall r, is_failed r = true <-> carries_failure r)
  /\ Forall (fun fixture => is_failed (fst fixture) = snd fixture) result_fixtures
  /\ (forall k r results,
        let after := record_result k r results in
        let s := summary results in
        let failed := if is_failed r then 1%nat else 0%nat in
        let successful := if is_failed r then 0%nat else 1%nat in
        batch_info after = batch_info results /\
        match k with
        | INDEX_1 =>
            index1_results after = index1_results results ++ [r] /\
            index2_results after = index2_results results /\
            summary after =
              {| index1_successful := (index1_successful s + successful)%nat;
                 index1_failed := (index1_failed s + failed)%nat;
                 index2_successful := index2_successful s;
                 index2_failed := index2_failed s |}
        | INDEX_2 =>
            index1_results after = index1_results results /\
            index2_results after = index2_results results ++ [r] /\
            summary after =
              {| index1_successful := index1_successful s;
                 index1_failed := index1_failed s;
                 index2_successful := (index2_successful s + successful)%nat;
                 index2_failed := (index2_failed s + failed)%nat |}
        end)
  /\ (forall E f1 f2 delay w res w',
        process_batch_documents E f1 f2 delay w = (Ret res, w') ->
        exists files1 files2,
          processed (w_log w') =
            processed (w_log w) ++
            List.map (pair INDEX_1) files1 ++ List.map (pair INDEX_2) files2 /\
          Forall2 (result_of E INDEX_1) files1 (index1_results res) /\
          Forall2 (result_of E INDEX_2) files2 (index2_results res) /\
          index1_failed (summary res) = count is_failed (index1_results res) /\
          index1_successful (summary res) =
            count (fun r => negb (is_failed r)) (index1_results res) /\
          index2_failed (summary res) = count is_failed (index2_results res) /\
          index2_successful (summary res) =
            count (fun r => negb (is_failed r)) (index2_results res)).
Proof.
  split; [apply is_failed_iff|].
  split; [repeat constructor|].
  split.
  { intros k r results. cbv zeta. split; [now destruct k|].
    destruct k; unfold record_result;
      cbn [index1_results index2_results summary];
      (split; [reflexivity|]); (split; [reflexivity|]);
      destruct (is_failed r); f_equal; lia. }
  intros E f1 f2 delay w res w'. rewrite process_batch_run.
  assert (Hnone : forall evs,
             processed evs = [] ->
             (Ret (initial_results E), log_add w evs) = (Ret res, w') ->
             exists files1 files2,
               processed (w_log w') =
                 processed (w_log w) ++
                 List.map (pair INDEX_1) files1 ++ List.map (pair INDEX_2) files2 /\
               Forall2 (result_of E INDEX_1) files1 (index1_results res) /\
               Forall2 (result_of E INDEX_2) files2 (index2_results res) /\
               index1_failed (summary res) = count is_failed (index1_results res) /\
               index1_successful (summary res) =
                 count (fun r => negb (is_failed r)) (index1_results res) /\
               index2_failed (summary res) = count is_failed (index2_results res) /\
               index2_successful (summary res) =
                 count (fun r => negb (is_failed r)) (index2_results res)).
  { intros evs Hevs H. injection H as <- <-. exists [], [].
    cbn [w_log log_add]. rewrite processed_app, Hevs.
    repeat split; constructor. }
  destruct (listdir E f1) as [names1|e1]; [|now apply Hnone].
  destruct (listdir E f2) as [names2|e2]; [|now apply Hnone].
  clear Hnone.
  destruct (run_loops_run E delay (sort (selected f1 names1))
              (sort (selected f2 names2)) (log_add w [EvListdir f1; EvListdir f2]))
    as (out & evs & db' & Hrun & Hout).
  rewrite Hrun. intros H. injection H as -> <-.
  destruct Hout as (_ & _ & (blocks1 & blocks2 & B1 & B2 & ->) & rs1 & rs2 & -> & F1 & F2).
  exists (sort (selected f1 names1)), (sort (selected f2 names2)).
  set (r0 := set_totals _ _ _).
  pose proof (record_all_index1 rs1 r0) as A. cbv zeta in A.
  pose proof (record_all_index2 rs2 (record_all INDEX_1 rs1 r0)) as B.
  cbv zeta in B.
  destruct A as (A1 & A2 & A3 & A4 & A5 & A6 & _).
  destruct B as (B1' & B2' & B3 & B4 & B5 & B6 & _).
  rewrite B1', B2', B3, B4, B5, B6, A1, A2, A3, A4, A5, A6.
  subst r0. cbn [w_log log_add]. split.
  { rewrite !processed_app, (processed_interleave delay B1),
      (processed_interleave delay B2). cbn [processed].
    now rewrite !app_nil_r. }
  simpl. repeat split; assumption.
Qed.

Lemma C4_failure_classification_witness :
  let good := js "{'document_type':'INDEX_1','entries':[]}" in
  let reply := fun image_data : str =>
                 if endswith image_data (py "a.jpg") then PyStr good
                 else PyStr (py "I could not read this page.") in
  let E := env_by_file reply [py "b.png"; py "a.jpg"] in
  let out := process_batch_documents E (py "/data/index1/") (py "/data/index2/")
                                     2%N world0 in
  let res := match fst out with Ret r => r | Raise _ => initial_results E end in
  summary res = {| index1_successful := 1; index1_failed := 1;
                   index2_successful := 1; index2_failed := 1 |} /\
  exists files1 files2,
    processed (w_log (snd out)) =
      processed (w_log world0) ++
      List.map (pair INDEX_1) files1 ++ List.map (pair INDEX_2) files2 /\
    Forall2 (result_of E INDEX_1) files1 (index1_results res) /\
    Forall2 (result_of E INDEX_2) files2 (index2_results res) /\
    index1_failed (summary res) = count is_failed (index1_results res) /\
    index1_successful (summary res) =
      count (fun r => negb (is_failed r)) (index1_results res) /\
    index2_failed (summary res) = count is_failed (index2_results res) /\
    index2_successful (summary res) =
      count (fun r => negb (is_failed r)) (index2_results res).
Proof.
  intros good reply E out res. split; [vm_compute; reflexivity|].
  apply (proj2 (proj2 (proj2 C4_failure_classification))
               E (py "/data/index1/") (py "/data/index2/") 2%N world0 res (snd out)).
  vm_compute. reflexivity.
Defined.

(** C5, as the claim has it, fails: the parse attempt produces a JSON
    object, its one entry is a string, the Record Writer raises before the
    commit, and no Document row exists for the file. *)
Lemma C5_counterexample :
  let content := js "{'document_type':'INDEX_1','entries':['row 1']}" in
  let E := env_const (PyStr content) [] in
  let p := py "/data/index1/a.jpg" in
  parse_produced E p INDEX_1
    [ (py "document_type", PyStr (py "INDEX_1"));
      (py "entries", PyList [PyStr (py "row 1")]) ]
  /\ documents (w_db (snd (extract_document E p INDEX_1 world0))) = [].
Proof.
  cbv zeta. split; [|reflexivity].
  eexists _, world0. split; reflexivity.
Qed.

(** C5, amended: after processing any file, a Document row for that file
    has been added to the database if and only if the parse attempt on the
    model response produced a JSON object (even one with zero entries) and
    every statement of the Record Writer succeeded on it; otherwise the
    database is as it was before the file. *)
Theorem C5_document_row_iff :
  forall E p k w,
    let after := w_db (snd (extract_document E p k w)) in
    (document_added p (w_db w) after <->
     exists d, parse_produced E p k d /\
               exists conn,
                 connect_and_write E k (add_metadata E p k d) p (w_db w) = Ret conn)
    /\ (~ document_added p (w_db w) after -> after = w_db w).
Proof.
  intros E p k w after.
  assert (Hsame : ~ document_added p (w_db w) (w_db w)).
  { intros (row & Hrow & _). apply (f_equal (@length _)) in Hrow.
    rewrite length_app in Hrow. simpl in Hrow. lia. }
  pose proof (extract_document_db E p k w) as Hdb. fold after in Hdb.
  assert (Hpp : forall d, parse_produced E p k d <->
                          exists c, model_content E p k = Some (PyStr c) /\
                                    fst (first_success (py_limits E) three_tiers c)
                                    = Ret (PyDict d)).
  { intros d. unfold parse_produced. split.
    - intros (c & w0 & Hm & Hx). rewrite extract_first_success in Hx.
      exists c. split; [exact Hm|exact Hx].
    - intros (c & Hm & Hx). exists c, w. split; [exact Hm|].
      rewrite extract_first_success. exact Hx. }
  destruct (model_content E p k) as [[| | | |c| |]|] eqn:Em;
    try (rewrite Hdb; split; [|reflexivity]; split;
         [intros H; now apply Hsame in H
         |intros (d0 & Hp & _); apply Hpp in Hp;
          destruct Hp as (c' & Hc & _); discriminate]).
  destruct (fst (first_success (py_limits E) three_tiers c))
    as [[| | | | | |d]|e0] eqn:Ef;
    try (rewrite Hdb; split; [|reflexivity]; split;
         [intros H; now apply Hsame in H
         |intros (d' & Hp & _); apply Hpp in Hp;
          destruct Hp as (c' & Hc & Hx); injection Hc as <-;
          rewrite Ef in Hx; discriminate]).
  destruct (connect_and_write E k (add_metadata E p k d) p (w_db w)) as [conn|e] eqn:Et.
  - rewrite Hdb. split.
    + split.
      * intros _. exists d. split; [|eauto]. apply Hpp. eauto.
      * intros _. apply connect_and_write_Ret, transaction_rows in Et.
        destruct Et as (doc & entries & _ & Hd & Hsp & _).
        exists doc. split; assumption.
    + intros Hn. exfalso. apply Hn.
      apply connect_and_write_Ret, transaction_rows in Et.
      destruct Et as (doc & entries & _ & Hd & Hsp & _).
      exists doc. split; assumption.
  - rewrite Hdb. split; [|reflexivity]. split.
    + intros H. now apply Hsame in H.
    + intros (d' & Hp & conn & Hc). apply Hpp in Hp.
      destruct Hp as (c' & Hc' & Hx). injection Hc' as <-.
      rewrite Ef in Hx. injection Hx as <-. congruence.
Qed.

Lemma C5_document_row_iff_witness :
  let content := js "{'document_type':'INDEX_1','entries':[]}" in
  let E := env_const (PyStr content) [] in
  let p := py "/data/index1/a.jpg" in
  document_added p (w_db world0) (w_db (snd (extract_document E p INDEX_1 world0))).
Proof.
  intros content E p.
  apply (proj2 (proj1 (C5_document_row_iff E p INDEX_1 world0))).
  exists [ (py "document_type", PyStr (py "INDEX_1")); (py "entries", PyList []) ].
  split.
  - exists content, world0. split; reflexivity.
  - eexists. reflexivity.
Defined.

(** C6: the Extractor tries the direct parse of the trimmed text, then the
    fenced code block, then the line-range scan, in that order, and stops at
    the first strategy that succeeds: its outcome and the library calls it
    makes are those of [first_success] on the three strategies.  For the
    text [{"a":1}] on its own the single call it makes is the call of the
    decoder on the trimmed text: no search for a fence and no second
    decoding take place; and it returns that object, in every interpreter
    that allows the decoder one nested call. *)
Theorem C6_strict_order :
  forall E content w,
    extract_json_from_response E content w =
    (fst (first_success (py_limits E) three_tiers content),
     log_add w (snd (first_success (py_limits E) three_tiers content)))
    /\ snd (extract_json_from_response E (js "{'a':1}") w)
       = log_add w [EvJsonLoads (js "{'a':1}")]
    /\ ((1 <= recursion_budget (py_limits E))%nat ->
        extract_json_from_response E (js "{'a':1}") w =
        (Ret (PyDict [(py "a", PyInt 1)]), log_add w [EvJsonLoads (js "{'a':1}")])).
Proof.
  intros E content w. split; [apply extract_first_success|].
  rewrite extract_first_success.
  unfold three_tiers. cbn [first_success]. unfold tier_result, tier_events.
  cbn [tier_candidate].
  change (strip (js "{'a':1}")) with (js "{'a':1}").
  assert (Hl : json_loads (py_limits E) (js "{'a':1}") =
               match recursion_budget (py_limits E) with
               | O => Raise (recursion_error "object")
               | S _ => Ret (PyDict [(py "a", PyInt 1)])
               end).
  { unfold json_loads. destruct (recursion_budget (py_limits E)); reflexivity. }
  rewrite Hl. split.
  - destruct (recursion_budget (py_limits E)); reflexivity.
  - intros Hb. destruct (recursion_budget (py_limits E)); [lia|reflexivity].
Qed.

Lemma C6_strict_order_witness :
  extract_json_from_response (env_const PyNone []) (js "{'a':1}") world0 =
  (Ret (PyDict [(py "a", PyInt 1)]), log_add world0 [EvJsonLoads (js "{'a':1}")]).
Proof.
  apply (proj2 (proj2 (C6_strict_order (env_const PyNone []) [] world0))).
  change (1 <= 990)%nat. lia.
Defined.

(** C7, as the claim has it, fails: a serial number that the reply gives
    as the number 12 is stored as the text 12, since the columns of the
    entries are TEXT columns; and an entry whose [location] is a list is
    not stored at all: binding the list raises, so its missing fields are
    not stored as NULL either. *)
Lemma C7_counterexample :
  (exists conn' row,
      insert_entry INDEX_2 7 (PyDict [(py "serial_number", PyInt 12)]) empty_db
      = Ret conn' /\
      index2_entries conn' = [row] /\
      i2_serial_number row = SqlText (py "12") /\
      i2_serial_number row <> SqlInteger 12)
  /\ insert_entry INDEX_2 7 (PyDict [(py "location", PyList [])]) empty_db
     = Raise (Exn ProgrammingError
                  (py "Error binding parameter 5: type 'list' is not supported")).
Proof.
  split; [|reflexivity].
  eexists _, _. split; [reflexivity|]. split; [reflexivity|].
  split; [reflexivity|discriminate].
Qed.

(** C7, amended: for every entry item that is an object, the Record Writer
    looks up the fields by exact, case-sensitive name (for the third
    column of kind B the name is Pargana/Town/Thana with its two slashes)
    and checks nothing: when the insert succeeds, each column of the row
    holds what a TEXT column stores for the value bound to exactly that
    name (a text as it is, a number or a boolean as its text) and NULL when
    the entry has no binding of that name; and the insert succeeds exactly
    when every field of the entry has a value that a column can hold. *)
Theorem C7_exact_field_lookup :
  forall k document_id entry conn,
    (forall conn',
        insert_entry k document_id (PyDict entry) conn = Ret conn' ->
        match k with
        | INDEX_1 =>
            exists row,
              gained (index1_entries conn) (index1_entries conn') [row] /\
              i1_document_id row = document_id /\
              stores entry "serial_number" (i1_serial_number row) /\
              stores entry "name_of_person" (i1_name_of_person row) /\
              stores entry "family_details" (i1_family_details row) /\
              stores entry "police_station" (i1_police_station row) /\
              stores entry "religion" (i1_religion row) /\
              stores entry "occupation" (i1_occupation row) /\
              stores entry "interest_of_person" (i1_interest_of_person row) /\
              stores entry "where_registered" (i1_where_registered row) /\
              stores entry "book_1_volume" (i1_book_1_volume row) /\
              stores entry "book_2_page" (i1_book_2_page row)
        | INDEX_2 =>
            exists row,
              gained (index2_entries conn) (index2_entries conn') [row] /\
              i2_document_id row = document_id /\
              stores entry "serial_number" (i2_serial_number row) /\
              stores entry "property_name" (i2_property_name row) /\
              stores entry "Pargana/Town/Thana" (i2_pargana_town_thana row) /\
              stores entry "location" (i2_location row) /\
              stores entry "nature_of_transaction" (i2_nature_of_transaction row) /\
              stores entry "where_registered" (i2_where_registered row) /\
              stores entry "book_1_volume" (i2_book_1_volume row) /\
              stores entry "book_1_page" (i2_book_1_page row)
        end)
    /\ ((exists conn', insert_entry k document_id (PyDict entry) conn = Ret conn') <->
        Forall (fun name => storable (dict_get entry (py name))) (fields_of k)).
Proof.
  intros k document_id entry conn. split.
  - intros conn' H. destruct k.
    + apply insert_entry_index1 in H.
      destruct H as (row & Hrow & (d & Hd & Hcells) & _ & Hid & _).
      injection Hd as <-. exists row. split; [exact Hrow|]. split; assumption.
    + apply insert_entry_index2 in H.
      destruct H as (row & Hrow & (d & Hd & Hcells) & _ & Hid & _).
      injection Hd as <-. exists row. split; [exact Hrow|]. split; assumption.
  - split; [|apply insert_entry_storable].
    intros (conn' & H). apply Forall_map.
    destruct k; unfold insert_entry in H; rewrite entry_gets_dict in H;
      cbn [bindR] in H; cbn [fields_of].
    + unfold insert_index1 in H. apply bindR_Ret in H.
      destruct H as (xs & Hxs & _). exact (@bind_params_bound _ _ _ Hxs).
    + unfold insert_index2 in H. apply bindR_Ret in H.
      destruct H as (xs & Hxs & _). exact (@bind_params_bound _ _ _ Hxs).
Qed.

Lemma C7_exact_field_lookup_witness :
  let entry := [ (py "serial_number", PyInt 12);
                 (py "pargana/town/thana", PyStr (py "lower case"));
                 (py "Pargana/Town/Thana", PyStr (py "Ausgram"));
                 (py "location", PyBool true);
                 (py "book_1_volume", PyFloat (py "1.5")) ] in
  let conn' := {| documents := []; index1_entries := [];
                  index2_entries :=
                    [ {| i2_id := 1; i2_document_id := 7;
                         i2_serial_number := SqlText (py "12");
                         i2_property_name := SqlNull;
                         i2_pargana_town_thana := SqlText (py "Ausgram");
                         i2_location := SqlText (py "1");
                         i2_nature_of_transaction := SqlNull;
                         i2_where_registered := SqlNull;
                         i2_book_1_volume := SqlRealText (py "1.5");
                         i2_book_1_page := SqlNull |} ];
                  seq_documents := 0; seq_index1 := 0; seq_index2 := 1 |} in
  exists row,
    gained (index2_entries empty_db) (index2_entries conn') [row] /\
    i2_document_id row = 7%Z /\
    stores entry "serial_number" (i2_serial_number row) /\
    stores entry "property_name" (i2_property_name row) /\
    stores entry "Pargana/Town/Thana" (i2_pargana_town_thana row) /\
    stores entry "location" (i2_location row) /\
    stores entry "nature_of_transaction" (i2_nature_of_transaction row) /\
    stores entry "where_registered" (i2_where_registered row) /\
    stores entry "book_1_volume" (i2_book_1_volume row) /\
    stores entry "book_1_page" (i2_book_1_page row).
Proof.
  intros entry conn'.
  apply (proj1 (C7_exact_field_lookup INDEX_2 7%Z entry empty_db) conn').
  reflexivity.
Defined.

(** C8: names that end in .jpg, .jpeg or .png are selected whatever the
    case of their letters; a directory with b.png, a.jpg and c.jpeg is
    sorted as a.jpg, b.png, c.jpeg, and when the model's replies have a
    list under [entries] the Batch Driver processes the files of the first
    directory in that order and then those of the second.  When the
    replies have null under [entries], it processes a.jpg only: the Record
    Writer's failure is recorded under [database_error], the result is
    counted as successful, and the count of its entries for the progress
    line raises TypeError out of the batch, so that b.png, c.jpeg and the
    second directory are never processed and no summary is written. *)
Theorem C8_batch_stops_on_null_entries :
  let names := [py "b.png"; py "a.jpg"; py "c.jpeg"] in
  let f1 := py "/data/index1/" in
  let f2 := py "/data/index2/" in
  let listed := env_const (PyStr (js "{'document_type':'INDEX_1','entries':[]}")) names in
  let null := env_const (PyStr (js "{'document_type':'INDEX_1','entries':null}")) names in
  selected f1 [py "A.JPG"; py "notes.txt"; py "c.Jpeg"; py "d.PNG"; py "jpg"] =
    [py "/data/index1/A.JPG"; py "/data/index1/c.Jpeg"; py "/data/index1/d.PNG"]
  /\ sort (selected f1 names) =
     [py "/data/index1/a.jpg"; py "/data/index1/b.png"; py "/data/index1/c.jpeg"]
  /\ processed (w_log (snd (process_batch_documents listed f1 f2 2%N world0))) =
     [ (INDEX_1, py "/data/index1/a.jpg"); (INDEX_1, py "/data/index1/b.png");
       (INDEX_1, py "/data/index1/c.jpeg");
       (INDEX_2, py "/data/index2/a.jpg"); (INDEX_2, py "/data/index2/b.png");
       (INDEX_2, py "/data/index2/c.jpeg") ]
  /\ fst (process_batch_documents null f1 f2 2%N world0) =
     Raise (Exn TypeError (py "object of type 'NoneType' has no len()"))
  /\ processed (w_log (snd (process_batch_documents null f1 f2 2%N world0))) =
     [ (INDEX_1, py "/data/index1/a.jpg") ]
  /\ count_events is_dump (w_log (snd (process_batch_documents null f1 f2 2%N world0)))
     = 0%nat
  /\ exists r w',
       extract_document null (py "/data/index1/a.jpg") INDEX_1 world0 = (Ret r, w') /\
       is_failed r = false /\
       dict_lookup r (py "database_error") =
         Some (PyStr (py "'NoneType' object is not iterable")).
Proof.
  cbv zeta. split; [vm_compute; reflexivity|].
  split; [vm_compute; reflexivity|]. split; [vm_compute; reflexivity|].
  split; [vm_compute; reflexivity|]. split; [vm_compute; reflexivity|].
  split; [vm_compute; reflexivity|].
  eexists _, _. split; [vm_compute; reflexivity|]. split; vm_compute; reflexivity.
Qed.

(** C9: if listing either input directory fails, the Batch Driver returns
    the summary it started from, with every count at zero and both lists of
    results empty, without raising, having processed no file and left the
    database as it was. *)
Theorem C9_listing_failure :
  forall E f1 f2 delay w,
    (exists e, listdir E f1 = Raise e) \/ (exists e, listdir E f2 = Raise e) ->
    exists res evs,
      process_batch_documents E f1 f2 delay w = (Ret res, log_add w evs) /\
      res = initial_results E /\
      processed evs = [] /\
      total_index1_docs (batch_info res) = 0 /\
      total_index2_docs (batch_info res) = 0 /\
      total_docs (batch_info res) = 0 /\
      index1_results res = [] /\ index2_results res = [] /\
      summary res = {| index1_successful := 0; index1_failed := 0;
                       index2_successful := 0; index2_failed := 0 |}.
Proof.
  intros E f1 f2 delay w H. rewrite process_batch_run.
  destruct (listdir E f1) as [names1|e1].
  - destruct (listdir E f2) as [names2|e2].
    + exfalso. destruct H as [[e H]|[e H]]; discriminate.
    + eexists _, _. split; [reflexivity|]. repeat split; reflexivity.
  - eexists _, _. split; [reflexivity|]. repeat split; reflexivity.
Qed.

Lemma C9_listing_failure_witness :
  let E := {| read_image := fun _ => Ret (py "QUJD");
              http_post := fun _ _ => Ret PyNone;
              sqlite3_connect := fun _ => Ret tt;
              listdir := fun folder =>
                           if str_eqb folder (py "/data/index2/")
                           then Raise (Exn OSError (py "No such file or directory"))
                           else Ret [py "a.jpg"];
              now := py "2025-09-10T00:00:00";
              py_limits := default_limits |} in
  exists res evs,
    process_batch_documents E (py "/data/index1/") (py "/data/index2/") 2%N world0
    = (Ret res, log_add world0 evs) /\
    res = initial_results E /\
    processed evs = [] /\
    total_index1_docs (batch_info res) = 0 /\
    total_index2_docs (batch_info res) = 0 /\
    total_docs (batch_info res) = 0 /\
    index1_results res = [] /\ index2_results res = [] /\
    summary res = {| index1_successful := 0; index1_failed := 0;
                     index2_successful := 0; index2_failed := 0 |}.
Proof.
  intros E.
  apply (@C9_listing_failure E (py "/data/index1/") (py "/data/index2/") 2%N world0).
  right. eexists. reflexivity.
Defined.

(** C10, as the claim has it, fails in its last part: the model's object
    carries an [error] key of its own, the Record Writer raises on the
    entry that is a string, nothing is committed, the message goes under
    [database_error], and the Batch Driver counts the result as failed. *)
Lemma C10_counterexample :
  let content :=
    js "{'document_type':'INDEX_1','entries':['row 1'],'error':'page unreadable'}" in
  let E := env_const (PyStr content) [] in
  let out := extract_document E (py "/data/index1/a.jpg") INDEX_1 world0 in
  exists r,
    fst out = Ret r /\
    w_db (snd out) = w_db world0 /\
    dict_has r (py "database_error") = true /\
    is_failed r = true.
Proof.
  cbv zeta. eexists. split; [reflexivity|].
  split; [reflexivity|]. split; reflexivity.
Qed.

(** C10, amended: if a statement of the Record Writer raises for a file
    whose reply parsed to a JSON object, nothing of that file is committed
    (the commit is not reached and the database is as it was), the message
    is recorded on the returned object under [database_error], the Record
    Writer adds no [error] key, and the Batch Driver classifies the result
    as successful unless the model's own object carries an [error] key or
    a true [parsing_error]. *)
Theorem C10_database_error :
  forall E p k d w e,
    parse_produced E p k d ->
    connect_and_write E k (add_metadata E p k d) p (w_db w) = Raise e ->
    exists r evs,
      extract_document E p k w = (Ret r, log_add w evs) /\
      ~ In EvCommit evs /\
      dict_lookup r (py "database_error") = Some (PyStr (exn_msg e)) /\
      dict_has r (py "error") = dict_has d (py "error") /\
      is_failed r = (dict_has d (py "error") || truthy (dict_get d (py "parsing_error")))
      /\ (dict_has d (py "error") = false ->
          truthy (dict_get d (py "parsing_error")) = false ->
          is_failed r = false).
Proof.
  intros E p k d w e (c & w0 & Hm & Hx) Ht.
  rewrite extract_first_success in Hx.
  rewrite (extract_document_reply _ _ _ _ Hm), handle_content_run.
  pose proof (first_success_probes (py_limits E) three_tiers c) as Hp.
  destruct (first_success (py_limits E) three_tiers c) as [v evs].
  cbn [fst snd] in *. subst v. cbv zeta.
  simpl w_db. rewrite Ht.
  exists (dict_set (add_metadata E p k d) (py "database_error") (PyStr (exn_msg e))).
  exists ([EvDocument k p; EvPost k p] ++ evs).
  split; [now rewrite log_add_add|].
  assert (Herr : dict_lookup
                   (dict_set (add_metadata E p k d) (py "database_error")
                      (PyStr (exn_msg e))) (py "error")
                 = dict_lookup d (py "error")).
  { rewrite dict_lookup_set_other by (apply py_neq; reflexivity).
    apply dict_lookup_add_metadata; apply py_neq; reflexivity. }
  assert (Hpe : dict_lookup
                  (dict_set (add_metadata E p k d) (py "database_error")
                     (PyStr (exn_msg e))) (py "parsing_error")
                = dict_lookup d (py "parsing_error")).
  { rewrite dict_lookup_set_other by (apply py_neq; reflexivity).
    apply dict_lookup_add_metadata; apply py_neq; reflexivity. }
  assert (Hfail : is_failed
                    (dict_set (add_metadata E p k d) (py "database_error")
                       (PyStr (exn_msg e)))
                  = (dict_has d (py "error") || truthy (dict_get d (py "parsing_error")))).
  { unfold is_failed, dict_has, dict_get. now rewrite Herr, Hpe. }
  split.
  { intros [H|[H|H]]; try discriminate.
    rewrite forallb_forall in Hp. apply Hp in H. discriminate. }
  split; [apply dict_lookup_set_same|].
  split; [unfold dict_has; now rewrite Herr|].
  split; [exact Hfail|].
  intros H1 H2. now rewrite Hfail, H1, H2.
Qed.

Lemma C10_database_error_witness :
  let content := js "{'document_type':'INDEX_1','entries':['row 1']}" in
  let d := [ (py "document_type", PyStr (py "INDEX_1"));
             (py "entries", PyList [PyStr (py "row 1")]) ] in
  let E := env_const (PyStr content) [] in
  let p := py "/data/index1/a.jpg" in
  let e := Exn AttributeError (py "'str' object has no attribute 'get'") in
  exists r evs,
    extract_document E p INDEX_1 world0 = (Ret r, log_add world0 evs) /\
    ~ In EvCommit evs /\
    dict_lookup r (py "database_error") = Some (PyStr (exn_msg e)) /\
    dict_has r (py "error") = dict_has d (py "error") /\
    is_failed r = (dict_has d (py "error") || truthy (dict_get d (py "parsing_error")))
    /\ (dict_has d (py "error") = false ->
        truthy (dict_get d (py "parsing_error")) = false ->
        is_failed r = false).
Proof.
  intros content d E p e.
  apply (@C10_database_error E p INDEX_1 d world0 e).
  - exists content, world0. split; reflexivity.
  - reflexivity.
Defined.


(** X1: a text with no opening brace, or with no closing brace, gets the
    direct parse alone, and the Extractor ends in one of three ways.  It
    returns what [json.loads] makes of the trimmed text.  When the decoder
    refuses the text with JSONDecodeError, the pattern is searched once and
    finds no block, the line scan finds no range and hands nothing to the
    decoder, and the result is None.  When the decoder raises another
    exception (RecursionError for brackets nested beyond the interpreter's
    limit, ValueError for an integer of too many digits), nothing catches
    it: the Extractor raises it after that single call, without a search. *)
Theorem extractor_without_braces :
  forall E content w,
    lacks 123 content = true \/ lacks 125 content = true ->
    extract_json_from_response E content w =
    match json_loads (py_limits E) (strip content) with
    | Ret v => (Ret v, log_add w [EvJsonLoads (strip content)])
    | Raise e =>
        if exn_class_eqb (exn_cls e) JSONDecodeError
        then (Ret PyNone,
              log_add w [EvJsonLoads (strip content); EvReSearch content])
        else (Raise e, log_add w [EvJsonLoads (strip content)])
    end.
Proof.
  intros E content w H.
  rewrite extract_first_success, first_success_no_brace by exact H.
  destruct (json_loads (py_limits E) (strip content)) as [v|e]; [reflexivity|].
  destruct (exn_class_eqb (exn_cls e) JSONDecodeError); reflexivity.
Qed.

Lemma extractor_without_braces_witness :
  let E := env_const PyNone [] in
  let prose := py "The page has 12 rows } but no table" in
  let deep := repeat 91%N 991 in
  extract_json_from_response E (py " [1, 2] ") world0 =
    (Ret (PyList [PyInt 1; PyInt 2]), log_add world0 [EvJsonLoads (py "[1, 2]")])
  /\ extract_json_from_response E prose world0 =
     (Ret PyNone, log_add world0 [EvJsonLoads prose; EvReSearch prose])
  /\ extract_json_from_response E deep world0 =
     (Raise (recursion_error "array"), log_add world0 [EvJsonLoads deep]).
Proof.
  intros E prose deep.
  pose proof (@extractor_without_braces E (py " [1, 2] ") world0) as H1.
  pose proof (@extractor_without_braces E prose world0) as H2.
  pose proof (@extractor_without_braces E deep world0) as H3.
  split; [|split].
  - rewrite H1 by (left; reflexivity). vm_compute. reflexivity.
  - rewrite H2 by (left; reflexivity). vm_compute. reflexivity.
  - rewrite H3 by (left; vm_compute; reflexivity). vm_compute. reflexivity.
Defined.

(** X2: an empty reply, or one of white space only, is a parsing failure:
    the decoder is called once, on the empty text, the pattern is searched
    once, and the Extractor returns None. *)
Theorem extractor_blank_text :
  forall E content w,
    all_space content = true ->
    extract_json_from_response E content w =
    (Ret PyNone, log_add w [EvJsonLoads []; EvReSearch content]).
Proof.
  intros E content w H.
  rewrite extract_first_success, first_success_no_brace
    by (left; apply all_space_lacks; [reflexivity|exact H]).
  rewrite strip_all_space by exact H.
  unfold json_loads. destruct (recursion_budget (py_limits E)); reflexivity.
Qed.

Lemma extractor_blank_text_witness :
  let content := py "   " in
  extract_json_from_response (env_const PyNone []) content world0 =
  (Ret PyNone, log_add world0 [EvJsonLoads []; EvReSearch content]).
Proof.
  intros content.
  apply (extractor_blank_text (env_const PyNone []) content world0). reflexivity.
Defined.

(** X3: whatever happens to a file, [extract_document] returns a dict
    whose [source_path] is the path it was given, whose [index_type] is the
    kind it was given and whose [processed_at] is the time of the call; a
    JSON object of the model that has entries of these names of its own has
    them overwritten. *)
Theorem result_metadata :
  forall E p k w,
    exists r w',
      extract_document E p k w = (Ret r, w') /\ has_metadata E p k r.
Proof.
  intros E p k w.
  destruct (extract_document_cases E p k w) as (r & evs & db' & Hrun & Hcase).
  exists r, {| w_db := db'; w_log := w_log w ++ EvDocument k p :: evs |}.
  split; [exact Hrun|].
  destruct Hcase as [(e & _ & _ & _ & ->)|[(probes & _ & _ & _ & _ & _ & Hr)|Hc]].
  - apply has_metadata_error.
  - destruct Hr as [(m & ->)|[(c & _ & ->)|(d & e & _ & _ & ->)]].
    + apply has_metadata_error.
    + apply has_metadata_parsing.
    + apply has_metadata_database_error.
  - destruct Hc as (probes & d & _ & _ & _ & _ & _ & _ & ->).
    apply has_metadata_add.
Qed.

(** X4: a result the callers do not count as failed always comes from a
    JSON object that the Extractor got out of the reply: it is that object
    with the metadata, after a committed write, or that object with the
    metadata and a [database_error], with the database as it was.  No
    failure of the image, of the request or of the parsing gives such a
    result. *)
Theorem unfailed_result_origin :
  forall E p k w r w',
    extract_document E p k w = (Ret r, w') ->
    is_failed r = false ->
    exists d,
      parse_produced E p k d /\
      ((r = add_metadata E p k d /\
        connect_and_write E k (add_metadata E p k d) p (w_db w) = Ret (w_db w'))
       \/ (exists e,
             connect_and_write E k (add_metadata E p k d) p (w_db w) = Raise e /\
             r = dict_set (add_metadata E p k d) (py "database_error")
                          (PyStr (exn_msg e)) /\
             w_db w' = w_db w)).
Proof.
  intros E p k w r w' Hrun Hok.
  destruct (extract_document_cases E p k w) as (r0 & evs & db' & Hrun0 & Hcase).
  rewrite Hrun in Hrun0. injection Hrun0 as -> ->. simpl w_db.
  destruct Hcase as [(e & _ & _ & _ & ->)|[(probes & _ & _ & _ & _ & Hdb & Hr)|Hc]].
  - rewrite is_failed_error in Hok. discriminate.
  - destruct Hr as [(m & ->)|[(c & _ & ->)|(d & e & Hd & Hw & ->)]].
    + rewrite is_failed_error in Hok. discriminate.
    + rewrite is_failed_parsing in Hok. discriminate.
    + exists d. split; [exact Hd|]. right. exists e. auto.
  - destruct Hc as (probes & d & _ & _ & _ & _ & Hd & Hw & ->).
    exists d. split; [exact Hd|]. left. auto.
Qed.

Lemma unfailed_result_origin_witness :
  let content := js "{'document_type':'INDEX_1','entries':[]}" in
  let E := env_const (PyStr content) [] in
  let p := py "/data/index1/a.jpg" in
  let d0 := [ (py "document_type", PyStr (py "INDEX_1")); (py "entries", PyList []) ] in
  let r := add_metadata E p INDEX_1 d0 in
  let w' := snd (extract_document E p INDEX_1 world0) in
  exists d,
    parse_produced E p INDEX_1 d /\
    ((r = add_metadata E p INDEX_1 d /\
      connect_and_write E INDEX_1 (add_metadata E p INDEX_1 d) p (w_db world0)
      = Ret (w_db w'))
     \/ (exists e,
           connect_and_write E INDEX_1 (add_metadata E p INDEX_1 d) p (w_db world0)
           = Raise e /\
           r = dict_set (add_metadata E p INDEX_1 d) (py "database_error")
                        (PyStr (exn_msg e)) /\
           w_db w' = w_db world0)).
Proof.
  intros content E p d0 r w'.
  apply (@unfailed_result_origin E p INDEX_1 world0 r w'); reflexivity.
Defined.

(** X5: one call of [extract_document] makes at most one request, at most
    three calls of [json.loads], at most one search of the pattern and at
    most one commit, and nothing else: it does not sleep, list a folder or
    write a summary, and it never asks twice.  Without a request nothing is
    parsed or written, and without a commit the database is as it was. *)
Theorem file_protocol :
  forall E p k w,
    exists r evs db',
      extract_document E p k w =
        (Ret r, {| w_db := db'; w_log := w_log w ++ EvDocument k p :: evs |}) /\
      forallb is_file_event evs = true /\
      (count_events is_post evs <= 1)%nat /\
      (count_events is_loads evs <= 3)%nat /\
      (count_events is_search evs <= 1)%nat /\
      (count_events is_commit evs <= 1)%nat /\
      (count_events is_post evs = 0%nat -> evs = []) /\
      (count_events is_commit evs = 0%nat -> db' = w_db w).
Proof.
  intros E p k w.
  destruct (extract_document_cases E p k w) as (r & evs & db' & Hrun & Hcase).
  exists r, evs, db'. split; [exact Hrun|].
  destruct Hcase as [(e & _ & -> & -> & _)|[(probes & -> & Hp & Hl & Hs & -> & _)|Hc]].
  - cbv. repeat split; auto.
  - destruct (probes_counts _ Hp) as [P C].
    rewrite !count_events_cons, P, C. cbn [is_post is_loads is_search is_commit].
    cbn [forallb is_file_event]. rewrite (probe_file_event _ Hp).
    repeat split; lia.
  - destruct Hc as (probes & d & -> & Hp & Hl & Hs & _ & _ & _).
    destruct (probes_counts _ Hp) as [P C].
    rewrite !count_events_cons, !count_events_app, P, C.
    cbn [is_post is_loads is_search is_commit forallb is_file_event].
    rewrite forallb_app, (probe_file_event _ Hp).
    change (count_events is_loads [EvCommit]) with 0%nat.
    change (count_events is_search [EvCommit]) with 0%nat.
    change (count_events is_commit [EvCommit]) with 1%nat.
    change (count_events is_post [EvCommit]) with 0%nat.
    repeat split; lia.
Qed.

(** X6: when the image cannot be read and encoded, no request is sent:
    the result carries the message of the exception after the words Image
    encoding error, nothing is parsed and the database is not opened. *)
Theorem unreadable_image :
  forall E p k w e,
    read_image E p = Raise e ->
    extract_document E p k w =
    (Ret (error_result E p k (py "Image encoding error: " ++ exn_msg e)),
     log_add w [EvDocument k p]).
Proof.
  intros E p k w e H. now apply extract_document_unreadable.
Qed.

Lemma unreadable_image_witness :
  let e := Exn OSError (py "No such file or directory") in
  let E := {| read_image := fun _ => Raise e;
              http_post := fun _ _ => Ret PyNone;
              sqlite3_connect := fun _ => Ret tt;
              listdir := fun _ => Ret [];
              now := py "2025-09-10T00:00:00";
              py_limits := default_limits |} in
  let p := py "/data/index1/a.jpg" in
  extract_document E p INDEX_1 world0 =
  (Ret (error_result E p INDEX_1 (py "Image encoding error: " ++ exn_msg e)),
   log_add world0 [EvDocument INDEX_1 p]).
Proof.
  intros e E p. apply (@unreadable_image E p INDEX_1 world0 e). reflexivity.
Defined.

(** X7: a reply from which the Extractor gets a JSON value that is
    neither an object nor null (an array, a string, a number, a boolean)
    fails at the first metadata assignment: the file gets a result with an
    [error] of the form Unexpected error followed by the message of the
    TypeError, the database is not opened, and nothing is committed. *)
Theorem non_object_reply :
  forall E p k w c v,
    model_content E p k = Some (PyStr c) ->
    fst (first_success (py_limits E) three_tiers c) = Ret v ->
    v <> PyNone -> (forall d, v <> PyDict d) ->
    exists message,
      message = exn_msg (no_item_assignment v) /\
      extract_document E p k w =
      (Ret (error_result E p k (py "Unexpected error: " ++ message)),
       log_add w (EvDocument k p :: EvPost k p ::
                  snd (first_success (py_limits E) three_tiers c))).
Proof.
  intros E p k w c v Em Hv Hnone Hdict.
  rewrite extract_document_reply with (content := PyStr c) by exact Em.
  rewrite handle_content_run, Hv. cbv zeta.
  assert (Hlog : log_add (log_add w [EvDocument k p; EvPost k p])
                         (snd (first_success (py_limits E) three_tiers c)) =
                 log_add w (EvDocument k p :: EvPost k p ::
                            snd (first_success (py_limits E) three_tiers c))).
  { unfold log_add. simpl. now rewrite <- app_assoc. }
  rewrite Hlog.
  destruct v; try (eexists; split; reflexivity).
  - now contradiction Hnone.
  - now contradiction (Hdict d).
Qed.

Lemma non_object_reply_witness :
  let c := py "[1, 2]" in
  let E := env_const (PyStr c) [] in
  let p := py "/data/index1/a.jpg" in
  exists message,
    message = py "list indices must be integers or slices, not str" /\
    extract_document E p INDEX_1 world0 =
    (Ret (error_result E p INDEX_1 (py "Unexpected error: " ++ message)),
     log_add world0 (EvDocument INDEX_1 p :: EvPost INDEX_1 p ::
                     snd (first_success (py_limits E) three_tiers c))).
Proof.
  intros c E p.
  apply (@non_object_reply E p INDEX_1 world0 c (PyList [PyInt 1; PyInt 2]));
    [reflexivity|reflexivity|discriminate|discriminate].
Defined.

(** X8: when the Record Writer commits, the Entry rows it adds stand in
    the order of the items of [entries]: the first new row stores the
    fields of the first item, the second those of the second, and so on;
    every item was a JSON object, and each cell holds what a TEXT column
    stores for the value bound to exactly the name of its field (a text as
    it is, a number or a boolean as its text), NULL when the item has no
    such name. *)
Theorem entry_rows_in_order :
  forall E k json_data image_path w w',
    insert_to_sqlite E k json_data image_path w = (Ret tt, w') ->
    exists entries,
      py_iter (dict_get_default json_data (py "entries") (PyList [])) = Ret entries /\
      match k with
      | INDEX_1 =>
          exists rows,
            index1_entries (w_db w') = index1_entries (w_db w) ++ rows /\
            Forall2 row1_of entries rows
      | INDEX_2 =>
          exists rows,
            index2_entries (w_db w') = index2_entries (w_db w) ++ rows /\
            Forall2 row2_of entries rows
      end.
Proof.
  intros E k json_data image_path w w' H.
  unfold insert_to_sqlite in H.
  destruct (connect_and_write E k json_data image_path (w_db w)) as [conn|e] eqn:Et;
    [|discriminate].
  injection H as <-. simpl w_db.
  apply connect_and_write_Ret, transaction_detail in Et.
  destruct Et as (doc & entries & He & _ & _ & _ & _ & Hk).
  exists entries. split; [exact He|].
  destruct k; destruct Hk as ((rows & Hrows & Hall & _) & _); exists rows; auto.
Qed.

Lemma entry_rows_in_order_witness :
  let E := env_const PyNone [] in
  let p := py "/data/index2/a.jpg" in
  let json_data :=
    [ (py "document_type", PyStr (py "INDEX_2"));
      (py "entries",
       PyList [ PyDict [ (py "serial_number", PyInt 1);
                         (py "Pargana/Town/Thana", PyStr (py "Ausgram"));
                         (py "book_1_page", PyBool false) ];
                PyDict [ (py "serial_number", PyStr (py "2")) ] ]) ] in
  let w' := snd (insert_to_sqlite E INDEX_2 json_data p world0) in
  List.map (fun row => (i2_serial_number row, i2_pargana_town_thana row,
                        i2_book_1_page row))
           (index2_entries (w_db w')) =
    [ (SqlText (py "1"), SqlText (py "Ausgram"), SqlText (py "0"));
      (SqlText (py "2"), SqlNull, SqlNull) ]
  /\ exists entries,
    py_iter (dict_get_default json_data (py "entries") (PyList [])) = Ret entries /\
    exists rows,
      index2_entries (w_db w') = index2_entries (w_db world0) ++ rows /\
      Forall2 row2_of entries rows.
Proof.
  intros E p json_data w'. split; [reflexivity|].
  apply (@entry_rows_in_order E INDEX_2 json_data p world0 w'). reflexivity.
Defined.

(** X9: the Document row of a committed write takes the identifier after
    the table's counter and stores the five top-level fields
    [document_type], [year], [office_location], [confidence] and
    [extraction_notes] of the object, each as what a TEXT column stores
    for the value bound to exactly that name (a text as it is, a number or
    a boolean as its text) and NULL when the object has none, next to the
    path of the file; its [document_type] is not NULL. *)
Theorem document_row_fields :
  forall E k json_data image_path w w',
    insert_to_sqlite E k json_data image_path w = (Ret tt, w') ->
    exists doc,
      documents (w_db w') = documents (w_db w) ++ [doc] /\
      document_of json_data image_path doc /\
      doc_id doc = (seq_documents (w_db w) + 1)%Z.
Proof.
  intros E k json_data image_path w w' H.
  unfold insert_to_sqlite in H.
  destruct (connect_and_write E k json_data image_path (w_db w)) as [conn|e] eqn:Et;
    [|discriminate].
  injection H as <-. simpl w_db.
  apply connect_and_write_Ret, transaction_detail in Et.
  destruct Et as (doc & entries & _ & Hd & Hof & Hid & _).
  exists doc. auto.
Qed.

Lemma document_row_fields_witness :
  let E := env_const PyNone [] in
  let p := py "/data/index1/a.jpg" in
  let json_data :=
    [ (py "document_type", PyStr (py "INDEX_1")); (py "year", PyInt 1965);
      (py "confidence", PyFloat (py "0.5")) ] in
  let w' := snd (insert_to_sqlite E INDEX_1 json_data p world0) in
  List.map (fun doc => (doc_document_type doc, doc_year doc, doc_confidence doc,
                        doc_extraction_notes doc))
           (documents (w_db w')) =
    [ (SqlText (py "INDEX_1"), SqlText (py "1965"), SqlRealText (py "0.5"), SqlNull) ]
  /\ exists doc,
    documents (w_db w') = documents (w_db world0) ++ [doc] /\
    document_of json_data p doc /\
    doc_id doc = (seq_documents (w_db world0) + 1)%Z.
Proof.
  intros E p json_data w'. split; [reflexivity|].
  apply (@document_row_fields E INDEX_1 json_data p world0 w'). reflexivity.
Defined.

(** X10: no entry point changes or removes a row.  After one file, after
    a whole batch (also one that ends in an exception), after a task of the
    DAG for one kind and after a single test, each of the three tables is
    the table as it was with rows added at its end. *)
Theorem database_append_only :
  forall E w,
    (forall p k, append_only (w_db w) (w_db (snd (extract_document E p k w)))) /\
    (forall f1 f2 delay,
        append_only (w_db w)
                    (w_db (snd (process_batch_documents E f1 f2 delay w)))) /\
    (forall k dirname,
        append_only (w_db w) (w_db (snd (process_index_only E k dirname w)))) /\
    (forall p k, append_only (w_db w) (w_db (snd (test_single_document E p k w)))).
Proof.
  intros E w.
  pose proof append_only_refl as A. pose proof append_only_trans as B.
  pose proof transaction_append_only as C.
  split; [|split; [|split]]; intros.
  - now apply extract_document_keeps.
  - now apply process_batch_keeps.
  - now apply process_index_only_keeps.
  - now apply test_single_document_keeps.
Qed.

(** X11: every entry point keeps the keys sound: when the identifiers of
    each table are distinct and not above the table's counter and every
    Entry row names a Document row that exists, the same holds after one
    file, after a batch however it ends, after a task of the DAG for one
    kind and after a single test. *)
Theorem database_integrity :
  forall E w,
    integrity (w_db w) ->
    (forall p k, integrity (w_db (snd (extract_document E p k w)))) /\
    (forall f1 f2 delay,
        integrity (w_db (snd (process_batch_documents E f1 f2 delay w)))) /\
    (forall k dirname, integrity (w_db (snd (process_index_only E k dirname w)))) /\
    (forall p k, integrity (w_db (snd (test_single_document E p k w)))).
Proof.
  intros E w H.
  set (R := fun a b : database => integrity a -> integrity b).
  assert (A : forall db, R db db) by (intros db Hdb; exact Hdb).
  assert (B : forall a b c, R a b -> R b c -> R a c) by (unfold R; auto).
  assert (C : forall k j p c c', transaction k j p c = Ret c' -> R c c').
  { intros k j p c c' Ht. unfold R. intros Hc. eapply integrity_transaction; eassumption. }
  split; [|split; [|split]]; intros.
  - exact (extract_document_keeps R A C E p k w H).
  - exact (process_batch_keeps R A B C E f1 f2 delay w H).
  - exact (process_index_only_keeps R A B C E k dirname w H).
  - exact (test_single_document_keeps R A C E p k w H).
Qed.

Lemma database_integrity_witness :
  let content := js "{'document_type':'INDEX_1','entries':[{'serial_number':'1'}]}" in
  let E := env_const (PyStr content) [py "a.jpg"; py "b.png"] in
  (forall p k, integrity (w_db (snd (extract_document E p k world0)))) /\
  (forall f1 f2 delay,
      integrity (w_db (snd (process_batch_documents E f1 f2 delay world0)))) /\
  (forall k dirname, integrity (w_db (snd (process_index_only E k dirname world0)))) /\
  (forall p k, integrity (w_db (snd (test_single_document E p k world0)))).
Proof.
  intros content E. apply (@database_integrity E world0).
  unfold integrity, keys_ok, references_ok, ids_ok. simpl.
  repeat split; try constructor; intros ? [].
Defined.

(** X12: the statement that counts the entries of an unfailed result
    changes nothing in a batch that returns: whenever
    [process_batch_documents] returns, the batch without that statement,
    [process_batch_documents_uncounted], returns the same results and
    leaves the same database and the same trace. *)
Theorem batch_returns_as_counted :
  forall E f1 f2 delay w res w',
    process_batch_documents E f1 f2 delay w = (Ret res, w') ->
    process_batch_documents_uncounted E f1 f2 delay w = (Ret res, w').
Proof.
  intros E f1 f2 delay w res w'.
  rewrite process_batch_run, process_batch_uncounted_run.
  destruct (listdir E f1) as [names1|e1]; [|auto].
  destruct (listdir E f2) as [names2|e2]; [|auto].
  destruct (run_loops_run E delay (sort (selected f1 names1))
              (sort (selected f2 names2)) (log_add w [EvListdir f1; EvListdir f2]))
    as (out & evs & db' & Hrun & Hout).
  rewrite Hrun. intros H. injection H as -> <-.
  destruct Hout as (Habs & _). exact Habs.
Qed.

Lemma batch_returns_as_counted_witness :
  let content := js "{'document_type':'INDEX_1','entries':[]}" in
  let E := env_const (PyStr content) [py "a.jpg"; py "b.png"] in
  let f1 := py "/data/index1/" in
  let f2 := py "/data/index2/" in
  let out := process_batch_documents E f1 f2 2%N world0 in
  let res := match fst out with Ret r => r | Raise _ => initial_results E end in
  process_batch_documents_uncounted E f1 f2 2%N world0 = (Ret res, snd out).
Proof.
  intros content E f1 f2 out res.
  apply (@batch_returns_as_counted E f1 f2 2%N world0 res (snd out)).
  vm_compute. reflexivity.
Defined.



(** X14: the whole trace of a batch that returns.  It lists folder 1,
    then folder 2, before any file; then come the files of folder 1 in
    sorted order, each as one block (the entry into [extract_document] for
    the file followed by the events of that call only), with one sleep of
    the delay between a block and the next and none after the last; then
    the files of folder 2 in the same way, with no sleep between the
    folders; and the summary is written last.  So in a folder with n
    selected files the batch sleeps n - 1 times. *)
Theorem batch_schedule :
  forall E f1 f2 delay w names1 names2 res w',
    listdir E f1 = Ret names1 ->
    listdir E f2 = Ret names2 ->
    process_batch_documents E f1 f2 delay w = (Ret res, w') ->
    exists blocks1 blocks2,
      Forall2 (file_block INDEX_1) (sort (selected f1 names1)) blocks1 /\
      Forall2 (file_block INDEX_2) (sort (selected f2 names2)) blocks2 /\
      w_log w' =
        w_log w ++ [EvListdir f1; EvListdir f2] ++
        interleave (EvSleep delay) blocks1 ++
        interleave (EvSleep delay) blocks2 ++ [EvDump] /\
      filter batch_level
             ([EvListdir f1; EvListdir f2] ++
              interleave (EvSleep delay) blocks1 ++
              interleave (EvSleep delay) blocks2 ++ [EvDump]) =
        [EvListdir f1; EvListdir f2] ++
        repeat (EvSleep delay) (pred (length (selected f1 names1))) ++
        repeat (EvSleep delay) (pred (length (selected f2 names2))) ++ [EvDump].
Proof.
  intros E f1 f2 delay w names1 names2 res w' L1 L2.
  rewrite process_batch_run, L1, L2.
  destruct (run_loops_run E delay (sort (selected f1 names1))
              (sort (selected f2 names2)) (log_add w [EvListdir f1; EvListdir f2]))
    as (out & evs & db' & Hrun & Hout).
  rewrite Hrun. intros H. injection H as -> <-.
  destruct Hout as (_ & Hs & (blocks1 & blocks2 & B1 & B2 & Hevs) & _).
  exists blocks1, blocks2. split; [exact B1|]. split; [exact B2|].
  cbn [w_log log_add]. rewrite <- Hevs. split; [now rewrite <- app_assoc|].
  rewrite filter_app, Hs.
  rewrite (Permutation_length (sort_perm (selected f1 names1))).
  rewrite (Permutation_length (sort_perm (selected f2 names2))).
  reflexivity.
Qed.

Lemma batch_schedule_witness :
  let content := js "{'document_type':'INDEX_1','entries':[]}" in
  let names := [py "b.png"; py "notes.txt"; py "a.jpg"; py "c.JPEG"] in
  let E := env_const (PyStr content) names in
  let f1 := py "/data/index1/" in
  let f2 := py "/data/index2/" in
  let out := process_batch_documents E f1 f2 2%N world0 in
  let res := match fst out with Ret r => r | Raise _ => initial_results E end in
  exists blocks1 blocks2,
    Forall2 (file_block INDEX_1) (sort (selected f1 names)) blocks1 /\
    Forall2 (file_block INDEX_2) (sort (selected f2 names)) blocks2 /\
    w_log (snd out) =
      w_log world0 ++ [EvListdir f1; EvListdir f2] ++
      interleave (EvSleep 2%N) blocks1 ++
      interleave (EvSleep 2%N) blocks2 ++ [EvDump] /\
    filter batch_level
           ([EvListdir f1; EvListdir f2] ++
            interleave (EvSleep 2%N) blocks1 ++
            interleave (EvSleep 2%N) blocks2 ++ [EvDump]) =
      [EvListdir f1; EvListdir f2] ++
      repeat (EvSleep 2%N) (pred (length (selected f1 names))) ++
      repeat (EvSleep 2%N) (pred (length (selected f2 names))) ++ [EvDump].
Proof.
  intros content names E f1 f2 out res.
  apply (@batch_schedule E f1 f2 2%N world0 names names res (snd out));
    [reflexivity|reflexivity|vm_compute; reflexivity].
Defined.

(** X15: one reply is enough to end a batch with an exception.  When a
    selected file of either folder has a reply from which the Extractor
    gets a JSON object whose [entries] is null, a number or a boolean, and
    the object has no [error] key and no true [parsing_error], the result
    of that file is not counted as failed, [len] refuses its entries, and
    [process_batch_documents] raises a TypeError: no results are returned
    and no summary is written. *)
Theorem batch_aborts_on_uncountable_entries :
  forall E f1 f2 delay w names1 names2 k p d v,
    listdir E f1 = Ret names1 ->
    listdir E f2 = Ret names2 ->
    In (k, p) (List.map (pair INDEX_1) (selected f1 names1) ++
               List.map (pair INDEX_2) (selected f2 names2)) ->
    parse_produced E p k d ->
    dict_lookup d (py "entries") = Some v ->
    sized v = false ->
    is_failed d = false ->
    exists e w',
      process_batch_documents E f1 f2 delay w = (Raise e, w') /\
      exn_cls e = TypeError /\
      count_events is_dump (w_log w') = count_events is_dump (w_log w).
Proof.
  intros E f1 f2 delay w names1 names2 k p d v L1 L2 Hin Hd Hv Hs Hf.
  pose proof (uncountable_result Hd Hv Hs Hf) as Hbad.
  rewrite process_batch_run, L1, L2.
  set (w0 := log_add w [EvListdir f1; EvListdir f2]).
  assert (Hraise : exists e w', run_loops E delay (sort (selected f1 names1))
                                  (sort (selected f2 names2)) w0 = (Raise e, w')).
  { unfold run_loops. unfold bind at 1.
    set (r0 := set_totals _ _ _).
    apply in_app_iff in Hin. destruct Hin as [Hin|Hin];
      apply in_map_iff in Hin; destruct Hin as (p' & Hp' & Hin);
      injection Hp' as <- ->.
    - destruct (@process_files_aborts E INDEX_1 delay
                  (sort (selected f1 names1)) p
                  (Permutation_in _ (Permutation_sym (sort_perm _)) Hin) Hbad r0 w0)
        as (e & w' & ->). eauto.
    - destruct (process_files E INDEX_1 delay (sort (selected f1 names1)) r0 w0)
        as [[res1|e1] w1]; [|eauto].
      unfold bind at 1.
      destruct (@process_files_aborts E INDEX_2 delay
                  (sort (selected f2 names2)) p
                  (Permutation_in _ (Permutation_sym (sort_perm _)) Hin) Hbad res1 w1)
        as (e & w' & ->). eauto. }
  destruct Hraise as (e & w' & Hraise).
  destruct (run_loops_run E delay (sort (selected f1 names1))
              (sort (selected f2 names2)) w0)
    as (out & evs & db' & Hrun & Hout).
  rewrite Hraise in Hrun. injection Hrun as <- ->.
  exists e, {| w_db := db'; w_log := w_log w0 ++ evs |}.
  split; [exact Hraise|]. destruct Hout as (Hc & Hdump & _).
  split; [exact Hc|]. subst w0. cbn [w_log log_add].
  rewrite !count_events_app, Hdump. cbv [count_events filter is_dump length]. lia.
Qed.

Lemma batch_aborts_on_uncountable_entries_witness :
  let content := js "{'document_type':'INDEX_1','entries':null}" in
  let names := [py "a.jpg"; py "b.png"] in
  let E := env_const (PyStr content) names in
  let f1 := py "/data/index1/" in
  let f2 := py "/data/index2/" in
  exists e w',
    process_batch_documents E f1 f2 2%N world0 = (Raise e, w') /\
    exn_cls e = TypeError /\
    count_events is_dump (w_log w') = count_events is_dump (w_log world0).
Proof.
  intros content names E f1 f2.
  apply (@batch_aborts_on_uncountable_entries E f1 f2 2%N world0 names names
           INDEX_1 (py "/data/index1/b.png")
           [ (py "document_type", PyStr (py "INDEX_1")); (py "entries", PyNone) ]
           PyNone);
    try reflexivity.
  - vm_compute. right. left. reflexivity.
  - exists content, world0. split; reflexivity.
Defined.

(** X16: the count of the entries is the only way a batch can raise
    (printing, which the model leaves out, apart).
    When [process_batch_documents] raises, both folders had been listed,
    the exception is a TypeError and no summary has been written.  The
    files processed are an initial part of the sorted selection of folder
    1 followed by the sorted selection of folder 2; the last of them is
    the file that ended the batch: the batch stops in the state in which
    [extract_document] returned the result of that file, a result that is
    not counted as failed, whose entries [len] refuses with that very
    exception, and which carries a [database_error]: a file whose write
    was committed never ends the batch. *)
Theorem batch_raises_only_on_count :
  forall E f1 f2 delay w e w',
    process_batch_documents E f1 f2 delay w = (Raise e, w') ->
    exn_cls e = TypeError /\
    count_events is_dump (w_log w') = count_events is_dump (w_log w) /\
    exists names1 names2 k p r w1 before after,
      listdir E f1 = Ret names1 /\ listdir E f2 = Ret names2 /\
      List.map (pair INDEX_1) (sort (selected f1 names1)) ++
      List.map (pair INDEX_2) (sort (selected f2 names2)) = before ++ (k, p) :: after /\
      processed (w_log w') = processed (w_log w) ++ before ++ [(k, p)] /\
      extract_document E p k w1 = (Ret r, w') /\
      is_failed r = false /\ entries_count r = Raise e /\
      dict_has r (py "database_error") = true.
Proof.
  intros E f1 f2 delay w e w'.
  rewrite process_batch_run.
  destruct (listdir E f1) as [names1|e1]; [|discriminate].
  destruct (listdir E f2) as [names2|e2]; [|discriminate].
  destruct (run_loops_run E delay (sort (selected f1 names1))
              (sort (selected f2 names2)) (log_add w [EvListdir f1; EvListdir f2]))
    as (out & evs & db' & Hrun & Hout).
  rewrite Hrun. intros H. injection H as -> <-.
  destruct Hout as (Hc & Hdump & k & p & r & w1 & before & after
                    & Hsel & Hproc & Hres & Hf & Hen).
  split; [exact Hc|]. split.
  { cbn [w_log log_add]. rewrite !count_events_app, Hdump.
    cbv [count_events filter is_dump length]. lia. }
  exists names1, names2, k, p, r, w1, before, after.
  split; [reflexivity|]. split; [reflexivity|]. split; [exact Hsel|].
  split.
  { cbn [w_log log_add]. rewrite !processed_app, Hproc. cbn [processed].
    now rewrite app_nil_r. }
  split; [exact Hres|]. split; [exact Hf|]. split; [exact Hen|].
  assert (Hr : result_of E k p r) by (eexists _, _; exact Hres).
  exact (uncountable_has_database_error Hr Hf Hen).
Qed.

Lemma batch_raises_only_on_count_witness :
  let content := js "{'document_type':'INDEX_1','entries':7}" in
  let E := env_const (PyStr content) [py "b.png"; py "a.jpg"] in
  let f1 := py "/data/index1/" in
  let f2 := py "/data/index2/" in
  let out := process_batch_documents E f1 f2 2%N world0 in
  let e := match fst out with Raise e => e | Ret _ => Exn OSError [] end in
  exn_cls e = TypeError /\
  count_events is_dump (w_log (snd out)) = count_events is_dump (w_log world0) /\
  exists names1 names2 k p r w1 before after,
    listdir E f1 = Ret names1 /\ listdir E f2 = Ret names2 /\
    List.map (pair INDEX_1) (sort (selected f1 names1)) ++
    List.map (pair INDEX_2) (sort (selected f2 names2)) = before ++ (k, p) :: after /\
    processed (w_log (snd out)) = processed (w_log world0) ++ before ++ [(k, p)] /\
    extract_document E p k w1 = (Ret r, snd out) /\
    is_failed r = false /\ entries_count r = Raise e /\
    dict_has r (py "database_error") = true.
Proof.
  intros content E f1 f2 out e.
  apply (@batch_raises_only_on_count E f1 f2 2%N world0 e (snd out)).
  vm_compute. reflexivity.
Defined.

(** X17: [test_single_document] ends in one of three ways.  A result
    counted as failed is returned and no result file is written; a result
    that is not failed and whose entries can be counted is written to the
    result file and returned; and a result that is not failed and whose
    entries [len] refuses makes the test raise a TypeError, which happens
    only to a result that carries a [database_error] (a committed write
    always has entries that can be counted). *)
Theorem single_test_outcome :
  forall E p k w,
    exists r w1,
      extract_document E p k w = (Ret r, w1) /\
      ((is_failed r = true /\ test_single_document E p k w = (Ret r, w1))
       \/ (is_failed r = false /\ (exists n, entries_count r = Ret n) /\
           test_single_document E p k w = (Ret r, log_add w1 [EvDump]))
       \/ (is_failed r = false /\ dict_has r (py "database_error") = true /\
           exists e, exn_cls e = TypeError /\
                     test_single_document E p k w = (Raise e, w1))).
Proof.
  intros E p k w.
  destruct (extract_document_returns E p k w) as (r & w1 & Hr).
  exists r, w1. split; [exact Hr|].
  assert (Ht : test_single_document E p k w =
               if is_failed r then (Ret r, w1)
               else match entries_count r with
                    | Ret _ => (Ret r, log_add w1 [EvDump])
                    | Raise e => (Raise e, w1)
                    end).
  { unfold test_single_document. unfold bind at 1. rewrite Hr.
    destruct (is_failed r); [reflexivity|].
    unfold bind, lift, emit, ret. destruct (entries_count r); reflexivity. }
  rewrite Ht. clear Ht.
  destruct (is_failed r) eqn:Hf; [left; auto|right].
  destruct (entries_count r) as [n|e] eqn:En.
  - left. split; [reflexivity|]. split; [now exists n|reflexivity].
  - right. split; [reflexivity|].
    assert (Hres : result_of E k p r) by (eexists _, _; exact Hr).
    split; [exact (uncountable_has_database_error Hres Hf En)|].
    exists e. split; [|reflexivity].
    unfold entries_count, py_len in En.
    destruct (dict_get_default r (py "entries") (PyList [])); try discriminate;
      injection En as <-; reflexivity.
Qed.


(** X19: every path a task of the DAG selects in a directory is also
    selected by the Batch Driver in the same directory written with a slash
    at its end, and it comes from a name that does not start with a dot and
    ends in .jpg, .jpeg or .png in lower case.  The Batch Driver selects
    more: a name with an extension in upper case or a name that starts with
    a dot is processed by [process_all_documents] and by no task for one
    kind. *)
Theorem glob_within_driver_selection :
  forall d names p,
    d <> [] -> endswith d (py "/") = false ->
    In p (glob_selected d names) ->
    In p (selected (d ++ py "/") names) /\
    (exists name,
        In name names /\ p = path_join d name /\ ishidden name = false /\
        (endswith name (py ".jpg") || endswith name (py ".jpeg")
         || endswith name (py ".png")) = true) /\
    glob_selected d [py "A.JPG"; py ".b.png"] = [] /\
    length (selected (d ++ py "/") [py "A.JPG"; py ".b.png"]) = 2%nat.
Proof.
  intros d names p Hd He Hin.
  assert (Hone : forall ext,
             ext = py ".jpg" \/ ext = py ".jpeg" \/ ext = py ".png" ->
             In p (List.map (path_join d) (filter (glob_match ext) names)) ->
             In p (selected (d ++ py "/") names) /\
             exists name,
               In name names /\ p = path_join d name /\ ishidden name = false /\
               endswith name ext = true).
  { intros ext Hext H. apply in_map_iff in H. destruct H as (name & <- & H).
    apply filter_In in H. destruct H as [Hn Hm]. split.
    - unfold selected. apply in_map_iff. exists name.
      split; [now apply path_join_slash|].
      apply filter_In. split; [exact Hn|]. now apply glob_match_image with ext.
    - exists name. unfold glob_match in Hm. apply andb_true_iff in Hm.
      destruct Hm as [Hh Hm]. apply negb_true_iff in Hh. auto. }
  split; [|split; [|split; reflexivity]].
  - unfold glob_selected in Hin. apply in_app_iff in Hin.
    destruct Hin as [Hin|Hin]; [now apply (Hone (py ".jpg")); auto|].
    apply in_app_iff in Hin.
    destruct Hin as [Hin|Hin]; [now apply (Hone (py ".jpeg")); auto|].
    now apply (Hone (py ".png")); auto.
  - unfold glob_selected in Hin. apply in_app_iff in Hin.
    destruct Hin as [Hin|Hin].
    { destruct (Hone (py ".jpg")) as (_ & name & A & B & C & D); auto.
      exists name. rewrite D. auto. }
    apply in_app_iff in Hin. destruct Hin as [Hin|Hin].
    { destruct (Hone (py ".jpeg")) as (_ & name & A & B & C & D); auto.
      exists name. rewrite D, orb_true_r. auto. }
    destruct (Hone (py ".png")) as (_ & name & A & B & C & D); auto.
    exists name. rewrite D, orb_true_r. auto.
Qed.

Lemma glob_within_driver_selection_witness :
  let d := py "/english-handwritten/data/index1" in
  let names := [py "b.png"; py "A.JPG"; py "a.jpg"] in
  let p := py "/english-handwritten/data/index1/a.jpg" in
  In p (selected (d ++ py "/") names) /\
  (exists name,
      In name names /\ p = path_join d name /\ ishidden name = false /\
      (endswith name (py ".jpg") || endswith name (py ".jpeg")
       || endswith name (py ".png")) = true) /\
  glob_selected d [py "A.JPG"; py ".b.png"] = [] /\
  length (selected (d ++ py "/") [py "A.JPG"; py ".b.png"]) = 2%nat.
Proof.
  intros d names p.
  apply (@glob_within_driver_selection d names p);
    [discriminate|reflexivity|vm_compute; left; reflexivity].
Defined.

(** X20: the order in which [os.listdir] gives the names does not matter:
    two listings with the same names in different orders give the Batch
    Driver the same sorted list of files to process, and the tasks of the
    DAG likewise. *)
Theorem listing_order_irrelevant :
  forall folder names names',
    Permutation names names' ->
    sort (selected folder names) = sort (selected folder names') /\
    sort (glob_selected folder names) = sort (glob_selected folder names').
Proof.
  intros folder names names' P. split; apply sort_permutation.
  - unfold selected. now apply Permutation_map, filter_permutation.
  - unfold glob_selected.
    repeat apply Permutation_app; now apply Permutation_map, filter_permutation.
Qed.

Lemma listing_order_irrelevant_witness :
  let folder := py "/data/index1/" in
  let names := [py "b.png"; py "a.jpg"] in
  let names' := [py "a.jpg"; py "b.png"] in
  sort (selected folder names) = sort (selected folder names') /\
  sort (glob_selected folder names) = sort (glob_selected folder names').
Proof.
  intros folder names names'.
  apply (@listing_order_irrelevant folder names names'). apply perm_swap.
Defined.

(** X21: the two ways of running the DAG process the same files.  When
    every image name of the two data directories is visible and has its
    extension in lower case, the task for kind A hands to
    [extract_document] exactly the files that [process_all_documents]
    processes as kind A, in the same order, and the task for kind B those
    it processes as kind B; [process_all_documents], when it returns, has
    processed the sorted selection of the first folder and then that of the
    second. *)
Theorem dag_tasks_same_files :
  forall E w names1 names2,
    listdir E (py "/english-handwritten/data/index1") = Ret names1 ->
    listdir E (py "/english-handwritten/data/index2") = Ret names2 ->
    listdir E (py "/english-handwritten/data/index1/") = Ret names1 ->
    listdir E (py "/english-handwritten/data/index2/") = Ret names2 ->
    (forall name, In name (names1 ++ names2) -> is_image_file name = true ->
       ishidden name = false /\
       (endswith name (py ".jpg") || endswith name (py ".jpeg")
        || endswith name (py ".png")) = true) ->
    let files1 := sort (selected (py "/english-handwritten/data/index1/") names1) in
    let files2 := sort (selected (py "/english-handwritten/data/index2/") names2) in
    processed (w_log (snd (process_index1_only E w))) =
      processed (w_log w) ++ List.map (pair INDEX_1) files1 /\
    processed (w_log (snd (process_index2_only E w))) =
      processed (w_log w) ++ List.map (pair INDEX_2) files2 /\
    (forall res w',
        process_all_documents E w = (Ret res, w') ->
        processed (w_log w') =
          processed (w_log w) ++
          List.map (pair INDEX_1) files1 ++ List.map (pair INDEX_2) files2).
Proof.
  intros E w names1 names2 L1 L2 S1 S2 Hn files1 files2.
  unfold process_index1_only, process_index2_only.
  rewrite process_index_only_processed with (1 := L1).
  rewrite process_index_only_processed with (1 := L2).
  split; [|split].
  - do 2 f_equal. apply sort_permutation.
    apply (@glob_selected_perm (py "/english-handwritten/data/index1") names1);
      [discriminate|reflexivity|].
    intros name Hin. apply Hn. apply in_app_iff. now left.
  - do 2 f_equal. apply sort_permutation.
    apply (@glob_selected_perm (py "/english-handwritten/data/index2") names2);
      [discriminate|reflexivity|].
    intros name Hin. apply Hn. apply in_app_iff. now right.
  - intros res w'. unfold process_all_documents.
    rewrite process_batch_run, S1, S2. fold files1 files2.
    set (w0 := log_add w _).
    destruct (run_loops_run E 2 files1 files2 w0)
      as (out & evs & db' & Hrun & Hout).
    rewrite Hrun. intros H. injection H as -> <-.
    destruct Hout as (Habs & _).
    destruct (run_loops_uncounted_run E 2 files1 files2 w0) as (rs1 & rs2 & w2 & Hr & _ & _ & Hp).
    rewrite Habs in Hr. injection Hr as _ <-.
    rewrite Hp. subst w0. cbn [w_log log_add].
    rewrite processed_app. cbn [processed]. now rewrite app_nil_r.
Qed.

Lemma dag_tasks_same_files_witness :
  let content := js "{'document_type':'INDEX_1','entries':[]}" in
  let names := [py "b.png"; py "notes.txt"; py "a.jpg"] in
  let E := env_const (PyStr content) names in
  let files1 := sort (selected (py "/english-handwritten/data/index1/") names) in
  let files2 := sort (selected (py "/english-handwritten/data/index2/") names) in
  processed (w_log (snd (process_index1_only E world0))) =
    processed (w_log world0) ++ List.map (pair INDEX_1) files1 /\
  processed (w_log (snd (process_index2_only E world0))) =
    processed (w_log world0) ++ List.map (pair INDEX_2) files2 /\
  (forall res w',
      process_all_documents E world0 = (Ret res, w') ->
      processed (w_log w') =
        processed (w_log world0) ++
        List.map (pair INDEX_1) files1 ++ List.map (pair INDEX_2) files2).
Proof.
  intros content names E.
  apply (@dag_tasks_same_files E world0 names names);
    [reflexivity|reflexivity|reflexivity|reflexivity|].
  intros name Hin Hf. simpl in Hin.
  destruct Hin as [<-|[<-|[<-|[<-|[<-|[<-|[]]]]]]]; try discriminate Hf;
    split; reflexivity.
Defined.

(** X22: only the direct parse can give a value that is not an object.
    Whatever the text, [extract_json_from_response] returns None, or a JSON
    object, or (when the whole trimmed text is one JSON value, such as an
    array, a string or a number) the value [json.loads] makes of the
    trimmed text, after that one call alone.  The fenced block and the
    line scan hand the decoder a text that opens with a brace, and so give
    an object or nothing. *)
Theorem non_object_only_from_direct_parse :
  forall E content w v w',
    extract_json_from_response E content w = (Ret v, w') ->
    v = PyNone \/ (exists d, v = PyDict d) \/
    (json_loads (py_limits E) (strip content) = Ret v /\
     w' = log_add w [EvJsonLoads (strip content)]).
Proof.
  intros E content w v w' H. rewrite extract_first_success in H.
  revert H. unfold three_tiers. cbn [first_success].
  destruct (tier_result (py_limits E) DirectParse content) as [v1| |e1] eqn:E1;
    cbn [fst snd].
  - intros H. injection H as <- <-. right. right. unfold tier_result in E1.
    cbn [tier_candidate] in E1. unfold tier_events. cbn [tier_candidate].
    destruct (json_loads (py_limits E) (strip content)) as [x|e];
      [|destruct (exn_class_eqb (exn_cls e) JSONDecodeError); discriminate].
    injection E1 as ->. auto.
  - destruct (tier_result (py_limits E) FencedBlock content) as [v2| |e2] eqn:E2;
      cbn [fst snd].
    + intros H. injection H as <- _. right. left.
      apply later_tiers_objects with (2 := E2). auto.
    + destruct (tier_result (py_limits E) LineRange content) as [v3| |e3] eqn:E3;
        cbn [fst snd].
      * intros H. injection H as <- _. right. left.
        apply later_tiers_objects with (2 := E3). auto.
      * intros H. injection H as <- _. left. reflexivity.
      * discriminate.
    + discriminate.
  - discriminate.
Qed.

Lemma non_object_only_from_direct_parse_witness :
  let E := env_const PyNone [] in
  let content := py " [1, 2] " in
  let out := extract_json_from_response E content world0 in
  let v := PyList [PyInt 1; PyInt 2] in
  v = PyNone \/ (exists d, v = PyDict d) \/
  (json_loads (py_limits E) (strip content) = Ret v /\
   snd out = log_add world0 [EvJsonLoads (strip content)]).
Proof.
  intros E content out v.
  apply (@non_object_only_from_direct_parse E content world0 v (snd out)).
  reflexivity.
Defined.

(** X23: selection and order in a batch.  The Batch Driver selects the
    names that end in .jpg, .jpeg or .png in any letter case and sorts the
    selected paths of each directory in lexicographic order.  The files it
    hands to [extract_document] are an initial part of the sorted files of
    the first directory followed by the sorted files of the second, so no
    file of kind B comes before a file of kind A and no file is processed
    out of order or twice; and when the batch returns, every selected file
    was processed. *)
Theorem batch_selection_and_order :
  forall E f1 f2 delay w names1 names2,
    listdir E f1 = Ret names1 ->
    listdir E f2 = Ret names2 ->
    let files1 := sort (selected f1 names1) in
    let files2 := sort (selected f2 names2) in
    let out := process_batch_documents E f1 f2 delay w in
    (exists done rest,
        List.map (pair INDEX_1) files1 ++ List.map (pair INDEX_2) files2 = done ++ rest /\
        processed (w_log (snd out)) = processed (w_log w) ++ done /\
        ((exists res, fst out = Ret res) -> rest = []))
    /\ Sorted lex_le files1 /\ Permutation files1 (selected f1 names1)
    /\ Sorted lex_le files2 /\ Permutation files2 (selected f2 names2)
    /\ (forall folder names p,
          In p (selected folder names) <->
          exists name, In name names /\ has_image_extension name /\
                       p = path_join folder name).
Proof.
  intros E f1 f2 delay w names1 names2 H1 H2 files1 files2 out.
  split.
  { subst out. rewrite process_batch_run, H1, H2.
    destruct (run_loops_run E delay files1 files2
                (log_add w [EvListdir f1; EvListdir f2]))
      as (r & evs & db' & Hrun & Hout).
    fold files1 files2. rewrite Hrun. cbn [fst snd w_log log_add].
    destruct r as [res|e].
    - destruct Hout as (_ & _ & (blocks1 & blocks2 & B1 & B2 & ->) & _).
      exists (List.map (pair INDEX_1) files1 ++ List.map (pair INDEX_2) files2), [].
      split; [now rewrite app_nil_r|]. split; [|reflexivity].
      rewrite !processed_app, (processed_interleave delay B1),
        (processed_interleave delay B2). cbn [processed].
      now rewrite !app_nil_r.
    - destruct Hout as (_ & _ & k & p & r & w1 & before & after & Hsel & Hproc & _).
      exists (before ++ [(k, p)]), after.
      split; [rewrite Hsel, <- app_assoc; reflexivity|]. split.
      + rewrite !processed_app, Hproc. cbn [processed]. now rewrite app_nil_r.
      + intros (res & Hres). discriminate Hres. }
  split; [apply sort_sorted|]. split; [apply sort_perm|].
  split; [apply sort_sorted|]. split; [apply sort_perm|].
  intros folder names p. unfold selected. rewrite in_map_iff. split.
  - intros (name & <- & Hin). apply filter_In in Hin. destruct Hin as [Hin Hf].
    exists name. split; [exact Hin|]. split; [now apply is_image_file_iff|reflexivity].
  - intros (name & Hin & Hext & ->). exists name. split; [reflexivity|].
    apply filter_In. split; [exact Hin|now apply is_image_file_iff].
Qed.

Lemma batch_selection_and_order_witness :
  let names := [py "b.png"; py "notes.txt"; py "a.JPG"; py "c.jpeg"; py "jpg"] in
  let E := env_const (PyStr (js "{'document_type':'INDEX_1','entries':[]}")) names in
  let f1 := py "/data/index1/" in
  let f2 := py "/data/index2/" in
  let files1 := sort (selected f1 names) in
  let files2 := sort (selected f2 names) in
  let out := process_batch_documents E f1 f2 2%N world0 in
  files1 = [py "/data/index1/a.JPG"; py "/data/index1/b.png"; py "/data/index1/c.jpeg"]
  /\ processed (w_log (snd out)) =
     List.map (pair INDEX_1) files1 ++ List.map (pair INDEX_2) files2
  /\ (exists done rest,
        List.map (pair INDEX_1) files1 ++ List.map (pair INDEX_2) files2 = done ++ rest /\
        processed (w_log (snd out)) = processed (w_log world0) ++ done /\
        ((exists res, fst out = Ret res) -> rest = []))
  /\ Sorted lex_le files1 /\ Permutation files1 (selected f1 names)
  /\ Sorted lex_le files2 /\ Permutation files2 (selected f2 names)
  /\ (forall folder names p,
        In p (selected folder names) <->
        exists name, In name names /\ has_image_extension name /\
                     p = path_join folder name).
Proof.
  intros names E f1 f2 files1 files2 out.
  split; [vm_compute; reflexivity|]. split; [vm_compute; reflexivity|].
  apply (@batch_selection_and_order E f1 f2 2%N world0 names names); reflexivity.
Defined.
